(** * etl-mini-pipeline: the generator and the validate-and-partition stage

    A shallow embedding of

    - [src/generate/generate_transactions.py]  (module [Generate])
    - [src/transform/transform_transactions.py] (module [Transform])

    The two scripts lean on pandas, pandera, random and Faker.  What
    the scripts themselves do (the schema, the [try]/[except] that
    splits the frame, the summary, the generation loop) is written out
    here.  What they import is modelled in [Py], [Re], [Pandas] and
    [Pandera], as far as the scripts use it; conversions whose exact
    result belongs to the libraries (parsing a date, printing a
    float, drawing a random number, the text of a date, a frame as a
    CSV file) are fields of the records [Pandas.Engine],
    [Pandas.Csv], [Py.Dates] and [Generate.Lib], over which the
    theorems quantify. *)

From Stdlib Require Import ZArith String Ascii Bool List Lia.
From Stdlib Require Import Permutation Sorted QArith SpecFloat.
Import ListNotations.

Open Scope string_scope.
Open Scope list_scope.
Open Scope Z_scope.

(* ================================================================== *)
(** * Python values the scripts handle *)

Module Py.

(** A Python [str] is a sequence of code points; a [string] stands
    for the str whose code points are its characters (so the model
    covers code points below 256, where [\d] is [0-9]). *)

(** Exceptions the scripts can meet and do not catch, plus the
    [SystemExit] they raise themselves. *)
Inductive exception : Set :=
| TypeError
| KeyError
| ZeroDivisionError
| SystemExit (msg : string).

Inductive result (A : Type) : Type :=
| Ok (a : A)
| Raise (e : exception).
Arguments Ok {A} a.
Arguments Raise {A} e.

Definition bind {A B} (m : result A) (k : A -> result B) : result B :=
  match m with
  | Ok a => k a
  | Raise e => Raise e
  end.

Notation "x <- m ;; k" := (bind m (fun x => k))
  (at level 61, m at next level, right associativity).

Fixpoint mapM {A B} (f : A -> result B) (l : list A) : result (list B) :=
  match l with
  | [] => Ok []
  | a :: l' => b <- f a ;; bs <- mapM f l' ;; Ok (b :: bs)
  end.

(** ** [str(i)] and the format spec [0{width}d] *)

Definition digit_char (d : Z) : ascii := ascii_of_nat (48 + Z.to_nat d).

(** Decimal digits of [n >= 0], most significant first; [fuel]
    bounds the number of digits. *)
Fixpoint digits_aux (fuel : nat) (n : Z) (acc : string) : string :=
  match fuel with
  | O => acc
  | S fuel' =>
      let acc' := String (digit_char (n mod 10)) acc in
      if n / 10 =? 0 then acc' else digits_aux fuel' (n / 10) acc'
  end.

Definition digits (n : Z) : string :=
  digits_aux (S (Z.to_nat (Z.log2 n))) n "".

(** [str(i)] for an int. *)
Definition str_of_int (i : Z) : string :=
  if i <? 0 then String "-" (digits (- i)) else digits i.

Fixpoint zeros (k : nat) : string :=
  match k with
  | O => ""
  | S k' => String "0" (zeros k')
  end.

Definition zfill (width : nat) (s : string) : string :=
  (zeros (width - String.length s) ++ s)%string.

(** [f"{i:0{width}d}"]: zero padding goes between the sign and
    the digits, and the sign counts in the width. *)
Definition format_0d (i : Z) (width : nat) : string :=
  if i <? 0 then String "-" (zfill (width - 1) (digits (- i)))
  else zfill width (digits i).

(** ** [sorted(set(xs))] over row labels and [None] *)

Definition index_eqb (a b : option nat) : bool :=
  match a, b with
  | None, None => true
  | Some x, Some y => Nat.eqb x y
  | _, _ => false
  end.

Definition mem (a : option nat) (l : list (option nat)) : bool :=
  existsb (index_eqb a) l.

(** The elements of [set(xs)], each once (in some order). *)
Fixpoint set_of (xs : list (option nat)) : list (option nat) :=
  match xs with
  | [] => []
  | x :: xs' => if mem x xs' then set_of xs' else x :: set_of xs'
  end.

(** [a < b] on the elements [sorted] compares; [None < 1] and
    [1 < None] raise [TypeError]. *)
Definition lt (a b : option nat) : result bool :=
  match a, b with
  | Some x, Some y => Ok (Nat.ltb x y)
  | _, _ => Raise TypeError
  end.

(** Insertion of [x] into an ascending list; [sorted] is stable and
    its result does not depend on the algorithm, only whether a
    comparison raises does, and any two elements of a list of two
    or more that holds [None] are not all comparable. *)
Fixpoint insert (x : option nat) (l : list (option nat))
  : result (list (option nat)) :=
  match l with
  | [] => Ok [x]
  | y :: l' =>
      b <- lt x y ;;
      if b then Ok (x :: y :: l')
      else l'' <- insert x l' ;; Ok (y :: l'')
  end.

Fixpoint sorted (l : list (option nat)) : result (list (option nat)) :=
  match l with
  | [] => Ok []
  | x :: l' => s <- sorted l' ;; insert x s
  end.

(** ** [a / b] on ints (true division) *)

Definition truediv (a b : Z) : result Q :=
  if b =? 0 then Raise ZeroDivisionError
  else Ok (Qmake a 1 / Qmake b 1)%Q.

(** ** [template.format(arg)] and [Path(directory) / name] *)

(** [template.format(arg)] for a template with one replacement
    field [{}] and no other brace. *)
Fixpoint format (template arg : string) : string :=
  match template with
  | String "{" (String "}" rest) => (arg ++ rest)%string
  | String c rest => String c (format rest arg)
  | EmptyString => EmptyString
  end.

(** [str(pathlib.Path(directory) / name)] on a POSIX system, for a
    directory written without a trailing slash: a name that starts
    at the root replaces the directory.  (pathlib also drops
    repeated slashes and single dots; the names of the scripts have
    none.) *)
Definition joinpath (directory name : string) : string :=
  match name with
  | String "/" _ => name
  | _ => (directory ++ "/" ++ name)%string
  end.

(** ** [datetime.date] *)

(** A date is its ordinal (day 1 is 0001-01-01).  What the text of
    a date is belongs to the library. *)
Record Dates : Type := {
  (** [date.fromisoformat(s)]; [None] for [ValueError] *)
  date_fromisoformat : string -> option Z;
  (** [d.isoformat()] *)
  date_isoformat : Z -> string
}.

(** [date.fromisoformat(run_date) if run_date else date.today()],
    with the [SystemExit] both scripts raise on [ValueError]; an empty
    text is no run date to [if run_date:]. *)
Definition today_obj (D : Dates) (run_date : option string) (today : Z)
  : result Z :=
  match run_date with
  | None | Some EmptyString => Ok today
  | Some s =>
      match date_fromisoformat D s with
      | Some d => Ok d
      | None =>
          Raise (SystemExit
                   "Error: run_date must be in 'YYYY-MM-DD' format.")
      end
  end.

End Py.

(* ================================================================== *)
(** * The fragment of [re] the schema's patterns use *)

Module Re.

(** One position of a pattern. *)
Inductive atom : Set :=
| Lit (c : ascii)      (* a literal character *)
| Digit                (* \d *)
| Upper.               (* [A-Z] *)

(** [atom{n}]; a bare atom is [atom{1}]. *)
Definition piece : Set := (atom * nat)%type.

(** A pattern [^ pieces $]. *)
Definition regex : Set := list piece.

Definition is_digit (c : ascii) : bool :=
  let n := nat_of_ascii c in (48 <=? n)%nat && (n <=? 57)%nat.

Definition is_upper (c : ascii) : bool :=
  let n := nat_of_ascii c in (65 <=? n)%nat && (n <=? 90)%nat.

Definition atom_matches (a : atom) (c : ascii) : bool :=
  match a with
  | Lit c' => Ascii.eqb c' c
  | Digit => is_digit c
  | Upper => is_upper c
  end.

(** ** Reading the pattern text *)

(** The number between the braces of [{n}]. *)
Fixpoint parse_count (s : string) (acc : nat) : option (nat * string) :=
  match s with
  | String c s' =>
      if Ascii.eqb c "}" then Some (acc, s')
      else if is_digit c
           then parse_count s' (10 * acc + (nat_of_ascii c - 48))%nat
           else None
  | EmptyString => None
  end.

(** An optional [{n}] after an atom. *)
Definition parse_repeat (s : string) : option (nat * string) :=
  match s with
  | String "{" s' => parse_count s' 0%nat
  | _ => Some (1%nat, s)
  end.

(** The text after [^], up to and including the final [$].  The
    recursion is on [fuel], the length of the text. *)
Fixpoint parse_pieces (fuel : nat) (s : string) : option regex :=
  match fuel with
  | O => None
  | S fuel' =>
      match s with
      | "$" => Some []
      | String "\" (String "d" s') =>
          match parse_repeat s' with
          | Some (n, rest) =>
              option_map (cons (Digit, n)) (parse_pieces fuel' rest)
          | None => None
          end
      | String "[" (String "A" (String "-" (String "Z" (String "]" s')))) =>
          match parse_repeat s' with
          | Some (n, rest) =>
              option_map (cons (Upper, n)) (parse_pieces fuel' rest)
          | None => None
          end
      | String c s' =>
          if existsb (Ascii.eqb c) (list_ascii_of_string "\[](){}.*+?|^$")
          then None
          else
            match parse_repeat s' with
            | Some (n, rest) =>
                option_map (cons (Lit c, n)) (parse_pieces fuel' rest)
            | None => None
            end
      | EmptyString => None
      end
  end.

(** [re.compile(pattern)] for patterns of the shape [^...$];
    [None] for anything outside the fragment. *)
Definition compile (pattern : string) : option regex :=
  match pattern with
  | String "^" s => parse_pieces (S (String.length s)) s
  | _ => None
  end.

(** ** Matching *)

(** [n] characters matching [a]; the rest of the subject. *)
Fixpoint match_repeat (a : atom) (n : nat) (s : string) : option string :=
  match n with
  | O => Some s
  | S n' =>
      match s with
      | String c s' =>
          if atom_matches a c then match_repeat a n' s' else None
      | EmptyString => None
      end
  end.

(** [$] matches at the end of the subject and before a newline that
    ends it. *)
Definition at_end (s : string) : bool :=
  match s with
  | EmptyString => true
  | String c EmptyString => Ascii.eqb c (ascii_of_nat 10)
  | _ => false
  end.

Fixpoint match_pieces (r : regex) (s : string) : bool :=
  match r with
  | [] => at_end s
  | (a, n) :: r' =>
      match match_repeat a n s with
      | Some rest => match_pieces r' rest
      | None => false
      end
  end.

(** [re.match(pattern, s) is not None]. *)
Definition matches (pattern : string) (s : string) : bool :=
  match compile pattern with
  | Some r => match_pieces r s
  | None => false
  end.

End Re.

(* ================================================================== *)
(** * pandas: frames, label selection, dtype conversion *)

Module Pandas.

(** A cell.  [pd.read_csv] yields int64, float64, bool and object
    columns, the latter holding str and the float NaN for a missing
    field; a validated frame also holds datetime64 cells. *)
Inductive value : Set :=
| VStr (s : string)
| VInt (i : Z)
| VFloat (x : spec_float)
| VBool (b : bool)
| VTime (t : option Z).   (* nanoseconds since the epoch; None is NaT *)

Definition NaN : value := VFloat S754_nan.

Definition isna (v : value) : bool :=
  match v with
  | VFloat S754_nan => true
  | VTime None => true
  | _ => false
  end.

(** Equality of two cells of one column, as [duplicated] and [isin]
    see it. *)
Definition value_eqb (a b : value) : bool :=
  match a, b with
  | VStr x, VStr y => String.eqb x y
  | VInt x, VInt y => Z.eqb x y
  | VFloat x, VFloat y => SFeqb x y
  | VBool x, VBool y => Bool.eqb x y
  | VTime (Some x), VTime (Some y) => Z.eqb x y
  | VTime None, VTime None => true
  | _, _ => false
  end.

(** A row: its label in the index and its cells, one per column. *)
Definition row : Set := (nat * list value)%type.

Record DataFrame : Set := {
  df_columns : list string;
  df_rows : list row
}.

Definition index (df : DataFrame) : list nat := map fst (df_rows df).

(** [len(df)] *)
Definition len (df : DataFrame) : Z := Z.of_nat (List.length (df_rows df)).

(** [df.empty]: some axis has length 0. *)
Definition empty (df : DataFrame) : bool :=
  match df_rows df, df_columns df with
  | [], _ => true
  | _, [] => true
  | _, _ => false
  end.

(** The frame [pd.DataFrame(data, columns=...)] builds, and
    [pd.read_csv] of a file none of whose records has more fields
    than the header: the rows labelled 0, 1, 2, ...  (Line 59 passes
    no [index_col]: of a file whose records have one field more than
    the header, [pd.read_csv] takes the first field of each record as
    the label of its row.  Such a batch is a [DataFrame] with the
    labels it carries, as long as they are numbers; [frame] is not
    what is read then.) *)
Definition frame (columns : list string) (data : list (list value))
  : DataFrame :=
  {| df_columns := columns;
     df_rows := combine (seq 0 (List.length data)) data |}.

(** [pd.DataFrame(columns=columns)] *)
Definition no_rows (columns : list string) : DataFrame :=
  {| df_columns := columns; df_rows := [] |}.

(** Position of the column called [name]. *)
Fixpoint position (name : string) (columns : list string) : option nat :=
  match columns with
  | [] => None
  | c :: columns' =>
      if String.eqb name c then Some O
      else option_map S (position name columns')
  end.

Definition cell (k : nat) (r : row) : value := nth k (snd r) NaN.

(** The values of the column at position [k], in row order. *)
Definition column (df : DataFrame) (k : nat) : list value :=
  map (cell k) (df_rows df).

(** The cells of a row with the one at position [k] replaced.  A
    row shorter than the frame is wide reads as padded with NaN,
    here as in [cell] (that is how [pd.read_csv] fills it). *)
Fixpoint set_nth (k : nat) (v : value) (cells : list value) : list value :=
  match k, cells with
  | O, [] => [v]
  | O, _ :: cells' => v :: cells'
  | S k', [] => NaN :: set_nth k' v []
  | S k', c :: cells' => c :: set_nth k' v cells'
  end.

(** [df[name] = values], for the column at position [k]. *)
Fixpoint set_cells (k : nat) (values : list value) (rows : list row)
  : list row :=
  match rows, values with
  | (l, cs) :: rows', v :: values' =>
      (l, set_nth k v cs) :: set_cells k values' rows'
  | _, _ => rows
  end.

Definition set_column (k : nat) (values : list value) (df : DataFrame)
  : DataFrame :=
  {| df_columns := df_columns df;
     df_rows := set_cells k values (df_rows df) |}.

(** ** Selection by label *)

Definition has_label (l : nat) (r : row) : bool := Nat.eqb (fst r) l.

(** The rows carrying one label; a label the index lacks ([None]
    always is one) is a [KeyError]. *)
Definition rows_at (df : DataFrame) (label : option nat)
  : Py.result (list row) :=
  match label with
  | None => Py.Raise Py.KeyError
  | Some l =>
      match filter (has_label l) (df_rows df) with
      | [] => Py.Raise Py.KeyError
      | rs => Py.Ok rs
      end
  end.

(** [df.loc[labels]]: the rows in the order of [labels]. *)
Definition loc (df : DataFrame) (labels : list (option nat))
  : Py.result DataFrame :=
  Py.bind (Py.mapM (rows_at df) labels) (fun rss =>
  Py.Ok {| df_columns := df_columns df; df_rows := concat rss |}).

(** [df.drop(index=labels)]: the other rows, in the frame's order. *)
Definition drop (df : DataFrame) (labels : list (option nat))
  : Py.result DataFrame :=
  Py.bind (Py.mapM (rows_at df) labels) (fun _ =>
  Py.Ok {| df_columns := df_columns df;
           df_rows := filter (fun r => negb (Py.mem (Some (fst r)) labels))
                             (df_rows df) |}).

(** Insertion of a row into rows ascending by label, after the rows
    with the same label. *)
Fixpoint insert_row (r : row) (rows : list row) : list row :=
  match rows with
  | [] => [r]
  | r' :: rows' =>
      if (fst r <? fst r')%nat then r :: rows
      else r' :: insert_row r rows'
  end.

(** [pd.concat([a, b]).sort_index()]: the rows of both frames,
    ascending by label. *)
Definition concat_sort_index (a b : DataFrame) : DataFrame :=
  {| df_columns := df_columns a;
     df_rows := fold_right insert_row [] (df_rows a ++ df_rows b) |}.

(** ** Conversions between dtypes *)

(** The conversions whose result is the libraries' business.  Each
    field is one library call on one cell, except [to_datetime],
    which pandas applies to a column as a whole (the format of the
    first entry can decide how the others are read). *)
Record Engine : Type := {
  (** [pd.to_datetime(column)] on a column that is not datetime64
      yet: [None] when it raises. *)
  to_datetime : list value -> option (list (option Z));
  (** [float(s)] *)
  float_of_str : string -> option spec_float;
  (** [int(s)] *)
  int_of_str : string -> option Z;
  (** float64 to int64; [None] when it raises (NaN, infinities). *)
  int_of_float : spec_float -> option Z;
  (** [str(x)] of a float that is not NaN. *)
  str_of_float : spec_float -> string;
  (** [str(t)] of a timestamp. *)
  str_of_datetime : Z -> string
}.

(** int64 to float64: the nearest float, ties to even. *)
Definition float_of_int (i : Z) : spec_float :=
  binary_normalize 53 1024 i 0 false.

(** ** CSV files *)

(** [df.to_csv(path, index=False)] and [pd.read_csv(path)].  What a
    frame is as a file, and what a file reads as, is the library's
    business (the text of a float, the cells that read as missing);
    files that [read_csv] does not parse are left out, and so are
    files with a record that has more fields than the header, whose
    rows are not labelled by position.  [read_csv] yields the column
    names and the records; the frame made of them has the rows
    labelled 0, 1, 2, ... *)
Record Csv : Type := {
  file : Type;
  to_csv : DataFrame -> file;
  read_csv : file -> list string * list (list value)
}.

(** The CSV files of the working directory, by path. *)
Definition disk (C : Csv) : Type := string -> option (file C).

(** The disk once [f] is written at [path]. *)
Definition write {C : Csv} (path : string) (f : file C) (fs : disk C)
  : disk C :=
  fun p => if String.eqb p path then Some f else fs p.

End Pandas.

(* ================================================================== *)
(** * pandera: a schema, and [validate(df, lazy=True)] *)

(** What the model takes from pandera (0.24 and later, the versions
    that have [pandera.pandas]):
    - with [lazy=True] every failure is collected, and
      [SchemaErrors.failure_cases] has one line per failing cell, with
      the label of its row, and one line without a row ([index] is
      [None]) per failure of a column as a whole: a column the schema
      does not know, a column that is missing, a dtype that is not
      the declared one;
    - a column whose coercion raises is left as it was, so that its
      dtype check fails as well;
    - [unique=True] reports every row of a repeated value
      ([report_duplicates] is ["all"] unless set);
    - missing values fail [nullable=False] and are skipped by the
      checks. *)

Module Pandera.
Import Pandas.

Inductive DataType : Set := String_ | DateTime | Float | Int.

Inductive Check : Set :=
| str_matches (pattern : string)
| gt (min_value : Z)
| isin (allowed_values : list value)
| str_length (min_value max_value : nat).

(** [Column(dtype, checks=..., unique=..., coerce=...)]; [nullable]
    keeps its default, [False]. *)
Record Column : Set := {
  dtype : DataType;
  checks : list Check;
  unique : bool;
  column_coerce : bool
}.

(** [DataFrameSchema(columns, coerce=..., strict=...)] *)
Record DataFrameSchema : Set := {
  columns : list (string * Column);
  coerce : bool;
  strict : bool
}.

(** What a failure case is about. *)
Inductive check_id : Set :=
| column_in_schema
| column_in_dataframe
| coerce_dtype_id (t : DataType)
| dtype_id (t : DataType)
| not_nullable
| field_uniqueness
| check_number (n : nat) (c : Check).

(** A line of [SchemaErrors.failure_cases].  A failure case about a
    column as a whole has no row: its [index] is [None]. *)
Record failure_case : Set := {
  fc_column : option string;
  fc_check : check_id;
  fc_failure_case : value;
  fc_index : option nat
}.

(** ** Coercion *)

(** Coercion to str leaves missing values missing. *)
Definition astype_str (E : Engine) (v : value) : value :=
  match v with
  | VStr s => VStr s
  | VInt i => VStr (Py.str_of_int i)
  | VFloat S754_nan => v
  | VFloat x => VStr (str_of_float E x)
  | VBool b => VStr (if b then "True" else "False")
  | VTime None => v
  | VTime (Some t) => VStr (str_of_datetime E t)
  end.

Definition astype_float (E : Engine) (v : value) : option value :=
  match v with
  | VStr s => option_map VFloat (float_of_str E s)
  | VInt i => Some (VFloat (float_of_int i))
  | VFloat x => Some v
  | VBool b => Some (VFloat (float_of_int (if b then 1 else 0)))
  | VTime _ => None
  end.

Definition astype_int (E : Engine) (v : value) : option value :=
  match v with
  | VStr s => option_map VInt (int_of_str E s)
  | VInt i => Some v
  | VFloat x => option_map VInt (int_of_float E x)
  | VBool b => Some (VInt (if b then 1 else 0))
  | VTime _ => None
  end.

Definition is_time (v : value) : bool :=
  match v with VTime _ => true | _ => false end.

(** One cell to [t]; [None] when the conversion raises.  A cell on
    its way to datetime64 is left to [to_datetime]. *)
Definition coerce_cell (E : Engine) (t : DataType) (v : value)
  : option value :=
  match t with
  | String_ => Some (astype_str E v)
  | Float => astype_float E v
  | Int => astype_int E v
  | DateTime => if is_time v then Some v else None
  end.

Fixpoint all_some {A} (l : list (option A)) : option (list A) :=
  match l with
  | [] => Some []
  | Some a :: l' => option_map (cons a) (all_some l')
  | None :: _ => None
  end.

(** A column to [t]: every cell converts, or the conversion raises
    and the column stays as it was.  A datetime64 column is already
    converted. *)
Definition coerce_column (E : Engine) (t : DataType) (values : list value)
  : option (list value) :=
  match t with
  | DateTime =>
      if forallb is_time values then Some values
      else
        match to_datetime E values with
        | Some ts =>
            Some (map (fun i => VTime (nth i ts None))
                      (seq 0 (List.length values)))
        | None => None
        end
  | _ => all_some (map (coerce_cell E t) values)
  end.

(** The failure cases of a conversion that raised: the cells that do
    not convert on their own, each with its row.  A conversion to
    datetime64 is the column's as a whole; which cells it blames is
    not modelled (the dtype failure case that follows names no row
    whatever they are). *)
Definition coerce_failures (E : Engine) (name : string) (t : DataType)
    (labelled : list (nat * value)) : list failure_case :=
  match t with
  | DateTime => []
  | _ =>
      flat_map (fun lv : nat * value =>
        match coerce_cell E t (snd lv) with
        | Some _ => []
        | None => [ {| fc_column := Some name;
                       fc_check := coerce_dtype_id t;
                       fc_failure_case := snd lv;
                       fc_index := Some (fst lv) |} ]
        end) labelled
  end.

(** The parser [coerce_dtype] on one schema column: the column is
    assigned its converted values; when the conversion raises, the
    error is collected and the column is left as it was. *)
Definition coerce_one (E : Engine) (schema_coerce : bool)
    (acc : DataFrame * list failure_case) (c : string * Column)
  : DataFrame * list failure_case :=
  let (df, errors) := acc in
  if schema_coerce || column_coerce (snd c) then
    match position (fst c) (df_columns df) with
    | None => acc
    | Some k =>
        match coerce_column E (dtype (snd c)) (column df k) with
        | Some values => (set_column k values df, errors)
        | None =>
            (df, errors ++ coerce_failures E (fst c) (dtype (snd c))
                              (combine (index df) (column df k)))
        end
    end
  else acc.

Definition coerce_dtype (E : Engine) (schema : DataFrameSchema)
    (df : DataFrame) : DataFrame * list failure_case :=
  fold_left (coerce_one E (coerce schema)) (columns schema) (df, []).

(** ** Checks *)

Definition scalar_failure_case (column : option string) (check : check_id)
    (x : string) : failure_case :=
  {| fc_column := column; fc_check := check;
     fc_failure_case := VStr x; fc_index := None |}.

Definition in_schema (schema : DataFrameSchema) (name : string) : bool :=
  existsb (fun c => String.eqb name (fst c)) (columns schema).

(** [strict=True]: the parser raises at the first column of the
    frame that the schema does not name; the error is collected and
    validation goes on. *)
Definition strict_filter_columns (schema : DataFrameSchema)
    (df : DataFrame) : list failure_case :=
  if strict schema then
    match filter (fun name => negb (in_schema schema name)) (df_columns df)
    with
    | [] => []
    | name :: _ => [scalar_failure_case None column_in_schema name]
    end
  else [].

(** A column of the schema the frame lacks ([required] keeps its
    default, [True]). *)
Definition check_column_presence (schema : DataFrameSchema)
    (df : DataFrame) : list failure_case :=
  flat_map (fun c : string * Column =>
    match position (fst c) (df_columns df) with
    | Some _ => []
    | None => [scalar_failure_case None column_in_dataframe (fst c)]
    end) (columns schema).

(** Does the cell belong to a column of dtype [t]?  A str column is
    an object column; a missing value fits in it. *)
Definition has_dtype (t : DataType) (v : value) : bool :=
  match t, v with
  | String_, VStr _ => true
  | String_, _ => isna v
  | DateTime, VTime _ => true
  | Float, VFloat _ => true
  | Int, VInt _ => true
  | _, _ => false
  end.

Definition dtype_name (t : DataType) : string :=
  match t with
  | String_ => "object"
  | DateTime => "datetime64[ns]"
  | Float => "float64"
  | Int => "int64"
  end.

(** A check on one cell that is not missing. *)
Definition check_value (c : Check) (v : value) : bool :=
  match c, v with
  | str_matches pattern, VStr s => Re.matches pattern s
  | gt min_value, VFloat x => SFltb (float_of_int min_value) x
  | gt min_value, VInt i => min_value <? i
  | isin allowed_values, _ => existsb (value_eqb v) allowed_values
  | str_length lo hi, VStr s =>
      (lo <=? String.length s)%nat && (String.length s <=? hi)%nat
  | _, _ => false
  end.

Definition row_failures (name : string) (check : check_id)
    (fails : value -> bool) (labelled : list (nat * value))
  : list failure_case :=
  map (fun lv : nat * value =>
         {| fc_column := Some name; fc_check := check;
            fc_failure_case := snd lv; fc_index := Some (fst lv) |})
      (filter (fun lv : nat * value => fails (snd lv)) labelled).

(** [Series.duplicated(keep=False)] at one cell: the value occurs
    at least twice in the column.  ([report_duplicates] keeps its
    default, ["all"].) *)
Definition duplicated (values : list value) (v : value) : bool :=
  (2 <=? List.length (filter (value_eqb v) values))%nat.

Fixpoint run_checks (name : string) (n : nat) (cs : list Check)
    (labelled : list (nat * value)) : list failure_case :=
  match cs with
  | [] => []
  | c :: cs' =>
      row_failures name (check_number n c)
        (fun v => negb (isna v) && negb (check_value c v)) labelled
      ++ run_checks name (S n) cs' labelled
  end.

(** The checks of one schema column on the frame after coercion:
    nullable, unique, dtype, then the column's own checks.  When
    the dtype check fails the column is not of the type the checks
    expect; what they then report (some raise inside pandera and
    are reported without a row) is not listed: the dtype failure
    case, which has no row either, is. *)
Definition check_column (c : string * Column) (df : DataFrame)
  : list failure_case :=
  match position (fst c) (df_columns df) with
  | None => []
  | Some k =>
      let values := column df k in
      let labelled := combine (index df) values in
      row_failures (fst c) not_nullable isna labelled
      ++ (if unique (snd c)
          then row_failures (fst c) field_uniqueness
                 (fun v => negb (isna v) && duplicated values v) labelled
          else [])
      ++ (if forallb (has_dtype (dtype (snd c))) values
          then run_checks (fst c) 0 (checks (snd c)) labelled
          else [scalar_failure_case (Some (fst c))
                  (dtype_id (dtype (snd c)))
                  (dtype_name (dtype (snd c)))])
  end.

Definition run_schema_component_checks (schema : DataFrameSchema)
    (df : DataFrame) : list failure_case :=
  flat_map (fun c => check_column c df) (columns schema).

(** ** [schema.validate(df, lazy=True)] *)

Inductive validation : Set :=
| Validated (df : DataFrame)
| SchemaErrors (failure_cases : list failure_case).

Definition validate (E : Engine) (schema : DataFrameSchema)
    (df : DataFrame) : validation :=
  let unknown := strict_filter_columns schema df in
  let (coerced, not_coerced) := coerce_dtype E schema df in
  let missing := check_column_presence schema df in
  let failed := run_schema_component_checks schema coerced in
  match unknown ++ not_coerced ++ missing ++ failed with
  | [] => Validated coerced
  | failure_cases => SchemaErrors failure_cases
  end.

End Pandera.

(* ================================================================== *)
(** * [src/transform/transform_transactions.py] *)

Module Transform.
Import Pandas Pandera.

(** Lines 64-74. *)
Definition schema : DataFrameSchema :=
  {| columns :=
       [ ("transaction_id",
          {| dtype := String_; checks := [str_matches "^txn_\d{6}$"];
             unique := true; column_coerce := false |});
         ("user_id",
          {| dtype := String_; checks := [str_matches "^u_\d{4}$"];
             unique := false; column_coerce := false |});
         ("timestamp",
          {| dtype := DateTime; checks := [];
             unique := false; column_coerce := true |});
         ("amount",
          {| dtype := Float; checks := [gt 0];
             unique := false; column_coerce := false |});
         ("currency",
          {| dtype := String_;
             checks := [isin [VStr "USD"; VStr "EUR"; VStr "HUF"]];
             unique := false; column_coerce := false |});
         ("payment_method",
          {| dtype := String_;
             checks := [isin [VStr "credit_card"; VStr "paypal";
                              VStr "debit_card"; VStr "bank_transfer";
                              VStr "crypto"]];
             unique := false; column_coerce := false |});
         ("country",
          {| dtype := String_;
             checks := [str_length 2 2; str_matches "^[A-Z]{2}$"];
             unique := false; column_coerce := false |});
         ("device",
          {| dtype := String_;
             checks := [isin [VStr "mobile"; VStr "desktop";
                              VStr "tablet"]];
             unique := false; column_coerce := false |});
         ("is_chargeback",
          {| dtype := Int; checks := [isin [VInt 0; VInt 1]];
             unique := false; column_coerce := false |}) ];
     coerce := true;
     strict := true |}.

(** What the script prints (lines 82 and 99-107); the two ratios are
    kept as exact quotients, their rendering by [:.2%] is not
    modelled. *)
Inductive line : Set :=
| Data_validation_errors_found
| Total_records_processed (n : Z)
| Valid_records (n : Z) (ratio : Q)
| Invalid_records (n : Z) (ratio : Q)
| Invalid_records_moved_to_quarantine
| No_invalid_records
| Transformed_data_saved.

(** Lines 77-86: the validated frame and no bad rows, or the rows
    named by the failure cases and the others. *)
Definition separate (E : Engine) (df_raw : DataFrame)
  : Py.result (DataFrame * DataFrame * list line) :=
  match validate E schema df_raw with
  | Validated df_validated =>
      Py.Ok (df_validated, no_rows (df_columns df_raw), [])
  | SchemaErrors failures =>
      Py.bind (Py.sorted (Py.set_of (map fc_index failures)))
        (fun bad_indices =>
      Py.bind (loc df_raw bad_indices) (fun df_bad =>
      Py.bind (drop df_raw bad_indices) (fun df_good =>
      Py.Ok (df_good, df_bad, [Data_validation_errors_found]))))
  end.

(** Lines 83-86 on their own: what the [except] branch makes of the
    failure cases it is handed, whichever they are.  ([separate] runs
    the same steps on the failure cases of [validate].) *)
Definition quarantine (df_raw : DataFrame) (failures : list failure_case)
  : Py.result (DataFrame * DataFrame) :=
  Py.bind (Py.sorted (Py.set_of (map fc_index failures)))
    (fun bad_indices =>
  Py.bind (loc df_raw bad_indices) (fun df_bad =>
  Py.bind (drop df_raw bad_indices) (fun df_good =>
  Py.Ok (df_good, df_bad)))).

(** Lines 95-107. *)
Definition summary (total_records good_records bad_records : Z)
  : Py.result (list line) :=
  Py.bind
    (if 0 <? total_records then
       Py.bind (Py.truediv good_records total_records) (fun valid =>
       Py.bind (Py.truediv bad_records total_records) (fun invalid =>
       Py.Ok [Valid_records good_records valid;
              Invalid_records bad_records invalid]))
     else Py.Ok [])
    (fun ratios =>
  Py.Ok ([Total_records_processed total_records]
         ++ ratios
         ++ [if 0 <? bad_records
             then Invalid_records_moved_to_quarantine
             else No_invalid_records]
         ++ [Transformed_data_saved])).

(** What a run leaves behind: the curated file, the quarantine file
    when there is one, and the printed lines.  [df_bad] is kept
    next to [quarantine_file] because the file is only written for
    a frame that is not empty. *)
Record outputs : Set := {
  df_good : DataFrame;
  df_bad : DataFrame;
  curated_file : DataFrame;
  quarantine_file : option DataFrame;
  stdout : list line
}.

(** [main], from line 57 on.  [input] is what [pd.read_csv] finds:
    [None] stands for [FileNotFoundError].  (Lines 36-55 turn the
    run date into the three file names; the message of line 61 names
    the input file.) *)
Definition main (E : Engine) (input : option DataFrame)
  : Py.result outputs :=
  match input with
  | None => Py.Raise (Py.SystemExit "Error: Input file not found.")
  | Some df_raw =>
      Py.bind (separate E df_raw) (fun '(df_good, df_bad, printed) =>
      Py.bind (summary (len df_raw) (len df_good) (len df_bad))
        (fun report =>
      Py.Ok {| df_good := df_good;
               df_bad := df_bad;
               curated_file := df_good;
               quarantine_file :=
                 if negb (empty df_bad) then Some df_bad else None;
               stdout := printed ++ report |}))
  end.

(** Lines 11-17. *)
Definition RAW_DIR : string := "data/raw".
Definition CURATED_DIR : string := "data/curated".
Definition QUARANTINE_DIR : string := "data/quarantine".
Definition RAW_TEMPLATE : string := "transactions_{}.csv".
Definition CURATED_TEMPLATE : string := "transactions_curated_{}.csv".
Definition QUARANTINE_TEMPLATE : string := "transactions_quarantine_{}.csv".

(** Lines 53-55: the three paths of a run date. *)
Definition input_file (today_str : string) : string :=
  Py.joinpath RAW_DIR (Py.format RAW_TEMPLATE today_str).
Definition curated_path (today_str : string) : string :=
  Py.joinpath CURATED_DIR (Py.format CURATED_TEMPLATE today_str).
Definition quarantine_path (today_str : string) : string :=
  Py.joinpath QUARANTINE_DIR (Py.format QUARANTINE_TEMPLATE today_str).

(** [main] from line 38 on, on the files: [run_date] is the argument
    that [parse_args()] of line 36 has returned, [today] the day of
    the clock, [fs] the disk it finds; it returns the disk it leaves.
    The date is settled first (lines 39-46), then the input is read
    (lines 58-61); the two files are written at lines 90-92, after
    everything that can raise.  (Line 36 is argparse's business and
    comes before all this: on [-h] and on an argument it does not
    know, argparse ends the run itself, with a [SystemExit] of its
    own.  The directories of lines 50-51 are not files and are not
    modelled.  The file is read as a batch labelled by position, see
    [Csv].) *)
Definition run (C : Csv) (D : Py.Dates) (E : Engine)
    (run_date : option string) (today : Z) (fs : disk C)
  : Py.result (outputs * disk C) :=
  Py.bind (Py.today_obj D run_date today) (fun today_obj =>
  let today_str := Py.date_isoformat D today_obj in
  match fs (input_file today_str) with
  | None =>
      Py.Raise (Py.SystemExit
        ("Error: Input file " ++ input_file today_str ++ " not found."))
  | Some f =>
      let (columns, data) := read_csv C f in
      Py.bind (main E (Some (frame columns data))) (fun out =>
      let fs' := write (curated_path today_str)
                       (to_csv C (curated_file out)) fs in
      Py.Ok (out,
             match quarantine_file out with
             | Some bad => write (quarantine_path today_str)
                                 (to_csv C bad) fs'
             | None => fs'
             end))
  end).

End Transform.

(* ================================================================== *)
(** * [src/generate/generate_transactions.py] *)

Module Generate.
Import Pandas.

(** [random], [Faker] and [datetime], as far as the script calls
    them.  A generator is its state; a draw returns the value and
    the next state.  A date is its ordinal (day 1 is 0001-01-01), a
    datetime the microseconds since the start of day 0. *)
Record Lib : Type := {
  (** the state of a [random.Random] *)
  rng : Type;
  (** [random.seed(a)]: the state it leaves, whatever it was *)
  seed : Z -> rng;
  (** [Random._randbelow(n)] *)
  randbelow : nat -> rng -> nat * rng;
  (** [Random.random()] *)
  random : rng -> spec_float * rng;
  (** [round(x, ndigits)] *)
  round : spec_float -> Z -> spec_float;
  (** the state of a [Faker] instance *)
  faker : Type;
  (** [Faker()] followed by [seed_instance(seed)] *)
  seed_instance : Z -> faker;
  (** [fake.date_time_between(start_date, end_date)], on datetimes *)
  date_time_between : Z -> Z -> faker -> Z * faker;
  (** [fake.country_code()] *)
  country_code : faker -> string * faker;
  (** [dt.isoformat(timespec='seconds')] *)
  isoformat_seconds : Z -> string;
  (** [date.fromisoformat(s)]; [None] for [ValueError] *)
  fromisoformat : string -> option Z
}.

(** Lines 10-28. *)
Definition SEED : Z := 42.
Definition N_RECORDS : Z := 1000.
Definition CURRENCIES : list string := ["USD"; "EUR"; "HUF"].
Definition PAYMENT_METHODS : list string :=
  ["credit_card"; "debit_card"; "paypal"; "bank_transfer"].
Definition DEVICES : list string := ["mobile"; "desktop"; "tablet"].
(** 0.05, the float nearest to 5/100 *)
Definition CHARGEBACK_RATE : spec_float :=
  SFdiv 53 1024 (float_of_int 5) (float_of_int 100).
Definition AMOUNT_MIN : spec_float := float_of_int 1.
Definition AMOUNT_MAX : spec_float := float_of_int 1000.
Definition N_USERS : nat := 300.

(** What the script reads without being handed it: the module-level
    generator of [random], the instance [fake], the clock. *)
Record world (L : Lib) : Type := {
  random_state : rng L;
  fake : faker L;
  today : Z
}.
Arguments random_state {L} w.
Arguments fake {L} w.
Arguments today {L} w.

(** A step of the script: a result and the world it leaves. *)
Definition action (L : Lib) (A : Type) : Type := world L -> A * world L.

Definition ret {L A} (a : A) : action L A := fun w => (a, w).

Definition bind {L A B} (m : action L A) (k : A -> action L B)
  : action L B :=
  fun w => let (a, w') := m w in k a w'.

Notation "x <- m ;; k" := (bind m (fun x => k))
  (at level 61, m at next level, right associativity).

(** A draw from the module-level generator. *)
Definition draw {L A} (f : rng L -> A * rng L) : action L A :=
  fun w =>
    let (a, s) := f (random_state w) in
    (a, {| random_state := s; fake := fake w; today := today w |}).

(** A call on [fake]. *)
Definition ask_fake {L A} (f : faker L -> A * faker L) : action L A :=
  fun w =>
    let (a, s) := f (fake w) in
    (a, {| random_state := random_state w; fake := s; today := today w |}).

(** [random.choice(seq)] is [seq[_randbelow(len(seq))]]. *)
Definition choice {L} (seq : list string) : action L string :=
  i <- draw (randbelow L (List.length seq)) ;;
  ret (nth i seq "").

(** [random.uniform(a, b)] is [a + (b - a) * random()]. *)
Definition uniform {L} (a b : spec_float) : action L spec_float :=
  x <- draw (random L) ;;
  ret (SFadd 53 1024 a (SFmul 53 1024 (SFsub 53 1024 b a) x)).

(** Lines 32-34. *)
Definition generate_transaction_id (i : Z) (prefix : string)
    (width : nat) : string :=
  (prefix ++ "_" ++ Py.format_0d i width)%string.

(** Lines 36-40. *)
Definition choose_user_id {L} (user_pool : list string)
  : action L string :=
  choice user_pool.

Definition microseconds_per_day : Z := 86400 * 1000000.

(** Lines 42-50.  [time.min] is the first microsecond of the day,
    [time.max] the last.  (For a date in the year 1 the subtraction
    leaves the range of [date] and raises; that is not modelled.) *)
Definition generate_timestamp {L} (today : Z) : action L string :=
  let start_day := today - 365 in
  let start_dt := start_day * microseconds_per_day in
  let end_dt := today * microseconds_per_day + (microseconds_per_day - 1) in
  dt <- ask_fake (date_time_between L start_dt end_dt) ;;
  ret (isoformat_seconds L dt).

(** Lines 52-55. *)
Definition generate_amount {L} (min_val max_val : spec_float)
  : action L spec_float :=
  x <- uniform min_val max_val ;;
  ret (round L x 2).

(** Lines 57-59. *)
Definition generate_currency {L} : action L string := choice CURRENCIES.

(** Lines 61-62. *)
Definition generate_payment_method {L} : action L string :=
  choice PAYMENT_METHODS.

(** Lines 64-65. *)
Definition generate_country {L} : action L string :=
  ask_fake (country_code L).

(** Lines 67-68. *)
Definition generate_device {L} : action L string := choice DEVICES.

(** Lines 70-71. *)
Definition generate_is_chargeback {L} : action L Z :=
  x <- draw (random L) ;;
  ret (if SFltb x CHARGEBACK_RATE then 1 else 0).

(** Line 114. *)
Definition user_pool : list string :=
  map (fun i => ("u_" ++ Py.format_0d (Z.of_nat i) 4)%string)
      (seq 1 N_USERS).

(** Lines 118-129: one transaction, its values in the order of the
    dict (which is the order of [cols]). *)
Definition transaction {L} (today_obj : Z) (i : Z)
  : action L (list value) :=
  ts <- generate_timestamp today_obj ;;
  user_id <- choose_user_id user_pool ;;
  amount <- generate_amount AMOUNT_MIN AMOUNT_MAX ;;
  currency <- generate_currency ;;
  payment_method <- generate_payment_method ;;
  country <- generate_country ;;
  device <- generate_device ;;
  is_chargeback <- generate_is_chargeback ;;
  ret [ VStr (generate_transaction_id i "txn" 6); VStr user_id; VStr ts;
        VFloat amount; VStr currency; VStr payment_method; VStr country;
        VStr device; VInt is_chargeback ].

(** Lines 116-130: [for i in range(first, first + count)]. *)
Fixpoint transactions {L} (today_obj : Z) (first : Z) (count : nat)
  : action L (list (list value)) :=
  match count with
  | O => ret []
  | S count' =>
      t <- transaction today_obj first ;;
      ts <- transactions today_obj (first + 1) count' ;;
      ret (t :: ts)
  end.

(** Lines 132-133. *)
Definition cols : list string :=
  ["transaction_id"; "user_id"; "timestamp"; "amount"; "currency";
   "payment_method"; "country"; "device"; "is_chargeback"].

(** [main()]: [n_records] and [run_date] are the parsed arguments.
    Line 101 tests [if args.run_date:], so an empty text counts as no
    run date and the clock is read.  The frame is what line 135 builds
    and line 136 writes. *)
Definition main {L} (n_records : Z) (run_date : option string)
  : action L (Py.result DataFrame) :=
  fun w =>
    if n_records <=? 0 then
      (Py.Raise (Py.SystemExit
         "Error: --n-records must be a positive integer."), w)
    else
      match match run_date with
            | None | Some EmptyString => Some (today w)
            | Some s => fromisoformat L s
            end with
      | None =>
          (Py.Raise (Py.SystemExit
             "Error: run_date must be in 'YYYY-MM-DD' format."), w)
      | Some today_obj =>
          let (rows, w') :=
            transactions today_obj 1 (Z.to_nat n_records) w in
          (Py.Ok (frame cols rows), w')
      end.

(** Lines 12-15, run when the module is loaded. *)
Definition seeding {L} (seed_value : Z) : action L unit :=
  fun w =>
    (tt, {| random_state := seed L seed_value;
            fake := seed_instance L seed_value;
            today := today w |}).

(** The script, run in a world [w], seeded with [seed_value]. *)
Definition script {L} (seed_value : Z) (n_records : Z)
    (run_date : option string) (w : world L) : Py.result DataFrame :=
  fst ((_ <- seeding seed_value ;; main n_records run_date) w).

(** The spec's [generate(count, seed, date)]: the batch of a run of
    the script with these arguments.  (The script itself fixes the
    seed to [SEED].) *)
Definition generate {L} (w : world L) (count : Z) (seed_value : Z)
    (date : string) : Py.result DataFrame :=
  script seed_value count (Some date) w.

(** Lines 19 and 23. *)
Definition OUTPUT_DIR : string := "data/raw".
Definition FILE_TEMPLATE : string := "transactions_{}.csv".

(** Lines 108-112. *)
Definition output_file (today_str : string) : string :=
  Py.joinpath OUTPUT_DIR (Py.format FILE_TEMPLATE today_str).

(** Lines 108-112 and 136: the frame of the run of [today_obj] is
    written to the file named after that day. *)
Definition save (C : Csv) (D : Py.Dates) (today_obj : Z) (df : DataFrame)
    (fs : disk C) : disk C :=
  write (output_file (Py.date_isoformat D today_obj)) (to_csv C df) fs.

End Generate.

(* ================================================================== *)
(** * A reference engine for worked examples *)

(** The conversions of [Pandas.Engine] on their textbook inputs:
    timestamps written [YYYY-MM-DDTHH:MM:SS] (what the generator
    emits), plain decimal literals.  It turns down every other text,
    also some that the libraries read (an exponent, surrounding
    blanks, another date format); the examples below only hand it
    texts it reads, or texts no reader takes for a number. *)
Module Reference.
Import Pandas.

Fixpoint number_from (acc : Z) (s : string) : option Z :=
  match s with
  | EmptyString => Some acc
  | String c s' =>
      if Re.is_digit c
      then number_from (10 * acc + (Z.of_nat (nat_of_ascii c) - 48)) s'
      else None
  end.

(** The value of a non-empty run of digits. *)
Definition number (s : string) : option Z :=
  match s with
  | EmptyString => None
  | _ => number_from 0 s
  end.

Definition is_leap (y : Z) : bool :=
  (y mod 4 =? 0) && (negb (y mod 100 =? 0) || (y mod 400 =? 0)).

Definition days_in_month (y m : Z) : Z :=
  if m =? 2 then (if is_leap y then 29 else 28)
  else if (m =? 4) || (m =? 6) || (m =? 9) || (m =? 11) then 30
  else 31.

(** Days from 1970-01-01 to the civil date y-m-d. *)
Definition days_from_civil (y m d : Z) : Z :=
  let y' := if m <=? 2 then y - 1 else y in
  let era := y' / 400 in
  let yoe := y' - era * 400 in
  let doy := (153 * (if 2 <? m then m - 3 else m + 9) + 2) / 5 + d - 1 in
  let doe := yoe * 365 + yoe / 4 - yoe / 100 + doy in
  era * 146097 + doe - 719468.

(** The civil date of a day count, the inverse of the above. *)
Definition civil_from_days (z : Z) : Z * Z * Z :=
  let z' := z + 719468 in
  let era := z' / 146097 in
  let doe := z' - era * 146097 in
  let yoe := (doe - doe / 1460 + doe / 36524 - doe / 146096) / 365 in
  let doy := doe - (365 * yoe + yoe / 4 - yoe / 100) in
  let mp := (5 * doy + 2) / 153 in
  let d := doy - (153 * mp + 2) / 5 + 1 in
  let m := if mp <? 10 then mp + 3 else mp - 9 in
  (yoe + era * 400 + (if m <=? 2 then 1 else 0), m, d).

Definition in_range (lo x hi : Z) : bool := (lo <=? x) && (x <=? hi).

Definition char_at (n : nat) (s : string) (c : ascii) : bool :=
  match String.get n s with
  | Some c' => Ascii.eqb c c'
  | None => false
  end.

Definition nanoseconds_of_fields (y mo d h mi s : Z) : option Z :=
  if in_range 1 mo 12 && in_range 1 d (days_in_month y mo)
     && in_range 0 h 23 && in_range 0 mi 59 && in_range 0 s 59
  then
    let ns := ((days_from_civil y mo d * 86400 + h * 3600 + mi * 60 + s)
               * 1000000000) in
    if in_range (- 2 ^ 63 + 1) ns (2 ^ 63 - 1) then Some ns else None
  else None.

(** One timestamp [YYYY-MM-DDTHH:MM:SS]. *)
Definition parse_timestamp (s : string) : option Z :=
  if (String.length s =? 19)%nat
     && char_at 4 s "-" && char_at 7 s "-" && char_at 10 s "T"
     && char_at 13 s ":" && char_at 16 s ":"
  then
    match number (substring 0 4 s), number (substring 5 2 s),
          number (substring 8 2 s), number (substring 11 2 s),
          number (substring 14 2 s), number (substring 17 2 s) with
    | Some y, Some mo, Some d, Some h, Some mi, Some sec =>
        nanoseconds_of_fields y mo d h mi sec
    | _, _, _, _, _, _ => None
    end
  else None.

Definition to_datetime (values : list value) : option (list (option Z)) :=
  Pandera.all_some
    (map (fun v =>
            match v with
            | VStr s => option_map Some (parse_timestamp s)
            | VFloat S754_nan => Some None
            | _ => None
            end) values).

(** An optional sign, then the rest. *)
Definition signed {A} (read : string -> option A) (negate : A -> A)
    (s : string) : option A :=
  match s with
  | String "-" s' => option_map negate (read s')
  | String "+" s' => read s'
  | _ => read s
  end.

(** digits, or digits "." digits, when a single division yields the
    nearest float: a numerator below 2^53 over a power of ten up
    to 10^22 (both are floats). *)
Definition unsigned_float (s : string) : option spec_float :=
  let quotient (m : Z) (k : nat) :=
    if (m <? 2 ^ 53) && (k <=? 22)%nat
    then Some (SFdiv 53 1024 (float_of_int m)
                     (float_of_int (10 ^ Z.of_nat k)))
    else None in
  match String.index 0 "." s with
  | None =>
      match number s with
      | Some m => quotient m 0%nat
      | None => None
      end
  | Some p =>
      let frac := substring (S p) (String.length s - S p) s in
      match number (substring 0 p s), number frac with
      | Some a, Some b =>
          quotient (a * 10 ^ Z.of_nat (String.length frac) + b)
                   (String.length frac)
      | _, _ => None
      end
  end.

Definition float_of_str : string -> option spec_float :=
  signed unsigned_float SFopp.

Definition int_of_str : string -> option Z := signed number Z.opp.

(** Truncation towards zero, within int64. *)
Definition int_of_float (x : spec_float) : option Z :=
  match x with
  | S754_zero _ => Some 0
  | S754_finite s m e =>
      let a := if 0 <=? e then Zpos m * 2 ^ e else Zpos m / 2 ^ (- e) in
      let z := if s then - a else a in
      if in_range (- 2 ^ 63) z (2 ^ 63 - 1) then Some z else None
  | _ => None
  end.

Fixpoint rstrip_zeros (s : string) : string :=
  match s with
  | EmptyString => EmptyString
  | String c s' =>
      match rstrip_zeros s' with
      | EmptyString => if Ascii.eqb c "0" then EmptyString else String c ""
      | t => String c t
      end
  end.

(** The exact decimal expansion of a float (Python prints the
    shortest text that reads back as the same float, which is this
    text where the expansion is short). *)
Definition str_of_float (x : spec_float) : string :=
  match x with
  | S754_zero s => if s then "-0.0" else "0.0"
  | S754_infinity s => if s then "-inf" else "inf"
  | S754_nan => "nan"
  | S754_finite s m e =>
      let sign := if s then "-" else "" in
      if 0 <=? e then (sign ++ Py.digits (Zpos m * 2 ^ e) ++ ".0")%string
      else
        let k := Z.to_nat (- e) in
        let num := Zpos m * 5 ^ (- e) in
        let whole := Py.digits (num / 10 ^ (- e)) in
        let frac := rstrip_zeros
                      (Py.zfill k (Py.digits (num mod 10 ^ (- e)))) in
        (sign ++ whole ++ "." ++
         match frac with EmptyString => "0" | _ => frac end)%string
  end.

(** [YYYY-MM-DD HH:MM:SS], with the fraction of a second when there
    is one. *)
Definition str_of_datetime (ns : Z) : string :=
  let secs := ns / 1000000000 in
  let frac := ns mod 1000000000 in
  let '(y, m, d) := civil_from_days (secs / 86400) in
  let tod := secs mod 86400 in
  let fraction :=
    if frac =? 0 then ""
    else if frac mod 1000 =? 0
         then String "." (Py.format_0d (frac / 1000) 6)
         else String "." (Py.format_0d frac 9) in
  let hh := Py.format_0d (tod / 3600) 2 in
  let mm := Py.format_0d (tod mod 3600 / 60) 2 in
  let ss := Py.format_0d (tod mod 60) 2 in
  (Py.format_0d y 4 ++ "-" ++ Py.format_0d m 2 ++ "-" ++ Py.format_0d d 2
   ++ " " ++ hh ++ ":" ++ mm ++ ":" ++ ss ++ fraction)%string.

Definition engine : Engine :=
  {| Pandas.to_datetime := to_datetime;
     Pandas.float_of_str := float_of_str;
     Pandas.int_of_str := int_of_str;
     Pandas.int_of_float := int_of_float;
     Pandas.str_of_float := str_of_float;
     Pandas.str_of_datetime := str_of_datetime |}.

(** ** Dates, generators and files for worked examples *)

(** Day 1 is 0001-01-01, so that 1970-01-01 is day 719163. *)
Definition epoch_ordinal : Z := 719163.

(** [YYYY-MM-DD] only. *)
Definition date_fromisoformat (s : string) : option Z :=
  if (String.length s =? 10)%nat && char_at 4 s "-" && char_at 7 s "-"
  then
    match number (substring 0 4 s), number (substring 5 2 s),
          number (substring 8 2 s) with
    | Some y, Some m, Some d =>
        if in_range 1 y 9999 && in_range 1 m 12
           && in_range 1 d (days_in_month y m)
        then Some (days_from_civil y m d + epoch_ordinal)
        else None
    | _, _, _ => None
    end
  else None.

Definition date_isoformat (d : Z) : string :=
  let '(y, m, dd) := civil_from_days (d - epoch_ordinal) in
  (Py.format_0d y 4 ++ "-" ++ Py.format_0d m 2 ++ "-"
   ++ Py.format_0d dd 2)%string.

Definition dates : Py.Dates :=
  {| Py.date_fromisoformat := date_fromisoformat;
     Py.date_isoformat := date_isoformat |}.

(** [YYYY-MM-DDTHH:MM:SS] of a datetime, the microseconds dropped. *)
Definition isoformat_seconds (dt : Z) : string :=
  let secs := dt mod Generate.microseconds_per_day / 1000000 in
  (date_isoformat (dt / Generate.microseconds_per_day) ++ "T"
   ++ Py.format_0d (secs / 3600) 2 ++ ":"
   ++ Py.format_0d (secs mod 3600 / 60) 2 ++ ":"
   ++ Py.format_0d (secs mod 60) 2)%string.

(** [round(x, ndigits)] for [ndigits >= 0]: the decimal nearest to
    [x] with that many digits, ties to even, then the float nearest
    to it. *)
Definition round (x : spec_float) (ndigits : Z) : spec_float :=
  match x with
  | S754_finite s m e =>
      let scale := 10 ^ ndigits in
      let num := Zpos m * scale * (if 0 <=? e then 2 ^ e else 1) in
      let den := if 0 <=? e then 1 else 2 ^ (- e) in
      let q := num / den in
      let r := num mod den in
      let q' := if 2 * r <? den then q
                else if den <? 2 * r then q + 1
                else if Z.even q then q else q + 1 in
      let y := SFdiv 53 1024 (float_of_int q') (float_of_int scale) in
      if s then SFopp y else y
  | _ => x
  end.

(** Generators that count: the state is the number of draws so far,
    and a draw is read off it. *)
Definition lib : Generate.Lib :=
  {| Generate.rng := nat;
     Generate.seed := fun a => Z.to_nat (Z.abs a);
     Generate.randbelow := fun n s => ((s mod n)%nat, S s);
     Generate.random := fun s =>
       (SFdiv 53 1024 (float_of_int (Z.of_nat (s mod 16)))
              (float_of_int 16), S s);
     Generate.round := round;
     Generate.faker := nat;
     Generate.seed_instance := fun a => Z.to_nat (Z.abs a);
     Generate.date_time_between := fun a b s =>
       (a + (Z.of_nat s * 86399999999) mod (b - a + 1), S s);
     Generate.country_code := fun s =>
       (nth (s mod 4) ["US"; "DE"; "HU"; "NA"] "US", S s);
     Generate.isoformat_seconds := isoformat_seconds;
     Generate.fromisoformat := date_fromisoformat |}.

(** Files that keep the column names and the records, every cell
    as it was. *)
Definition csv : Csv :=
  {| file := list string * list (list value);
     to_csv := fun df => (df_columns df, map snd (df_rows df));
     read_csv := fun f => f |}.

End Reference.

(* ================================================================== *)
(** * Worked batches *)

Module Examples.
Import Pandas.

(** A row that meets every constraint, but for the id and the
    payment method it is given. *)
Definition row (transaction_id payment_method : string) : list value :=
  [ VStr transaction_id; VStr "u_0001"; VStr "2024-05-01T12:00:00";
    VFloat (float_of_int 12); VStr "USD"; VStr payment_method;
    VStr "US"; VStr "mobile"; VInt 0 ].

(** The same row once validated: the timestamp is a datetime64. *)
Definition validated_row (transaction_id payment_method : string)
  : list value :=
  [ VStr transaction_id; VStr "u_0001"; VTime (Some 1714564800000000000);
    VFloat (float_of_int 12); VStr "USD"; VStr payment_method;
    VStr "US"; VStr "mobile"; VInt 0 ].

Definition crypto_batch : DataFrame :=
  frame Generate.cols [row "txn_000001" "crypto"].

(** A row with three violations at once: the id, the amount, the
    country. *)
Definition broken_row : list value :=
  [ VStr "txn_42"; VStr "u_0001"; VStr "2024-05-01T12:00:00";
    VFloat (float_of_int (-5)); VStr "USD"; VStr "paypal";
    VStr "USA"; VStr "mobile"; VInt 0 ].

(** Rows 0 and 3 share an id, row 1 pays in cash, row 4 is broken
    in three ways; row 2 is fine. *)
Definition mixed_data : list (list value) :=
  [ row "txn_000001" "paypal"; row "txn_000002" "cash";
    row "txn_000003" "paypal"; row "txn_000001" "credit_card";
    broken_row ].

Definition mixed_out : Transform.outputs :=
  let bad := {| df_columns := Generate.cols;
                df_rows := [ (0%nat, row "txn_000001" "paypal");
                             (1%nat, row "txn_000002" "cash");
                             (3%nat, row "txn_000001" "credit_card");
                             (4%nat, broken_row) ] |} in
  let good := {| df_columns := Generate.cols;
                 df_rows := [ (2%nat, row "txn_000003" "paypal") ] |} in
  {| Transform.df_good := good;
     Transform.df_bad := bad;
     Transform.curated_file := good;
     Transform.quarantine_file := Some bad;
     Transform.stdout :=
       [ Transform.Data_validation_errors_found;
         Transform.Total_records_processed 5;
         Transform.Valid_records 1 (Qmake 1 5);
         Transform.Invalid_records 4 (Qmake 4 5);
         Transform.Invalid_records_moved_to_quarantine;
         Transform.Transformed_data_saved ] |}.

(** No row passes: the first pays in cash, the second is broken. *)
Definition all_invalid_data : list (list value) :=
  [ row "txn_000001" "cash"; broken_row ].

(** A column the schema does not know. *)
Definition extra_column_columns : list string := Generate.cols ++ ["note"].
Definition extra_column_data : list (list value) :=
  [row "txn_000001" "paypal" ++ [VStr "x"]].

(** Two records that share their id and are fine otherwise, and a
    third with an amount that is no number. *)
Definition duplicate_unreadable_data : list (list value) :=
  [ row "txn_000001" "paypal"; row "txn_000001" "credit_card";
    [ VStr "txn_000002"; VStr "u_0001"; VStr "2024-05-01T12:00:00";
      VStr "abc"; VStr "USD"; VStr "paypal"; VStr "US"; VStr "mobile";
      VInt 0 ] ].


(** What [pd.read_csv] makes of a file whose two records have ten
    fields under the header of nine: the first field of each, 2 and
    1, labels its row.  Both records pay in cash. *)
Definition labelled_batch : DataFrame :=
  {| df_columns := Generate.cols;
     df_rows := [ (2%nat, row "txn_000001" "cash");
                  (1%nat, row "txn_000002" "cash") ] |}.

(** An amount that is no number. *)
Definition unreadable_amount_row : list value :=
  [ VStr "txn_000001"; VStr "u_0001"; VStr "2024-05-01T12:00:00";
    VStr "abc"; VStr "USD"; VStr "paypal"; VStr "US"; VStr "mobile";
    VInt 0 ].
Definition unreadable_amount_data : list (list value) :=
  [unreadable_amount_row].

(** The schema's entries for [transaction_id], [user_id], [amount]
    and [country]. *)
Definition transaction_id_column : Pandera.Column :=
  {| Pandera.dtype := Pandera.String_;
     Pandera.checks := [Pandera.str_matches "^txn_\d{6}$"];
     Pandera.unique := true; Pandera.column_coerce := false |}.
Definition user_id_column : Pandera.Column :=
  {| Pandera.dtype := Pandera.String_;
     Pandera.checks := [Pandera.str_matches "^u_\d{4}$"];
     Pandera.unique := false; Pandera.column_coerce := false |}.
Definition amount_column : Pandera.Column :=
  {| Pandera.dtype := Pandera.Float; Pandera.checks := [Pandera.gt 0];
     Pandera.unique := false; Pandera.column_coerce := false |}.
Definition country_column : Pandera.Column :=
  {| Pandera.dtype := Pandera.String_;
     Pandera.checks := [Pandera.str_length 2 2;
                        Pandera.str_matches "^[A-Z]{2}$"];
     Pandera.unique := false; Pandera.column_coerce := false |}.

(** A record whose currency field is empty, after a record that is
    fine. *)
Definition missing_currency_row : list value :=
  [ VStr "txn_000002"; VStr "u_0001"; VStr "2024-05-01T12:00:00";
    VFloat (float_of_int 12); NaN; VStr "paypal"; VStr "US";
    VStr "mobile"; VInt 0 ].
Definition missing_currency_data : list (list value) :=
  [ row "txn_000001" "paypal"; missing_currency_row ].

(** A run date, and a disk that holds the mixed batch as the raw
    file of that date and nothing else; the same disk once the
    transform has run. *)
Definition run_date : string := "2024-05-01".
Definition raw_disk : disk Reference.csv :=
  write (Transform.input_file run_date)
        (to_csv Reference.csv (frame Generate.cols mixed_data))
        (fun _ => None).
Definition transformed_disk : disk Reference.csv :=
  write (Transform.quarantine_path run_date)
        (to_csv Reference.csv (Transform.df_bad mixed_out))
        (write (Transform.curated_path run_date)
               (to_csv Reference.csv (Transform.df_good mixed_out))
               raw_disk).

(** The world in which the counting generators have drawn nothing,
    on 2024-05-01, the same world a day later, and the batches of the
    generator in the first. *)
Definition fresh_world : Generate.world Reference.lib :=
  Generate.Build_world Reference.lib 0%nat 0%nat 739007.
Definition next_day_world : Generate.world Reference.lib :=
  Generate.Build_world Reference.lib 0%nat 0%nat 739008.
Definition generated (count : Z) : DataFrame :=
  match Generate.generate fresh_world count Generate.SEED run_date with
  | Py.Ok df => df
  | Py.Raise _ => no_rows []
  end.

End Examples.

(* ================================================================== *)
(** * Notions the statements and their proofs use *)

(** A string of decimal digits. *)
Fixpoint all_digits (s : string) : bool :=
  match s with
  | EmptyString => true
  | String c s' => Re.is_digit c && all_digits s'
  end.

(** Labels in strictly ascending order, as in a [RangeIndex]. *)
Definition ascending (l : list nat) : Prop := StronglySorted Nat.lt l.

(** Labels in ascending order, repeats allowed. *)
Definition nondescending (l : list nat) : Prop := StronglySorted Nat.le l.

(** [a] sorts before [b]. *)
Definition before (a b : option nat) : Prop := Py.lt a b = Py.Ok true.

(** [l1] is [l2] with some elements left out: the elements of [l1]
    come in the order they have in [l2]. *)
Inductive subseq {A : Type} : list A -> list A -> Prop :=
| subseq_nil : subseq [] []
| subseq_skip a l1 l2 : subseq l1 l2 -> subseq l1 (a :: l2)
| subseq_take a l1 l2 : subseq l1 l2 -> subseq (a :: l1) (a :: l2).

(** The rows the failure cases name. *)
Definition named (failures : list Pandera.failure_case) (r : Pandas.row)
  : bool :=
  Py.mem (Some (fst r)) (map Pandera.fc_index failures).

(** The column at position [k] once the schema column [c] is coerced:
    the converted values, or the old ones when the conversion
    raises. *)
Definition coerced_column (E : Pandas.Engine) (df : Pandas.DataFrame)
    (c : string * Pandera.Column) (k : nat) : list Pandas.value :=
  match Pandera.coerce_column E (Pandera.dtype (snd c)) (Pandas.column df k)
  with
  | Some values => values
  | None => Pandas.column df k
  end.

(** Everything [validate] collects on a frame, for the schema of the
    script. *)
Definition failure_cases (E : Pandas.Engine) (df : Pandas.DataFrame)
  : list Pandera.failure_case :=
  Pandera.strict_filter_columns Transform.schema df
  ++ snd (Pandera.coerce_dtype E Transform.schema df)
  ++ Pandera.check_column_presence Transform.schema df
  ++ Pandera.run_schema_component_checks Transform.schema
       (fst (Pandera.coerce_dtype E Transform.schema df)).

(** A column name at odds with [strict=True]: a column of the frame
    that the schema does not name, or a column of the schema that the
    frame lacks. *)
Definition off_schema (columns : list string) (c : string) : Prop :=
  (In c columns /\ ~ In c (map fst (Pandera.columns Transform.schema)))
  \/ (In c (map fst (Pandera.columns Transform.schema)) /\ ~ In c columns).

(** Every column of the schema that the frame has converts to its
    dtype. *)
Definition converts (E : Pandas.Engine) (df : Pandas.DataFrame) : Prop :=
  forall name c k,
    In (name, c) (Pandera.columns Transform.schema) ->
    Pandas.position name (Pandas.df_columns df) = Some k ->
    Pandera.coerce_column E (Pandera.dtype c) (Pandas.column df k) <> None.

(** Every row has a cell at position [k]. *)
Definition wide (k : nat) (df : Pandas.DataFrame) : Prop :=
  Forall (fun r : Pandas.row => (k < List.length (snd r))%nat)
         (Pandas.df_rows df).

(** A failure case names no row, or a row of the frame. *)
Definition placed (df : Pandas.DataFrame) (fc : Pandera.failure_case)
  : Prop :=
  Pandera.fc_index fc = None
  \/ exists l, Pandera.fc_index fc = Some l /\ In l (Pandas.index df).

(** The contract of [Random._randbelow(n)]: a number below [n]. *)
Definition randbelow_in_range (L : Generate.Lib) : Prop :=
  forall n s, (0 < n)%nat -> (fst (Generate.randbelow L n s) < n)%nat.

(** Two worlds with the same generators (the clocks may differ). *)
Definition same_generators {L} (w w' : Generate.world L) : Prop :=
  Generate.random_state w = Generate.random_state w'
  /\ Generate.fake w = Generate.fake w'.

(** An action that only looks at the generators. *)
Definition clock_free {L A} (m : Generate.action L A) : Prop :=
  forall w w', same_generators w w' ->
  fst (m w) = fst (m w') /\ same_generators (snd (m w)) (snd (m w')).

(** Membership in a list that is written out. *)
Ltac in_list := cbn; repeat first [left; reflexivity | right].


(* ================================================================== *)
(** * Facts about the Python basics *)

Section PyFacts.

Lemma all_digits_app s t :
  all_digits (s ++ t)%string = all_digits s && all_digits t.
Proof.
  induction s as [|c s IH]; simpl; [reflexivity|].
  now rewrite IH, andb_assoc.
Qed.

Lemma string_length_app (s t : string) :
  String.length (s ++ t)%string = (String.length s + String.length t)%nat.
Proof. induction s; simpl; congruence. Qed.

Lemma digit_char_is_digit d :
  0 <= d < 10 -> Re.is_digit (Py.digit_char d) = true.
Proof.
  intros H.
  assert (d = 0 \/ d = 1 \/ d = 2 \/ d = 3 \/ d = 4 \/ d = 5 \/ d = 6
          \/ d = 7 \/ d = 8 \/ d = 9) as Hd by lia.
  repeat destruct Hd as [-> | Hd]; try reflexivity.
  subst d; reflexivity.
Qed.

Lemma pow10_ge k : 10 <= 10 ^ Z.of_nat (S k).
Proof.
  change 10 with (10 ^ 1) at 1. apply Z.pow_le_mono_r; lia.
Qed.

Lemma pow10_succ k : 10 ^ Z.of_nat (S k) = 10 * 10 ^ Z.of_nat k.
Proof. rewrite Nat2Z.inj_succ, Z.pow_succ_r by lia. reflexivity. Qed.

Lemma pow2_succ k : 2 ^ Z.of_nat (S k) = 2 * 2 ^ Z.of_nat k.
Proof. rewrite Nat2Z.inj_succ, Z.pow_succ_r by lia. reflexivity. Qed.

Lemma div10_small n : 0 <= n -> (n / 10 = 0 <-> n < 10).
Proof.
  intros Hn. split; intros H.
  - pose proof (Z.div_mod n 10 ltac:(lia)).
    pose proof (Z.mod_pos_bound n 10 ltac:(lia)). lia.
  - apply Z.div_small; lia.
Qed.

Lemma div10_lt n m : 0 <= n -> (n / 10 < m <-> n < 10 * m).
Proof.
  intros Hn.
  pose proof (Z.div_mod n 10 ltac:(lia)).
  pose proof (Z.mod_pos_bound n 10 ltac:(lia)). lia.
Qed.

Lemma append_assoc_1 (d : string) c acc :
  (d ++ String c acc)%string = ((d ++ String c "") ++ acc)%string.
Proof. induction d as [|a d IH]; cbn [append]; [reflexivity | now rewrite IH]. Qed.

(** The loop of [digits] writes at least one digit, only digits,
    and at most [k] of them exactly when [n < 10^k]. *)
Lemma digits_aux_spec fuel :
  forall n acc, 0 <= n < 2 ^ Z.of_nat (S fuel) ->
  exists d,
    Py.digits_aux (S fuel) n acc = (d ++ acc)%string
    /\ all_digits d = true
    /\ (1 <= String.length d)%nat
    /\ forall k, (String.length d <= S k)%nat <-> n < 10 ^ Z.of_nat (S k).
Proof.
  induction fuel as [|fuel IH]; intros n acc Hn.
  - (* one binary digit: n is 0 or 1 *)
    change (2 ^ Z.of_nat 1) with 2 in Hn.
    assert (n / 10 = 0) as Hq by (apply Z.div_small; lia).
    exists (String (Py.digit_char (n mod 10)) "").
    cbn [Py.digits_aux]. rewrite Hq.
    cbn [Z.eqb all_digits String.length append].
    rewrite digit_char_is_digit by (apply Z.mod_pos_bound; lia).
    repeat split; try lia.
    intros _. pose proof (pow10_ge k). lia.
  - cbn [Py.digits_aux].
    destruct (n / 10 =? 0) eqn:Hq.
    + apply Z.eqb_eq in Hq. apply div10_small in Hq; [|lia].
      exists (String (Py.digit_char (n mod 10)) "").
      cbn [all_digits String.length append].
      rewrite digit_char_is_digit by (apply Z.mod_pos_bound; lia).
      repeat split; try lia.
      intros _. pose proof (pow10_ge k). lia.
    + apply Z.eqb_neq in Hq.
      assert (0 <= n / 10) as Hq0 by (apply Z.div_pos; lia).
      assert (n / 10 < 2 ^ Z.of_nat (S fuel)) as Hq1.
      { apply div10_lt; [lia|]. rewrite (pow2_succ (S fuel)) in Hn. lia. }
      destruct (IH (n / 10) (String (Py.digit_char (n mod 10)) acc))
        as (d & Hd & Hall & Hlen & Hk); [lia|].
      exists (d ++ String (Py.digit_char (n mod 10)) "")%string.
      split.
      { cbn [Py.digits_aux] in Hd. rewrite Hd. apply append_assoc_1. }
      split.
      { rewrite all_digits_app, Hall. cbn [all_digits].
        now rewrite digit_char_is_digit by (apply Z.mod_pos_bound; lia). }
      rewrite string_length_app. cbn [String.length].
      split; [lia|].
      intros [|k].
      * change (10 ^ Z.of_nat 1) with 10.
        assert (~ n < 10) by (rewrite <- div10_small; lia). lia.
      * specialize (Hk k). rewrite (pow10_succ (S k)).
        rewrite <- div10_lt by lia. rewrite <- Hk. lia.
Qed.

Lemma digits_spec n :
  0 <= n ->
  all_digits (Py.digits n) = true
  /\ (1 <= String.length (Py.digits n))%nat
  /\ forall k, (String.length (Py.digits n) <= S k)%nat
               <-> n < 10 ^ Z.of_nat (S k).
Proof.
  intros Hn. unfold Py.digits.
  destruct (digits_aux_spec (Z.to_nat (Z.log2 n)) n "") as (d & Hd & H).
  - split; [assumption|].
    destruct (Z.eq_dec n 0) as [->|Hne]; [reflexivity|].
    rewrite Nat2Z.inj_succ, Z2Nat.id by apply Z.log2_nonneg.
    apply Z.log2_spec. lia.
  - rewrite Hd.
    replace (d ++ "")%string with d by (clear; induction d; simpl; congruence).
    exact H.
Qed.

Lemma all_digits_zeros k : all_digits (Py.zeros k) = true.
Proof. induction k; simpl; auto. Qed.

Lemma length_zeros k : String.length (Py.zeros k) = k.
Proof. induction k; simpl; congruence. Qed.

End PyFacts.

(* ================================================================== *)
(** * Facts about the patterns *)

Section ReFacts.

Lemma digit_not_newline c :
  Re.is_digit c = true -> Ascii.eqb c (ascii_of_nat 10) = false.
Proof.
  destruct c as [[] [] [] [] [] [] [] []]; try discriminate; reflexivity.
Qed.

Lemma at_end_digits s :
  all_digits s = true -> Re.at_end s = (String.length s =? 0)%nat.
Proof.
  destruct s as [|c [|c' s]]; cbn [all_digits Re.at_end String.length];
    try reflexivity.
  - intros H. apply andb_prop in H as [H _].
    rewrite (digit_not_newline _ H). reflexivity.
Qed.

(** [\d{n}$] on a string of digits: the length decides. *)
Lemma match_digits_end n :
  forall s, all_digits s = true ->
  Re.match_pieces [(Re.Digit, n)] s = (String.length s =? n)%nat.
Proof.
  cbn [Re.match_pieces].
  induction n as [|n IH]; intros s Hs.
  - cbn [Re.match_repeat]. now apply at_end_digits.
  - destruct s as [|c s]; [reflexivity|].
    cbn [all_digits] in Hs. apply andb_prop in Hs as [Hc Hs].
    cbn [Re.match_repeat Re.atom_matches String.length]. rewrite Hc.
    now apply IH.
Qed.

Lemma match_digits_minus n s :
  Re.match_pieces [(Re.Digit, S n)] (String "-" s) = false.
Proof. reflexivity. Qed.

End ReFacts.

Section TransactionIds.

Lemma format_0d_digits i width :
  0 <= i ->
  all_digits (Py.format_0d i width) = true
  /\ String.length (Py.format_0d i width)
     = Nat.max width (String.length (Py.digits i)).
Proof.
  intros Hi. unfold Py.format_0d.
  destruct (i <? 0) eqn:Hneg; [apply Z.ltb_lt in Hneg; lia|].
  unfold Py.zfill. destruct (digits_spec i Hi) as (Hall & _ & _).
  rewrite all_digits_app, all_digits_zeros, Hall, string_length_app, length_zeros.
  split; [reflexivity | lia].
Qed.

(** The id of index [i] fits the pattern of the schema exactly for
    the six-digit indices, 0 included. *)
Lemma transaction_id_matches i :
  Re.matches "^txn_\d{6}$" (Generate.generate_transaction_id i "txn" 6) = true
  <-> 0 <= i <= 999999.
Proof.
  unfold Re.matches.
  change (Re.compile "^txn_\d{6}$")
    with (Some [(Re.Lit "t", 1%nat); (Re.Lit "x", 1%nat);
                (Re.Lit "n", 1%nat); (Re.Lit "_", 1%nat);
                (Re.Digit, 6%nat)]).
  unfold Generate.generate_transaction_id.
  change (Re.match_pieces _ _)
    with (Re.match_pieces [(Re.Digit, 6%nat)] (Py.format_0d i 6)).
  destruct (Z.lt_ge_cases i 0) as [Hneg | Hpos].
  - unfold Py.format_0d. apply Z.ltb_lt in Hneg as Hb. rewrite Hb.
    rewrite match_digits_minus. split; [discriminate | lia].
  - destruct (format_0d_digits i 6 ltac:(lia)) as (Hall & Hlen).
    destruct (digits_spec i ltac:(lia)) as (_ & _ & Hk).
    specialize (Hk 5%nat). change (10 ^ Z.of_nat 6) with 1000000 in Hk.
    rewrite (match_digits_end 6 _ Hall), Nat.eqb_eq, Hlen. lia.
Qed.

End TransactionIds.

(* ================================================================== *)
(** * Ascending lists of labels *)

Section Ascending.

Lemma ascending_cons a l :
  ascending (a :: l) <-> ascending l /\ Forall (Nat.lt a) l.
Proof.
  split.
  - intros H. inversion H; subst. now split.
  - intros [H1 H2]. now constructor.
Qed.

Lemma ascending_not_in a l : ascending (a :: l) -> ~ In a l.
Proof.
  intros H Hin. apply ascending_cons in H as [_ H].
  rewrite Forall_forall in H. specialize (H a Hin).
  unfold Nat.lt in H. lia.
Qed.

Lemma ascending_NoDup l : ascending l -> NoDup l.
Proof.
  induction l as [|a l IH]; intros H; constructor.
  - now apply ascending_not_in.
  - apply IH. now apply ascending_cons in H.
Qed.

(** Two ascending lists with the same elements are the same list. *)
Lemma ascending_ext l1 :
  forall l2, ascending l1 -> ascending l2 ->
  (forall x, In x l1 <-> In x l2) -> l1 = l2.
Proof.
  induction l1 as [|a l1 IH]; intros [|b l2] H1 H2 Hext.
  - reflexivity.
  - exfalso. apply (proj2 (Hext b)). now left.
  - exfalso. apply (proj1 (Hext a)). now left.
  - pose proof (ascending_not_in _ _ H1) as Ha.
    pose proof (ascending_not_in _ _ H2) as Hb.
    apply ascending_cons in H1 as [H1 F1].
    apply ascending_cons in H2 as [H2 F2].
    rewrite Forall_forall in F1, F2.
    assert (a = b) as ->.
    { destruct (proj1 (Hext a) (or_introl eq_refl)) as [->|Hin1];
        [reflexivity|].
      destruct (proj2 (Hext b) (or_introl eq_refl)) as [->|Hin2];
        [reflexivity|].
      specialize (F1 _ Hin2). specialize (F2 _ Hin1).
      unfold Nat.lt in *. lia. }
    f_equal. apply IH; try assumption.
    intros x. split; intros Hx.
    + destruct (proj1 (Hext x) (or_intror Hx)) as [->|]; tauto.
    + destruct (proj2 (Hext x) (or_intror Hx)) as [->|]; tauto.
Qed.

Lemma ascending_filter p l : ascending l -> ascending (filter p l).
Proof.
  induction l as [|a l IH]; intros H; [constructor|].
  apply ascending_cons in H as [H F]. cbn [filter].
  destruct (p a); [|auto].
  apply ascending_cons. split; [auto|].
  rewrite Forall_forall in *. intros x Hx.
  apply filter_In in Hx as [Hx _]. auto.
Qed.

Lemma ascending_seq n : forall a, ascending (seq a n).
Proof.
  induction n as [|n IH]; intros a; [constructor|].
  cbn [seq]. apply ascending_cons. split; [apply IH|].
  rewrite Forall_forall. intros x Hx. apply in_seq in Hx.
  unfold Nat.lt. lia.
Qed.

End Ascending.

(* ================================================================== *)
(** * [sorted(set(...))] *)

Section SortedSet.

Lemma index_eqb_eq a b : Py.index_eqb a b = true <-> a = b.
Proof.
  destruct a as [x|], b as [y|]; cbn [Py.index_eqb];
    try (split; [discriminate | congruence]).
  - rewrite Nat.eqb_eq. split; congruence.
  - tauto.
Qed.

Lemma mem_In a l : Py.mem a l = true <-> In a l.
Proof.
  unfold Py.mem. rewrite existsb_exists. split.
  - intros (x & Hx & Heq). apply index_eqb_eq in Heq. now subst.
  - intros H. exists a. split; [assumption | now apply index_eqb_eq].
Qed.

Lemma set_of_In l x : In x (Py.set_of l) <-> In x l.
Proof.
  induction l as [|a l IH]; [tauto|]. cbn [Py.set_of].
  destruct (Py.mem a l) eqn:Hm.
  - apply mem_In in Hm. rewrite IH. split; [now right|].
    intros [->|]; assumption.
  - cbn [In]. now rewrite IH.
Qed.

Lemma set_of_NoDup l : NoDup (Py.set_of l).
Proof.
  induction l as [|a l IH]; [constructor|]. cbn [Py.set_of].
  destruct (Py.mem a l) eqn:Hm; [assumption|].
  constructor; [|assumption].
  rewrite set_of_In, <- mem_In, Hm. discriminate.
Qed.

Lemma before_trans a b c : before a b -> before b c -> before a c.
Proof.
  unfold before.
  destruct a as [x|], b as [y|], c as [z|]; cbn [Py.lt]; try discriminate.
  intros H1 H2. injection H1 as H1. injection H2 as H2.
  apply Nat.ltb_lt in H1, H2. f_equal. apply Nat.ltb_lt. lia.
Qed.

Lemma insert_In x l :
  forall l', Py.insert x l = Py.Ok l' ->
  forall y, In y l' <-> y = x \/ In y l.
Proof.
  induction l as [|a l IH]; intros l' H y; cbn [Py.insert] in H.
  - injection H as <-. cbn [In]. intuition congruence.
  - destruct (Py.lt x a) as [[|]|e] eqn:Hlt; cbn [Py.bind] in H;
      try discriminate.
    + injection H as <-. cbn [In]. intuition congruence.
    + destruct (Py.insert x l) as [l''|e] eqn:Hi; cbn [Py.bind] in H;
        try discriminate.
      injection H as <-. cbn [In]. rewrite (IH _ eq_refl). tauto.
Qed.

Lemma insert_sorted x l :
  forall l', Py.insert x l = Py.Ok l' ->
  StronglySorted before l -> ~ In x l -> StronglySorted before l'.
Proof.
  induction l as [|a l IH]; intros l' H Hs Hx; cbn [Py.insert] in H.
  - injection H as <-. repeat constructor.
  - destruct (Py.lt x a) as [[|]|e] eqn:Hlt; cbn [Py.bind] in H;
      try discriminate.
    + injection H as <-. constructor; [assumption|].
      constructor; [assumption|].
      inversion Hs as [|? ? _ F]; subst.
      rewrite Forall_forall in *. intros z Hz.
      apply before_trans with a; auto.
    + destruct (Py.insert x l) as [l''|e] eqn:Hi; cbn [Py.bind] in H;
        try discriminate.
      injection H as <-.
      inversion Hs as [|? ? Hs' F]; subst.
      constructor.
      * apply IH; auto. intros Hin. apply Hx. now right.
      * rewrite Forall_forall in *. intros z Hz.
        apply (insert_In _ _ _ Hi) in Hz as [->|Hz]; [|auto].
        unfold before. destruct x as [x|], a as [a|]; cbn [Py.lt] in *;
          try discriminate.
        injection Hlt as Hlt. apply Nat.ltb_ge in Hlt.
        f_equal. apply Nat.ltb_lt.
        assert (x <> a) by (intros ->; apply Hx; now left). lia.
Qed.

Lemma sorted_spec l :
  forall s, Py.sorted l = Py.Ok s ->
  (forall y, In y s <-> In y l)
  /\ (NoDup l -> StronglySorted before s).
Proof.
  induction l as [|a l IH]; intros s H; cbn [Py.sorted] in H.
  - injection H as <-. split; [tauto | constructor].
  - destruct (Py.sorted l) as [s'|e] eqn:Hs; cbn [Py.bind] in H;
      try discriminate.
    destruct (IH _ eq_refl) as [Hin Hsorted].
    split.
    + intros y. rewrite (insert_In _ _ _ H). cbn [In]. rewrite Hin.
      intuition congruence.
    + intros Hnd. inversion Hnd; subst.
      apply (insert_sorted _ _ _ H); [auto|]. now rewrite Hin.
Qed.

Lemma sorted_labels ls :
  StronglySorted before (map Some ls) -> ascending ls.
Proof.
  induction ls as [|a ls IH]; intros H; [constructor|].
  cbn [map] in H. inversion H as [|? ? H' F]; subst.
  apply ascending_cons. split; [auto|].
  rewrite Forall_forall in *. intros x Hx.
  specialize (F (Some x) (in_map Some _ _ Hx)).
  unfold before in F. cbn [Py.lt] in F. injection F as F.
  now apply Nat.ltb_lt.
Qed.

(** When every element is a label, [sorted] returns. *)
Lemma insert_labels x ls :
  exists ls', Py.insert (Some x) (map Some ls) = Py.Ok (map Some ls').
Proof.
  induction ls as [|a ls [ls' IH]]; cbn [map Py.insert Py.lt Py.bind].
  - now exists [x].
  - destruct (x <? a)%nat.
    + now exists (x :: a :: ls).
    + rewrite IH. cbn [Py.bind]. now exists (a :: ls').
Qed.

Lemma sorted_labels_total ls :
  exists ls', Py.sorted (map Some ls) = Py.Ok (map Some ls').
Proof.
  induction ls as [|a ls [ls' IH]]; cbn [map Py.sorted].
  - now exists [].
  - rewrite IH. cbn [Py.bind]. apply insert_labels.
Qed.

Lemma all_labels (s : list (option nat)) :
  (forall x, In x s -> exists l, x = Some l) ->
  exists ls, s = map Some ls.
Proof.
  induction s as [|a s IH]; intros H.
  - now exists [].
  - destruct (H a (or_introl eq_refl)) as [l ->].
    destruct IH as [ls ->]; [intros x Hx; apply H; now right|].
    now exists (l :: ls).
Qed.

End SortedSet.

(* ================================================================== *)
(** * Selection by label *)

Section Selection.
Import Pandas.

Lemma mapM_Ok {A B} (f : A -> Py.result B) l :
  forall bs, Py.mapM f l = Py.Ok bs ->
  Forall2 (fun a b => f a = Py.Ok b) l bs.
Proof.
  induction l as [|a l IH]; intros bs H; cbn [Py.mapM] in H.
  - injection H as <-. constructor.
  - destruct (f a) as [b|e] eqn:Hf; cbn [Py.bind] in H; try discriminate.
    destruct (Py.mapM f l) as [bs'|e] eqn:Hm; cbn [Py.bind] in H;
      try discriminate.
    injection H as <-. constructor; auto.
Qed.

Lemma mapM_Raise {A B} (f : A -> Py.result B) l a e :
  In a l -> f a = Py.Raise e -> exists e', Py.mapM f l = Py.Raise e'.
Proof.
  induction l as [|b l IH]; intros Hin Hf; [destruct Hin|].
  cbn [Py.mapM]. destruct Hin as [->|Hin].
  - rewrite Hf. now exists e.
  - destruct (f b) as [b'|e1]; cbn [Py.bind]; [|now exists e1].
    destruct (IH Hin Hf) as [e' ->]. now exists e'.
Qed.

Lemma mapM_total {A B} (f : A -> Py.result B) l :
  (forall a, In a l -> exists b, f a = Py.Ok b) ->
  exists bs, Py.mapM f l = Py.Ok bs.
Proof.
  induction l as [|a l IH]; intros H; cbn [Py.mapM].
  - now exists [].
  - destruct (H a (or_introl eq_refl)) as [b ->].
    destruct IH as [bs ->]; [intros x Hx; apply H; now right|].
    cbn [Py.bind]. now exists (b :: bs).
Qed.

(** Without a repeated label, a label names at most one row. *)
Lemma same_label_same_row (rows : list row) r r' :
  NoDup (map fst rows) -> In r rows -> In r' rows -> fst r = fst r' ->
  r = r'.
Proof.
  induction rows as [|a rows IH]; intros Hnd Hr Hr' Heq; [contradiction|].
  cbn [map] in Hnd. inversion Hnd as [|? ? Ha Hnd']; subst.
  destruct Hr as [->|Hr], Hr' as [->|Hr']; auto.
  - exfalso. apply Ha. rewrite Heq. now apply in_map.
  - exfalso. apply Ha. rewrite <- Heq. now apply in_map.
Qed.

Lemma filter_has_label (rows : list row) l :
  NoDup (map fst rows) ->
  filter (has_label l) rows = []
  \/ exists r, filter (has_label l) rows = [r] /\ fst r = l /\ In r rows.
Proof.
  induction rows as [|a rows IH]; intros Hnd; [now left|].
  cbn [map] in Hnd. inversion Hnd as [|? ? Ha Hnd']; subst.
  cbn [filter]. destruct (has_label l a) eqn:Heq.
  - unfold has_label in Heq. apply Nat.eqb_eq in Heq. right. exists a.
    split; [|split; [assumption | now left]].
    f_equal. destruct (IH Hnd') as [H | (r & _ & Hr & Hin)];
      [assumption|].
    exfalso. apply Ha. rewrite Heq, <- Hr. now apply in_map.
  - destruct (IH Hnd') as [H | (r & H & Hr & Hin)]; [now left|].
    right. exists r. repeat split; auto. now right.
Qed.

Lemma rows_at_Ok df x rs :
  NoDup (index df) -> rows_at df x = Py.Ok rs ->
  exists l r, x = Some l /\ rs = [r] /\ fst r = l /\ In r (df_rows df).
Proof.
  intros Hnd H. destruct x as [l|]; cbn [rows_at] in H; [|discriminate].
  destruct (filter_has_label (df_rows df) l Hnd) as [He | (r & Hr & ? & ?)].
  - rewrite He in H. discriminate.
  - rewrite Hr in H. injection H as <-. now exists l, r.
Qed.

Lemma rows_eq_by_labels (rows r1 : list row) :
  forall r2, NoDup (map fst rows) ->
  incl r1 rows -> incl r2 rows -> map fst r1 = map fst r2 -> r1 = r2.
Proof.
  induction r1 as [|a r1 IH]; intros [|b r2] Hnd H1 H2 Heq;
    try discriminate; [reflexivity|].
  cbn [map] in Heq. injection Heq as Hab Heq.
  f_equal.
  - apply (same_label_same_row rows); auto.
    + apply H1. now left.
    + apply H2. now left.
  - apply IH; auto.
    + intros x Hx. apply H1. now right.
    + intros x Hx. apply H2. now right.
Qed.

Lemma map_fst_filter (p : nat -> bool) (rows : list row) :
  map fst (filter (fun r => p (fst r)) rows) = filter p (map fst rows).
Proof.
  induction rows as [|a rows IH]; [reflexivity|].
  cbn [filter map]. destruct (p (fst a)); cbn [map]; now rewrite IH.
Qed.

(** The rows that [mapM (rows_at df)] collects for a list of labels:
    one row per label, in the order of the labels. *)
Lemma collected_rows df ls :
  forall rss, NoDup (index df) ->
  Forall2 (fun x rs => rows_at df x = Py.Ok rs) (map Some ls) rss ->
  map fst (concat rss) = ls
  /\ incl (concat rss) (df_rows df)
  /\ incl ls (index df).
Proof.
  induction ls as [|l ls IH]; intros rss Hnd H; cbn [map] in H;
    inversion H as [|? rs ? rss' Hrs H']; subst.
  - repeat split; intros x [].
  - destruct (rows_at_Ok _ _ _ Hnd Hrs) as (l' & r & Hl & -> & Hr & Hin).
    injection Hl as <-.
    destruct (IH _ Hnd H') as (Hlabels & Hincl & Hidx).
    cbn [concat app map]. rewrite Hlabels, Hr.
    repeat split.
    + intros x [<-|Hx]; auto.
    + intros x [<-|Hx]; auto. unfold index. rewrite <- Hr.
      now apply in_map.
Qed.

Lemma Forall2_In_l {A B} (P : A -> B -> Prop) l bs a :
  Forall2 P l bs -> In a l -> exists b, P a b.
Proof.
  induction 1 as [|x y l bs Hxy _ IH]; intros Hin; [destruct Hin|].
  destruct Hin as [->|Hin]; [now exists y | auto].
Qed.

(** [df.loc[sorted(set(labels))]] on a frame whose index ascends:
    every label is one of the index, and the rows are those the
    labels name, in the frame's order. *)
Lemma loc_sorted_set df ixs s bad :
  ascending (index df) ->
  Py.sorted (Py.set_of ixs) = Py.Ok s ->
  loc df s = Py.Ok bad ->
  (forall x, In x ixs -> exists l, x = Some l /\ In l (index df))
  /\ bad = {| df_columns := df_columns df;
              df_rows := filter (fun r => Py.mem (Some (fst r)) ixs)
                                (df_rows df) |}.
Proof.
  intros Hasc Hsorted Hloc.
  pose proof (ascending_NoDup _ Hasc) as Hnd.
  destruct (sorted_spec _ _ Hsorted) as [Hin Hss].
  specialize (Hss (set_of_NoDup ixs)).
  unfold loc in Hloc.
  destruct (Py.mapM (rows_at df) s) as [rss|e] eqn:Hm; cbn [Py.bind] in Hloc;
    try discriminate.
  injection Hloc as <-.
  apply mapM_Ok in Hm.
  destruct (all_labels s) as [ls ->].
  { intros x Hx. destruct (Forall2_In_l _ _ _ _ Hm Hx) as [rs Hrs].
    destruct (rows_at_Ok _ _ _ Hnd Hrs) as (l & _ & -> & _). now exists l. }
  destruct (collected_rows _ _ _ Hnd Hm) as (Hlabels & Hincl & Hidx).
  assert (forall l, In l ls <-> In (Some l) ixs) as Hls.
  { intros l. rewrite <- set_of_In, <- Hin, in_map_iff. split.
    - intros H. now exists l.
    - intros (l' & Heq & H). now injection Heq as <-. }
  split.
  - intros [l|] Hx.
    + exists l. split; [reflexivity|]. apply Hidx. now apply Hls.
    + exfalso. apply set_of_In, Hin, in_map_iff in Hx as (l & Heq & _).
      discriminate.
  - f_equal. apply (rows_eq_by_labels (df_rows df)); auto.
    + intros r Hr. now apply filter_In in Hr.
    + rewrite Hlabels.
      rewrite (map_fst_filter (fun l => Py.mem (Some l) ixs)).
      apply ascending_ext.
      * now apply sorted_labels.
      * now apply ascending_filter.
      * intros l. rewrite filter_In, mem_In, Hls. split; [|tauto].
        intros H. split; [|assumption]. apply Hidx. now apply Hls.
Qed.

Lemma drop_sorted_set df ixs s good :
  Py.sorted (Py.set_of ixs) = Py.Ok s ->
  drop df s = Py.Ok good ->
  good = {| df_columns := df_columns df;
            df_rows := filter (fun r => negb (Py.mem (Some (fst r)) ixs))
                              (df_rows df) |}.
Proof.
  intros Hsorted Hdrop.
  destruct (sorted_spec _ _ Hsorted) as [Hin _].
  unfold drop in Hdrop.
  destruct (Py.mapM (rows_at df) s) as [rss|e]; cbn [Py.bind] in Hdrop;
    try discriminate.
  injection Hdrop as <-. f_equal.
  apply filter_ext. intros r. f_equal.
  apply eq_true_iff_eq. now rewrite !mem_In, Hin, set_of_In.
Qed.

(** A failure case without a row stops the run: [sorted] raises
    [TypeError], or [.loc] raises [KeyError]. *)
Lemma loc_sorted_set_None df ixs :
  In None ixs ->
  exists e,
    Py.bind (Py.sorted (Py.set_of ixs)) (fun s => loc df s) = Py.Raise e.
Proof.
  intros Hin.
  destruct (Py.sorted (Py.set_of ixs)) as [s|e] eqn:Hs; cbn [Py.bind];
    [|now exists e].
  destruct (sorted_spec _ _ Hs) as [Hs' _].
  assert (In None s) as HNone by (now apply Hs', set_of_In).
  unfold loc.
  destruct (mapM_Raise (rows_at df) s None Py.KeyError HNone eq_refl)
    as [e ->].
  now exists e.
Qed.

(** When every index is a label of the frame, the three steps
    return. *)
Lemma sorted_set_total ixs :
  (forall x, In x ixs -> exists l, x = Some l) ->
  exists s, Py.sorted (Py.set_of ixs) = Py.Ok s.
Proof.
  intros H. destruct (all_labels (Py.set_of ixs)) as [ls ->].
  { intros x Hx. apply H. now apply set_of_In. }
  destruct (sorted_labels_total ls) as [ls' ->]. now eexists.
Qed.

Lemma rows_at_total df l :
  In l (index df) -> exists rs, rows_at df (Some l) = Py.Ok rs.
Proof.
  intros Hin. cbn [rows_at].
  destruct (filter (has_label l) (df_rows df)) as [|r rs] eqn:Hf;
    [|now eexists].
  exfalso. unfold index in Hin. apply in_map_iff in Hin as (r & Hr & Hin).
  assert (In r (filter (has_label l) (df_rows df))) as H.
  { apply filter_In. split; [assumption|].
    unfold has_label. now apply Nat.eqb_eq. }
  rewrite Hf in H. destruct H.
Qed.

End Selection.

(* ================================================================== *)
(** * Frames and coercion keep the index *)

Section Shape.
Import Pandas Pandera.

Lemma subseq_refl {A} (l : list A) : subseq l l.
Proof. induction l; constructor; assumption. Qed.

Lemma subseq_filter {A} (p : A -> bool) l : subseq (filter p l) l.
Proof.
  induction l as [|a l IH]; cbn [filter]; [constructor|].
  destruct (p a); constructor; assumption.
Qed.

Lemma subseq_nil_l {A} (l : list A) : subseq [] l.
Proof. induction l; constructor; assumption. Qed.

Lemma filter_partition_perm {A} (p : A -> bool) l :
  Permutation (filter (fun a => negb (p a)) l ++ filter p l) l.
Proof.
  induction l as [|a l IH]; cbn [filter]; [constructor|].
  destruct (p a); cbn [negb app].
  - apply Permutation_sym, Permutation_cons_app, Permutation_sym, IH.
  - now constructor.
Qed.

Lemma map_fst_combine {A B} (l : list A) :
  forall (l' : list B), List.length l = List.length l' ->
  map fst (combine l l') = l.
Proof.
  induction l as [|a l IH]; intros [|b l'] H; try discriminate;
    [reflexivity|].
  cbn [combine map fst]. f_equal. apply IH. now injection H.
Qed.

Lemma index_frame columns data :
  index (frame columns data) = seq 0 (List.length data).
Proof. apply map_fst_combine, length_seq. Qed.

Lemma ascending_frame columns data : ascending (index (frame columns data)).
Proof. rewrite index_frame. apply ascending_seq. Qed.

Lemma set_cells_labels k values :
  forall rows, map fst (set_cells k values rows) = map fst rows.
Proof.
  induction values as [|v values IH]; intros [|[l cs] rows];
    cbn [set_cells map fst]; try reflexivity.
  f_equal. apply IH.
Qed.

Lemma index_set_column k values df :
  index (set_column k values df) = index df.
Proof. apply set_cells_labels. Qed.

Lemma coerce_one_shape E b acc c :
  df_columns (fst (coerce_one E b acc c)) = df_columns (fst acc)
  /\ index (fst (coerce_one E b acc c)) = index (fst acc).
Proof.
  destruct acc as [df errors]. unfold coerce_one.
  destruct (b || column_coerce (snd c)); [|now split].
  destruct (position (fst c) (df_columns df)) as [k|]; [|now split].
  destruct (coerce_column E (dtype (snd c)) (column df k));
    cbn [fst]; [|now split].
  split; [reflexivity | apply index_set_column].
Qed.

Lemma coerce_dtype_shape E schema df :
  df_columns (fst (coerce_dtype E schema df)) = df_columns df
  /\ index (fst (coerce_dtype E schema df)) = index df.
Proof.
  unfold coerce_dtype.
  change df with (fst (df, @nil failure_case)) at 2 4.
  generalize (df, @nil failure_case).
  induction (columns schema) as [|c cs IH]; intros acc; cbn [fold_left];
    [now split|].
  destruct (IH (coerce_one E (coerce schema) acc c)) as [-> ->].
  apply coerce_one_shape.
Qed.

Lemma len_index df : len df = Z.of_nat (List.length (index df)).
Proof. unfold len, index. now rewrite length_map. Qed.

End Shape.

(* ================================================================== *)
(** * What [separate] and [main] return *)

Section Outcome.
Import Pandas Pandera Transform.
Variable E : Engine.

Lemma separate_Validated df dfv :
  validate E schema df = Validated dfv ->
  separate E df = Py.Ok (dfv, no_rows (df_columns df), []).
Proof. intros H. unfold separate. now rewrite H. Qed.

Lemma separate_SchemaErrors df failures good bad printed :
  ascending (index df) ->
  validate E schema df = SchemaErrors failures ->
  separate E df = Py.Ok (good, bad, printed) ->
  (forall fc, In fc failures ->
     exists l, fc_index fc = Some l /\ In l (index df))
  /\ good = {| df_columns := df_columns df;
               df_rows := filter (fun r => negb (named failures r))
                                 (df_rows df) |}
  /\ bad = {| df_columns := df_columns df;
              df_rows := filter (named failures) (df_rows df) |}
  /\ printed = [Data_validation_errors_found].
Proof.
  intros Hasc Hv H. unfold separate in H. rewrite Hv in H.
  destruct (Py.sorted (Py.set_of (map fc_index failures))) as [s|e] eqn:Hs;
    cbn [Py.bind] in H; try discriminate.
  destruct (loc df s) as [bad'|e] eqn:Hloc; cbn [Py.bind] in H;
    try discriminate.
  destruct (drop df s) as [good'|e] eqn:Hdrop; cbn [Py.bind] in H;
    try discriminate.
  injection H as <- <- <-.
  destruct (loc_sorted_set _ _ _ _ Hasc Hs Hloc) as [Hix ->].
  rewrite (drop_sorted_set _ _ _ _ Hs Hdrop).
  repeat split.
  intros fc Hfc. apply Hix. now apply in_map.
Qed.

Lemma separate_aborts df failures :
  validate E schema df = SchemaErrors failures ->
  (exists fc, In fc failures /\ fc_index fc = None) ->
  exists e, separate E df = Py.Raise e.
Proof.
  intros Hv (fc & Hfc & HNone). unfold separate. rewrite Hv.
  destruct (loc_sorted_set_None df (map fc_index failures)) as [e He].
  { rewrite <- HNone. now apply in_map. }
  destruct (Py.sorted (Py.set_of (map fc_index failures))) as [s|e'];
    cbn [Py.bind] in *; [|now eexists].
  rewrite He. now exists e.
Qed.

(** Lines 95-107 never divide by zero. *)
Lemma summary_returns total good bad :
  exists report, summary total good bad = Py.Ok report.
Proof.
  unfold summary, Py.truediv.
  destruct (0 <? total) eqn:Ht.
  - apply Z.ltb_lt in Ht.
    destruct (total =? 0) eqn:H0; [apply Z.eqb_eq in H0; lia|].
    cbn [Py.bind]. now eexists.
  - cbn [Py.bind]. now eexists.
Qed.

Lemma main_Ok df out :
  main E (Some df) = Py.Ok out ->
  exists printed,
    separate E df = Py.Ok (df_good out, df_bad out, printed).
Proof.
  unfold main. intros H.
  destruct (separate E df) as [[[good bad] printed]|e]; cbn [Py.bind] in H;
    try discriminate.
  destruct (summary (len df) (len good) (len bad)) as [report|e];
    cbn [Py.bind] in H; try discriminate.
  injection H as <-. now exists printed.
Qed.

Lemma main_aborts df e :
  separate E df = Py.Raise e -> main E (Some df) = Py.Raise e.
Proof. intros H. unfold main. now rewrite H. Qed.

Lemma main_returns df good bad printed :
  separate E df = Py.Ok (good, bad, printed) ->
  exists out, main E (Some df) = Py.Ok out
              /\ df_good out = good /\ df_bad out = bad.
Proof.
  intros H. unfold main. rewrite H. cbn [Py.bind].
  destruct (summary_returns (len df) (len good) (len bad)) as [report ->].
  cbn [Py.bind]. eexists. split; [reflexivity|]. now split.
Qed.

End Outcome.

Section Partition.
Import Pandas Pandera Transform.
Variable E : Engine.

(** The two ways a run that returns can have gone. *)
Lemma main_cases columns data out :
  main E (Some (frame columns data)) = Py.Ok out ->
  let B := frame columns data in
  (validate E schema B = Validated (df_good out)
   /\ df_good out = fst (coerce_dtype E schema B)
   /\ df_bad out = no_rows columns)
  \/ (exists failures,
        validate E schema B = SchemaErrors failures
        /\ df_good out
           = {| df_columns := columns;
                df_rows := filter (fun r => negb (named failures r))
                                  (df_rows B) |}
        /\ df_bad out
           = {| df_columns := columns;
                df_rows := filter (named failures) (df_rows B) |}).
Proof.
  intros H B. subst B. destruct (main_Ok _ _ _ H) as [printed Hsep].
  destruct (validate E schema (frame columns data)) as [dfv|failures] eqn:Hv.
  - left. rewrite (separate_Validated _ _ _ Hv) in Hsep.
    injection Hsep as <- <- _. repeat split.
    unfold validate in Hv.
    destruct (coerce_dtype E schema (frame columns data)) as [coerced errors].
    destruct (_ ++ _); [|discriminate]. now injection Hv.
  - right. exists failures.
    destruct (separate_SchemaErrors _ _ _ _ _ _
                (ascending_frame columns data) Hv Hsep)
      as (_ & -> & -> & _).
    now repeat split.
Qed.

(** ** Batches with any labels *)

Lemma rows_at_filter df l rs :
  rows_at df (Some l) = Py.Ok rs -> rs = filter (has_label l) (df_rows df).
Proof.
  cbn [rows_at]. destruct (filter (has_label l) (df_rows df));
    [discriminate|].
  intros H. now injection H.
Qed.

(** [df.loc[labels]] collects, label after label, the rows that carry
    the label. *)
Lemma collected_by_label df ls :
  forall rss,
  Py.mapM (rows_at df) (map Some ls) = Py.Ok rss ->
  concat rss = flat_map (fun l => filter (has_label l) (df_rows df)) ls.
Proof.
  induction ls as [|l ls IH]; intros rss H; cbn [map Py.mapM] in H.
  - now injection H as <-.
  - destruct (rows_at df (Some l)) as [rs|e] eqn:Hrs; cbn [Py.bind] in H;
      [|discriminate].
    destruct (Py.mapM (rows_at df) (map Some ls)) as [rss'|e];
      cbn [Py.bind] in H; [|discriminate].
    injection H as <-. cbn [concat flat_map].
    now rewrite (IH rss' eq_refl), (rows_at_filter _ _ _ Hrs).
Qed.



Lemma nondescending_app a b :
  nondescending a -> nondescending b ->
  (forall x y, In x a -> In y b -> (x <= y)%nat) ->
  nondescending (a ++ b).
Proof.
  intros Ha Hb Hab. induction Ha as [|x a Ha IH Hx]; [exact Hb|].
  cbn [app]. constructor.
  - apply IH. intros x' y Hx' Hy. apply Hab; [now right | assumption].
  - apply Forall_app. split; [assumption|].
    apply Forall_forall. intros y Hy. apply Hab; [now left | assumption].
Qed.

Lemma index_has_label (rows : list row) l x :
  In x (map fst (filter (has_label l) rows)) -> x = l.
Proof.
  intros H. apply in_map_iff in H as (r & <- & Hr).
  apply filter_In in Hr as [_ Hr]. unfold has_label in Hr.
  now apply Nat.eqb_eq in Hr.
Qed.

Lemma nondescending_same_label (rows : list row) l :
  nondescending (map fst (filter (has_label l) rows)).
Proof.
  induction rows as [|r rows IH]; cbn [filter]; [constructor|].
  destruct (has_label l r) eqn:Hr; [|assumption].
  cbn [map]. constructor; [assumption|].
  apply Forall_forall. intros x Hx. apply index_has_label in Hx.
  unfold has_label in Hr. apply Nat.eqb_eq in Hr. lia.
Qed.

(** The rows collected for ascending labels come in the order of
    their labels. *)
Lemma collected_nondescending (rows : list row) ls :
  ascending ls ->
  nondescending
    (map fst (flat_map (fun l => filter (has_label l) rows) ls)).
Proof.
  induction 1 as [|l ls Hls IH Hl]; cbn [flat_map]; [constructor|].
  rewrite map_app. apply nondescending_app.
  - apply nondescending_same_label.
  - exact IH.
  - intros x y Hx Hy. apply index_has_label in Hx. subst x.
    apply in_map_iff in Hy as (r & <- & Hr).
    apply in_flat_map in Hr as (l' & Hl' & Hr).
    assert (fst r = l') as ->.
    { apply (index_has_label rows l'). now apply in_map. }
    rewrite Forall_forall in Hl. specialize (Hl _ Hl'). lia.
Qed.

(** The two ways a run that returns can have gone, whatever the
    labels of the batch. *)
Lemma main_cases_labelled df out :
  main E (Some df) = Py.Ok out ->
  (validate E schema df = Validated (df_good out)
   /\ df_good out = fst (coerce_dtype E schema df)
   /\ df_bad out = no_rows (df_columns df))
  \/ (exists failures ls,
        validate E schema df = SchemaErrors failures
        /\ ascending ls
        /\ (forall l, In l ls <-> In (Some l) (map fc_index failures))
        /\ df_good out
           = {| df_columns := df_columns df;
                df_rows := filter (fun r => negb (named failures r))
                                  (df_rows df) |}
        /\ df_bad out
           = {| df_columns := df_columns df;
                df_rows := flat_map
                             (fun l => filter (has_label l) (df_rows df))
                             ls |}).
Proof.
  intros H. destruct (main_Ok E _ _ H) as [printed Hsep].
  destruct (validate E schema df) as [dfv|failures] eqn:Hv.
  - left. rewrite (separate_Validated E _ _ Hv) in Hsep.
    injection Hsep as <- <- _. repeat split.
    unfold validate in Hv.
    destruct (coerce_dtype E schema df) as [coerced errors].
    destruct (_ ++ _); [|discriminate]. now injection Hv.
  - right. exists failures. unfold separate in Hsep. rewrite Hv in Hsep.
    destruct (Py.sorted (Py.set_of (map fc_index failures)))
      as [s|e] eqn:Hs; cbn [Py.bind] in Hsep; [|discriminate].
    destruct (loc df s) as [bad|e] eqn:Hloc; cbn [Py.bind] in Hsep;
      [|discriminate].
    destruct (drop df s) as [good|e] eqn:Hdrop; cbn [Py.bind] in Hsep;
      [|discriminate].
    injection Hsep as <- <- _.
    destruct (sorted_spec _ _ Hs) as [Hin Hss].
    specialize (Hss (set_of_NoDup _)).
    unfold loc in Hloc.
    destruct (Py.mapM (rows_at df) s) as [rss|e] eqn:Hm;
      cbn [Py.bind] in Hloc; [|discriminate].
    injection Hloc as <-.
    destruct (all_labels s) as [ls ->].
    { intros x Hx. apply mapM_Ok in Hm.
      destruct (Forall2_In_l _ _ _ _ Hm Hx) as [rs Hrs].
      destruct x as [l|]; [now exists l | discriminate]. }
    exists ls. split; [reflexivity|].
    split; [now apply sorted_labels|]. split.
    { intros l. rewrite <- set_of_In, <- Hin, in_map_iff. split.
      - intros Hl. now exists l.
      - intros (l' & Heq & Hl). now injection Heq as <-. }
    split.
    + apply (drop_sorted_set _ _ _ _ Hs Hdrop).
    + f_equal. now apply collected_by_label.
Qed.


(** Claim C4, as amended.  For every batch [B] and every run that
    returns, the rows of the curated frame come in the order they
    have in [B], and the rows of the quarantine frame come in the
    ascending order of their labels (the order of
    [sorted(set(...))], line 83).  So when the labels of [B] ascend,
    as the labels by position do (what [pd.read_csv] makes of a file
    none of whose records has more fields than the header), the
    quarantined rows come in the order they have in [B] too: they
    are the rows of [B] with some left out. *)
Theorem order_preservation df out :
  main E (Some df) = Py.Ok out ->
  subseq (index (df_good out)) (index df)
  /\ nondescending (index (df_bad out))
  /\ (ascending (index df) ->
      subseq (index (df_bad out)) (index df)
      /\ subseq (df_rows (df_bad out)) (df_rows df)).
Proof.
  intros H.
  destruct (main_cases_labelled _ _ H)
    as [(_ & Hg & Hb) | (fs & ls & Hv & Hasc & Hls & Hg & Hb)].
  - rewrite Hg, Hb.
    destruct (coerce_dtype_shape E schema df) as [_ ->].
    split; [apply subseq_refl|]. split; [constructor|].
    intros _. split; apply subseq_nil_l.
  - split; [|split].
    + unfold index, named. rewrite Hg. cbn [df_rows].
      rewrite (map_fst_filter
                 (fun l => negb (Py.mem (Some l) (map fc_index fs)))).
      apply subseq_filter.
    + unfold index. rewrite Hb. cbn [df_rows].
      now apply collected_nondescending.
    + intros Hidx. destruct (main_Ok E _ _ H) as [printed Hsep].
      destruct (separate_SchemaErrors E _ _ _ _ _ Hidx Hv Hsep)
        as (_ & _ & -> & _).
      unfold index, named. cbn [df_rows].
      rewrite (map_fst_filter (fun l => Py.mem (Some l) (map fc_index fs))).
      split; apply subseq_filter.
Qed.


End Partition.

(* ================================================================== *)
(** * The columns of the coerced frame *)

Section Columns.
Import Pandas Pandera.
Variable E : Engine.

Lemma position_Some name columns k :
  position name columns = Some k -> nth_error columns k = Some name.
Proof.
  revert k. induction columns as [|c columns IH]; intros k H;
    cbn [position] in H; [discriminate|].
  destruct (String.eqb name c) eqn:Heq.
  - injection H as <-. apply String.eqb_eq in Heq. now subst.
  - destruct (position name columns) as [k'|]; [|discriminate].
    injection H as <-. cbn [nth_error]. now apply IH.
Qed.

Lemma position_inj n1 n2 columns k :
  position n1 columns = Some k -> position n2 columns = Some k -> n1 = n2.
Proof.
  intros H1 H2. apply position_Some in H1, H2. congruence.
Qed.

Lemma position_None name columns :
  position name columns = None <-> ~ In name columns.
Proof.
  induction columns as [|c columns IH]; cbn [position In]; [tauto|].
  destruct (String.eqb name c) eqn:Heq.
  - apply String.eqb_eq in Heq. subst. split; [discriminate | tauto].
  - apply String.eqb_neq in Heq.
    destruct (position name columns); cbn [option_map].
    + split; [discriminate|]. intros H.
      assert (~ In name columns) as H' by tauto.
      apply IH in H'. discriminate.
    + split; [|reflexivity]. intros _ [H|H]; [congruence|].
      now apply (proj1 IH).
Qed.

Lemma in_schema_false schema name :
  in_schema schema name = false <-> ~ In name (map fst (columns schema)).
Proof.
  unfold in_schema. rewrite <- not_true_iff_false, existsb_exists.
  split; intros H Hin; apply H.
  - apply in_map_iff in Hin as (c & <- & Hc). exists c.
    split; [assumption | apply String.eqb_refl].
  - destruct Hin as (c & Hc & Heq). apply String.eqb_eq in Heq. subst.
    now apply in_map.
Qed.

(** ** Cells *)

Lemma nth_set_nth k v cells k' :
  nth k' (set_nth k v cells) NaN
  = if Nat.eqb k' k then v else nth k' cells NaN.
Proof.
  revert cells k'. induction k as [|k IH]; intros [|c cells] [|k'];
    cbn [set_nth nth Nat.eqb]; try reflexivity.
  - now destruct k'.
  - rewrite IH. destruct (Nat.eqb k' k); [reflexivity | now destruct k'].
  - apply IH.
Qed.

Lemma column_set_cells_other k values k' :
  k' <> k ->
  forall rows, map (cell k') (set_cells k values rows) = map (cell k') rows.
Proof.
  intros Hne. induction values as [|v values IH]; intros [|[l cs] rows];
    cbn [set_cells map]; try reflexivity.
  rewrite IH. f_equal. unfold cell. cbn [snd]. rewrite nth_set_nth.
  apply Nat.eqb_neq in Hne. now rewrite Hne.
Qed.

Lemma column_set_cells_same k values :
  forall rows, List.length values = List.length rows ->
  map (cell k) (set_cells k values rows) = values.
Proof.
  induction values as [|v values IH]; intros [|[l cs] rows] Hlen;
    try discriminate; [reflexivity|].
  cbn [set_cells map]. rewrite IH by (now injection Hlen). f_equal.
  unfold cell. cbn [snd]. now rewrite nth_set_nth, Nat.eqb_refl.
Qed.

Lemma column_set_column_other k values df k' :
  k' <> k -> column (set_column k values df) k' = column df k'.
Proof. intros H. now apply column_set_cells_other. Qed.

Lemma column_set_column_same k values df :
  List.length values = List.length (df_rows df) ->
  column (set_column k values df) k = values.
Proof. apply column_set_cells_same. Qed.

Lemma length_column df k : List.length (column df k) = List.length (df_rows df).
Proof. apply length_map. Qed.

(** ** Coercion of a column *)

Lemma all_some_length {A} (l : list (option A)) :
  forall l', all_some l = Some l' -> List.length l' = List.length l.
Proof.
  induction l as [|[a|] l IH]; intros l' H; cbn [all_some] in H;
    try discriminate.
  - now injection H as <-.
  - destruct (all_some l) as [l''|]; [|discriminate].
    injection H as <-. cbn [List.length]. f_equal. now apply IH.
Qed.

Lemma all_some_map_Some {A B} (f : A -> B) l :
  all_some (map (fun a => Some (f a)) l) = Some (map f l).
Proof.
  induction l as [|a l IH]; [reflexivity|].
  cbn [map all_some]. now rewrite IH.
Qed.

Lemma all_some_None {A B} (f : A -> option B) l a :
  In a l -> f a = None -> all_some (map f l) = None.
Proof.
  induction l as [|b l IH]; intros Hin Hf; [destruct Hin|].
  cbn [map all_some]. destruct Hin as [->|Hin].
  - now rewrite Hf.
  - destruct (f b); [|reflexivity]. now rewrite IH.
Qed.

Lemma coerce_column_length t values values' :
  coerce_column E t values = Some values' ->
  List.length values' = List.length values.
Proof.
  unfold coerce_column. intros H.
  destruct t;
    try (apply all_some_length in H; now rewrite length_map in H).
  destruct (forallb is_time values); [now injection H as <-|].
  destruct (to_datetime E values); [|discriminate].
  injection H as <-. now rewrite length_map, length_seq.
Qed.

Lemma coerce_column_str values :
  coerce_column E String_ values = Some (map (astype_str E) values).
Proof. apply all_some_map_Some. Qed.

Lemma coerce_one_column acc c k :
  position (fst c) (df_columns (fst acc)) = Some k ->
  column (fst (coerce_one E true acc c)) k = coerced_column E (fst acc) c k.
Proof.
  intros Hpos. destruct acc as [df errors]. cbn [fst] in *.
  unfold coerce_one, coerced_column. cbn [orb]. rewrite Hpos.
  destruct (coerce_column E (dtype (snd c)) (column df k)) as [values|] eqn:Hc;
    cbn [fst]; [|reflexivity].
  apply column_set_column_same.
  now rewrite (coerce_column_length _ _ _ Hc), length_column.
Qed.

Lemma coerce_one_column_other acc c k :
  position (fst c) (df_columns (fst acc)) <> Some k ->
  column (fst (coerce_one E true acc c)) k = column (fst acc) k.
Proof.
  intros Hpos. destruct acc as [df errors]. cbn [fst] in *.
  unfold coerce_one. cbn [orb].
  destruct (position (fst c) (df_columns df)) as [k'|]; [|reflexivity].
  destruct (coerce_column E (dtype (snd c)) (column df k'));
    cbn [fst]; [|reflexivity].
  apply column_set_column_other. congruence.
Qed.

Lemma fold_coerce_column cs :
  forall acc k, NoDup (map fst cs) ->
  let r := fold_left (coerce_one E true) cs acc in
  (forall c, In c cs ->
     position (fst c) (df_columns (fst acc)) = Some k ->
     column (fst r) k = coerced_column E (fst acc) c k)
  /\ ((forall c, In c cs ->
         position (fst c) (df_columns (fst acc)) <> Some k) ->
      column (fst r) k = column (fst acc) k).
Proof.
  induction cs as [|c0 cs IH]; intros acc k Hnd r; subst r.
  - split; [intros c [] | reflexivity].
  - cbn [map] in Hnd. inversion Hnd as [|? ? Hc0 Hnd']; subst.
    cbn [fold_left].
    destruct (IH (coerce_one E true acc c0) k Hnd') as [IH1 IH2].
    destruct (coerce_one_shape E true acc c0) as [Hcols _].
    rewrite Hcols in IH1, IH2.
    assert (forall c, In c cs ->
              position (fst c) (df_columns (fst acc)) = Some k ->
              position (fst c0) (df_columns (fst acc)) <> Some k) as Hdiff.
    { intros c Hc Hk Hk0. apply Hc0.
      rewrite (position_inj _ _ _ _ Hk0 Hk). now apply in_map. }
    split.
    + intros c [<-|Hc] Hk.
      * rewrite IH2.
        -- now apply coerce_one_column.
        -- intros c Hc Hk'. apply (Hdiff c Hc Hk' Hk).
      * rewrite (IH1 c Hc Hk). unfold coerced_column.
        now rewrite (coerce_one_column_other acc c0 k (Hdiff c Hc Hk)).
    + intros Hnone. rewrite IH2.
      * apply coerce_one_column_other. apply Hnone. now left.
      * intros c Hc. apply Hnone. now right.
Qed.

End Columns.

(* ================================================================== *)
(** * Failure cases of the schema *)

Section Failures.
Import Pandas Pandera Transform.
Variable E : Engine.

Lemma validate_failure_cases df :
  validate E schema df =
  match failure_cases E df with
  | [] => Validated (fst (coerce_dtype E schema df))
  | fcs => SchemaErrors fcs
  end.
Proof.
  unfold validate, failure_cases.
  now destruct (coerce_dtype E schema df) as [coerced errors].
Qed.

Lemma validate_In df fc :
  In fc (failure_cases E df) ->
  validate E schema df = SchemaErrors (failure_cases E df).
Proof.
  intros H. rewrite validate_failure_cases.
  destruct (failure_cases E df); [destruct H | reflexivity].
Qed.

Lemma validate_Validated df dfv :
  validate E schema df = Validated dfv ->
  failure_cases E df = [] /\ dfv = fst (coerce_dtype E schema df).
Proof.
  rewrite validate_failure_cases.
  destruct (failure_cases E df); [|discriminate].
  intros H. now injection H as <-.
Qed.

Lemma schema_names_NoDup : NoDup (map fst (columns schema)).
Proof.
  cbn. repeat constructor; cbn; intuition discriminate.
Qed.

(** The column of a schema column in the coerced frame. *)
Lemma coerced_schema_column df c k :
  In c (columns schema) ->
  position (fst c) (df_columns df) = Some k ->
  column (fst (coerce_dtype E schema df)) k = coerced_column E df c k.
Proof.
  intros Hc Hk.
  destruct (fold_coerce_column E (columns schema) (df, []) k
              schema_names_NoDup) as [H _].
  now apply H.
Qed.

(** A failure case of the checks of one schema column is one of
    the run. *)
Lemma check_column_failure df c fc :
  In c (columns schema) ->
  In fc (check_column c (fst (coerce_dtype E schema df))) ->
  In fc (failure_cases E df).
Proof.
  intros Hc Hfc. unfold failure_cases.
  apply in_or_app. right. apply in_or_app. right.
  apply in_or_app. right.
  unfold run_schema_component_checks. apply in_flat_map. now exists c.
Qed.

(** A failure case that names no row stops the run. *)
Lemma scalar_failure_aborts df fc :
  In fc (failure_cases E df) -> fc_index fc = None ->
  exists e, main E (Some df) = Py.Raise e.
Proof.
  intros Hfc HNone.
  destruct (separate_aborts E df (failure_cases E df)) as [e He].
  - now apply validate_In with fc.
  - now exists fc.
  - exists e. now apply main_aborts.
Qed.

(** A failure case that names a row sends it to quarantine, when
    the run returns. *)
Lemma row_failure_quarantined columns data fc i cells out :
  In fc (failure_cases E (frame columns data)) ->
  fc_index fc = Some i ->
  nth_error data i = Some cells ->
  main E (Some (frame columns data)) = Py.Ok out ->
  In (i, cells) (df_rows (df_bad out))
  /\ ~ In i (index (df_good out)).
Proof.
  intros Hfc Hi Hcells Hmain.
  pose proof (validate_In _ _ Hfc) as Hv.
  destruct (main_cases E _ _ _ Hmain) as [(Hv' & _) | (fs & Hv' & Hg & Hb)];
    [congruence|].
  rewrite Hv in Hv'. injection Hv' as <-.
  assert (Py.mem (Some i) (map fc_index (failure_cases E (frame columns data)))
          = true) as Hmem.
  { apply mem_In. rewrite <- Hi. now apply in_map. }
  split.
  - rewrite Hb. cbn [frame df_rows]. apply filter_In.
    split; [|exact Hmem]. clear - Hcells.
    change i with (0 + i)%nat at 1. generalize 0%nat.
    revert i Hcells. induction data as [|d data IH]; intros [|i] H s;
      try discriminate; cbn [List.length seq combine].
    + injection H as ->. rewrite Nat.add_0_r. now left.
    + right. rewrite <- Nat.add_succ_comm. now apply IH.
  - unfold index. rewrite Hg. cbn [df_rows]. intros Hin.
    apply in_map_iff in Hin as (r & Hr & Hin).
    apply filter_In in Hin as [_ Hin]. unfold named in Hin.
    rewrite Hr, Hmem in Hin. discriminate.
Qed.

End Failures.

Section Rows.
Import Pandas Pandera Transform.
Variable E : Engine.

Lemma column_frame columns data k :
  column (frame columns data) k = map (fun cells => nth k cells NaN) data.
Proof.
  unfold column, frame. cbn [df_rows]. generalize 0%nat.
  induction data as [|d data IH]; intros s; [reflexivity|].
  cbn [List.length seq combine map]. f_equal. apply IH.
Qed.

Lemma In_combine_seq {A B} (f : A -> B) data i a :
  nth_error data i = Some a ->
  forall s, In ((s + i)%nat, f a)
               (combine (seq s (List.length data)) (map f data)).
Proof.
  revert i. induction data as [|d data IH]; intros [|i] H s;
    try discriminate; cbn [List.length seq map combine].
  - injection H as ->. rewrite Nat.add_0_r. now left.
  - right. rewrite <- Nat.add_succ_comm. now apply IH.
Qed.

(** The labelled values the checks of a schema column see. *)
Lemma labelled_coerced columns data c k :
  In c (Pandera.columns schema) ->
  position (fst c) columns = Some k ->
  let coerced := fst (coerce_dtype E schema (frame columns data)) in
  position (fst c) (df_columns coerced) = Some k
  /\ column coerced k = coerced_column E (frame columns data) c k
  /\ index coerced = seq 0 (List.length data).
Proof.
  intros Hc Hk coerced. subst coerced.
  destruct (coerce_dtype_shape E schema (frame columns data)) as [-> ->].
  rewrite index_frame. repeat split; [assumption|].
  now apply coerced_schema_column.
Qed.

Lemma row_failures_In name check fails labelled l v :
  In (l, v) labelled -> fails v = true ->
  In {| fc_column := Some name; fc_check := check;
        fc_failure_case := v; fc_index := Some l |}
     (row_failures name check fails labelled).
Proof.
  intros Hin Hf. unfold row_failures.
  apply in_map_iff. exists (l, v). split; [reflexivity|].
  apply filter_In. now split.
Qed.

Lemma filter_one {A} (p : A -> bool) l a :
  In a l -> p a = true -> (1 <= List.length (filter p l))%nat.
Proof.
  intros Hin Hp.
  assert (In a (filter p l)) as H by (apply filter_In; now split).
  destruct (filter p l); [destruct H | cbn; lia].
Qed.

Lemma filter_two {A} (p : A -> bool) l :
  forall i j a b, i <> j ->
  nth_error l i = Some a -> nth_error l j = Some b ->
  p a = true -> p b = true -> (2 <= List.length (filter p l))%nat.
Proof.
  induction l as [|x l IH]; intros [|i] [|j] a b Hne Ha Hb Hpa Hpb;
    try discriminate; try congruence; cbn [nth_error] in Ha, Hb;
    cbn [filter].
  - injection Ha as ->. rewrite Hpa. cbn [List.length].
    apply nth_error_In in Hb. pose proof (filter_one p l b Hb Hpb). lia.
  - injection Hb as ->. rewrite Hpb. cbn [List.length].
    apply nth_error_In in Ha. pose proof (filter_one p l a Ha Hpa). lia.
  - assert (2 <= List.length (filter p l))%nat
      by (apply (IH i j a b); auto).
    destruct (p x); cbn [List.length]; lia.
Qed.

Lemma astype_str_cases v :
  isna (astype_str E v) = true \/ exists s, astype_str E v = VStr s.
Proof.
  destruct v as [s|i|x|b|[t|]]; cbn [astype_str];
    try (right; now eexists); [|now left].
  destruct x; try (right; now eexists). now left.
Qed.

Lemma has_dtype_astype_str values :
  forallb (has_dtype String_) (map (astype_str E) values) = true.
Proof.
  apply forallb_forall. intros v Hv.
  apply in_map_iff in Hv as (v0 & <- & _).
  destruct (astype_str_cases v0) as [H | [s ->]]; [|reflexivity].
  destruct (astype_str E v0) as [| | [] | |[]]; try discriminate;
    reflexivity.
Qed.

End Rows.

Section Claims.
Import Pandas Pandera Transform.
Variable E : Engine.

(** Claim C6 (strict policy), where the script falls short of it.
    When the batch has a column that the schema does not name, or
    lacks a column of the schema, [validate] records a failure case
    that carries the name of such a column (the missing one, or the
    first of the unknown ones); the failure case has no row, and the
    run stops with an exception it does not catch. *)
Theorem strict_violation_aborts columns data c :
  off_schema columns c ->
  (exists fcs fc c',
     validate E schema (frame columns data) = SchemaErrors fcs
     /\ In fc fcs
     /\ fc_failure_case fc = VStr c' /\ off_schema columns c'
     /\ fc_index fc = None)
  /\ exists e, main E (Some (frame columns data)) = Py.Raise e.
Proof.
  intros H.
  assert (exists fc c', In fc (failure_cases E (frame columns data))
                        /\ fc_failure_case fc = VStr c'
                        /\ off_schema columns c'
                        /\ fc_index fc = None)
    as (fc & c' & Hfc & Hcase & Hoff & HNone).
  { destruct H as [[Hin Hout] | [Hin Hout]].
    - (* an unknown column: the first one is reported *)
      assert (In c (filter (fun name => negb (in_schema schema name))
                           columns)) as Hc.
      { apply filter_In. split; [assumption|].
        apply in_schema_false in Hout. now rewrite Hout. }
      destruct (filter (fun name => negb (in_schema schema name)) columns)
        as [|c' rest] eqn:Hf; [destruct Hc|].
      assert (In c' (filter (fun name => negb (in_schema schema name))
                            columns)) as Hc' by (rewrite Hf; now left).
      apply filter_In in Hc' as [Hin' Hout'].
      apply negb_true_iff, in_schema_false in Hout'.
      exists (scalar_failure_case None column_in_schema c'), c'.
      repeat split; [|left; now split].
      unfold failure_cases. apply in_or_app. left.
      unfold strict_filter_columns. cbn [strict schema frame df_columns].
      fold schema. rewrite Hf. now left.
    - (* a missing column *)
      exists (scalar_failure_case None column_in_dataframe c), c.
      repeat split; [|right; now split].
      unfold failure_cases.
      apply in_or_app. right. apply in_or_app. right.
      apply in_or_app. left.
      unfold check_column_presence.
      apply in_map_iff in Hin as (col & <- & Hcol).
      apply in_flat_map. exists col. split; [assumption|].
      apply position_None in Hout. cbn [frame df_columns].
      rewrite Hout. now left. }
  split.
  - exists (failure_cases E (frame columns data)), fc, c'.
    repeat split; try assumption. now apply validate_In with fc.
  - now apply scalar_failure_aborts with fc.
Qed.

(** Claim C7 (validation failures never abort), where the script
    falls short of it.  A record whose amount is a text that does not
    read as a float stops the run with an exception it does not
    catch: the coercion of the column fails, and the dtype failure
    case that follows has no row. *)
Theorem unreadable_amount_aborts columns data k i cells s :
  position "amount" columns = Some k ->
  nth_error data i = Some cells ->
  nth k cells NaN = VStr s ->
  float_of_str E s = None ->
  exists e, main E (Some (frame columns data)) = Py.Raise e.
Proof.
  intros Hk Hcells Hcell Hfloat.
  set (c := ("amount",
             {| dtype := Float; checks := [gt 0];
                unique := false; column_coerce := false |})).
  assert (In c (Pandera.columns schema)) as Hc by in_list.
  destruct (labelled_coerced E columns data c k Hc Hk) as (Hpos & Hcol & _).
  assert (In (VStr s) (column (frame columns data) k)) as Hin.
  { rewrite column_frame, <- Hcell.
    apply (in_map (fun cs => nth k cs NaN)), (nth_error_In _ _ Hcells). }
  assert (coerced_column E (frame columns data) c k
          = column (frame columns data) k) as Hsame.
  { unfold coerced_column, coerce_column. cbn [c snd dtype].
    rewrite (all_some_None (coerce_cell E Float) _ (VStr s) Hin);
      [reflexivity|].
    cbn [coerce_cell astype_float]. now rewrite Hfloat. }
  apply scalar_failure_aborts
    with (scalar_failure_case (Some "amount") (dtype_id Float) "float64");
    [|reflexivity].
  apply (check_column_failure E _ c); [assumption|].
  unfold check_column. cbn [c fst snd] in *. rewrite Hpos.
  cbn [dtype unique checks].
  apply in_or_app. right. cbn [app].
  rewrite Hcol, Hsame.
  replace (forallb (has_dtype Float) (column (frame columns data) k))
    with false; [now left|].
  symmetry. apply not_true_iff_false. intros Hall.
  rewrite forallb_forall in Hall. specialize (Hall _ Hin). discriminate.
Qed.

(** Claim C2 (uniqueness propagation), where the script falls short
    of it.  For every batch as read in which the record at row [i]
    has the same transaction_id as the record at another row [j],
    [validate] reports a failure case for row [i], whatever the other
    fields of the record hold, and a run that returns has the record
    in quarantine and not in the curated frame.  But the run does not
    return for every such batch: when the failure cases hold one
    without a row as well, the run stops with an exception it does
    not catch, and the record is not quarantined.  (By symmetry the
    same holds of row [j].) *)
Theorem uniqueness_propagation columns data k i j cells cells' :
  position "transaction_id" columns = Some k ->
  nth_error data i = Some cells ->
  nth_error data j = Some cells' ->
  i <> j ->
  nth k cells NaN = nth k cells' NaN ->
  (exists fcs,
     validate E schema (frame columns data) = SchemaErrors fcs
     /\ In (Some i) (map fc_index fcs)
     /\ (In None (map fc_index fcs) ->
         exists e, main E (Some (frame columns data)) = Py.Raise e))
  /\ forall out,
       main E (Some (frame columns data)) = Py.Ok out ->
       In (i, cells) (df_rows (df_bad out))
       /\ ~ In i (index (df_good out)).
Proof.
  intros Hk Hi Hj Hne Hsame.
  set (c := ("transaction_id",
             {| dtype := String_; checks := [str_matches "^txn_\d{6}$"];
                unique := true; column_coerce := false |})).
  assert (In c (Pandera.columns schema)) as Hc by in_list.
  destruct (labelled_coerced E columns data c k Hc Hk)
    as (Hpos & Hcol & Hidx).
  unfold coerced_column in Hcol. cbn [c snd dtype] in Hcol.
  rewrite coerce_column_str, column_frame, map_map in Hcol.
  set (f := fun cells => astype_str E (nth k cells NaN)) in Hcol.
  assert (exists fc, In fc (failure_cases E (frame columns data))
                     /\ fc_index fc = Some i) as (fc & Hfc & Hfci).
  { destruct (astype_str_cases E (nth k cells NaN)) as [Hna | [s Hs]].
    - exists {| fc_column := Some "transaction_id";
                fc_check := not_nullable;
                fc_failure_case := f cells; fc_index := Some i |}.
      split; [|reflexivity].
      apply (check_column_failure E _ c); [assumption|].
      unfold check_column. cbn [c fst snd] in *. rewrite Hpos.
      apply in_or_app. left. rewrite Hcol, Hidx.
      apply row_failures_In; [|exact Hna].
      apply (In_combine_seq f data i cells Hi 0%nat).
    - exists {| fc_column := Some "transaction_id";
                fc_check := field_uniqueness;
                fc_failure_case := f cells; fc_index := Some i |}.
      split; [|reflexivity].
      apply (check_column_failure E _ c); [assumption|].
      unfold check_column. cbn [c fst snd] in *. rewrite Hpos.
      cbn [unique].
      apply in_or_app. right. apply in_or_app. left.
      rewrite Hcol, Hidx.
      apply row_failures_In;
        [apply (In_combine_seq f data i cells Hi 0%nat)|].
      unfold f at 1 3. rewrite Hs. cbn [isna negb andb].
      unfold duplicated. apply Nat.leb_le.
      apply (filter_two _ _ i j (f cells) (f cells') Hne).
      + now apply map_nth_error.
      + now apply map_nth_error.
      + unfold f. rewrite Hs. apply String.eqb_refl.
      + unfold f. rewrite <- Hsame, Hs. apply String.eqb_refl. }
  split.
  - exists (failure_cases E (frame columns data)). split; [|split].
    + now apply validate_In with fc.
    + rewrite <- Hfci. now apply in_map.
    + intros HNone. apply in_map_iff in HNone as (fc' & HNone & Hfc').
      now apply scalar_failure_aborts with fc'.
  - intros out Hmain.
    now apply (row_failure_quarantined E columns data fc).
Qed.

(** Claim C1, as amended.  The allowed set of payment_method in the
    schema is credit_card, paypal, debit_card, bank_transfer and
    crypto, so that crypto passes the check.  For every batch as
    read, a record whose payment_method is a string outside that set
    gets a failure case from [validate], and a run that returns has
    the record in quarantine and not in the curated frame. *)
Theorem payment_method_membership :
  In ("payment_method",
      {| dtype := String_;
         checks := [isin [VStr "credit_card"; VStr "paypal";
                          VStr "debit_card"; VStr "bank_transfer";
                          VStr "crypto"]];
         unique := false; column_coerce := false |})
     (Pandera.columns schema)
  /\ check_value (isin [VStr "credit_card"; VStr "paypal";
                        VStr "debit_card"; VStr "bank_transfer";
                        VStr "crypto"]) (VStr "crypto") = true
  /\ forall columns data k i cells s,
       position "payment_method" columns = Some k ->
       nth_error data i = Some cells ->
       nth k cells NaN = VStr s ->
       ~ In s ["credit_card"; "paypal"; "debit_card"; "bank_transfer";
               "crypto"] ->
       (exists fcs,
          validate E schema (frame columns data) = SchemaErrors fcs
          /\ In (Some i) (map fc_index fcs))
       /\ forall out,
            main E (Some (frame columns data)) = Py.Ok out ->
            In (i, cells) (df_rows (df_bad out))
            /\ ~ In i (index (df_good out)).
Proof.
  split; [in_list|]. split; [reflexivity|].
  intros columns data k i cells s Hk Hi Hcell Hout.
  set (c := ("payment_method",
             {| dtype := String_;
                checks := [isin [VStr "credit_card"; VStr "paypal";
                                 VStr "debit_card"; VStr "bank_transfer";
                                 VStr "crypto"]];
                unique := false; column_coerce := false |})).
  assert (In c (Pandera.columns schema)) as Hc by in_list.
  destruct (labelled_coerced E columns data c k Hc Hk)
    as (Hpos & Hcol & Hidx).
  unfold coerced_column in Hcol. cbn [c snd dtype] in Hcol.
  rewrite coerce_column_str, column_frame, map_map in Hcol.
  set (f := fun cells => astype_str E (nth k cells NaN)) in Hcol.
  set (fc := {| fc_column := Some "payment_method";
                fc_check := check_number 0
                  (isin [VStr "credit_card"; VStr "paypal";
                         VStr "debit_card"; VStr "bank_transfer";
                         VStr "crypto"]);
                fc_failure_case := f cells; fc_index := Some i |}).
  assert (In fc (failure_cases E (frame columns data))) as Hfc.
  { apply (check_column_failure E _ c); [assumption|].
    unfold check_column. cbn [c fst snd] in *. rewrite Hpos.
    cbn [unique dtype checks].
    apply in_or_app. right. cbn [app].
    rewrite Hcol at 1. fold f. unfold f at 1.
    rewrite <- map_map, has_dtype_astype_str.
    cbn [run_checks]. apply in_or_app. left.
    rewrite Hcol, Hidx.
    apply row_failures_In;
      [apply (In_combine_seq f data i cells Hi 0%nat)|].
    unfold f. rewrite Hcell. cbn [astype_str isna negb andb].
    cbn [check_value existsb value_eqb].
    cbn [In] in Hout.
    repeat match goal with
           | |- context [String.eqb s ?x] =>
               let H := fresh in
               destruct (String.eqb s x) eqn:H;
               [apply String.eqb_eq in H; symmetry in H; tauto|]
           end.
    reflexivity. }
  split.
  - exists (failure_cases E (frame columns data)). split.
    + now apply validate_In with fc.
    + change (Some i) with (fc_index fc). now apply in_map.
  - intros out Hmain.
    now apply (row_failure_quarantined E columns data fc).
Qed.

End Claims.

(* ================================================================== *)
(** * Rows put back in the order of their labels *)

Section SortIndex.
Import Pandas.

Lemma insert_row_perm r rows : Permutation (insert_row r rows) (r :: rows).
Proof.
  induction rows as [|a rows IH]; cbn [insert_row]; [reflexivity|].
  destruct (fst r <? fst a)%nat; [reflexivity|].
  rewrite IH. apply perm_swap.
Qed.

Lemma insert_row_ascending r rows :
  ascending (map fst rows) -> ~ In (fst r) (map fst rows) ->
  ascending (map fst (insert_row r rows)).
Proof.
  induction rows as [|a rows IH]; intros Hasc Hr; cbn [insert_row].
  - repeat constructor.
  - cbn [map] in Hasc, Hr. apply ascending_cons in Hasc as [Hasc F].
    destruct (fst r <? fst a)%nat eqn:Hlt.
    + apply Nat.ltb_lt in Hlt. cbn [map].
      apply ascending_cons. split.
      * apply ascending_cons. now split.
      * constructor; [exact Hlt|].
        rewrite Forall_forall in *. intros x Hx. specialize (F x Hx).
        unfold Nat.lt in *. lia.
    + apply Nat.ltb_ge in Hlt. cbn [map].
      apply ascending_cons. split.
      * apply IH; [assumption|]. intros H. apply Hr. now right.
      * rewrite Forall_forall in *. intros x Hx.
        apply (Permutation_in _ (Permutation_map fst (insert_row_perm r rows)))
          in Hx.
        destruct Hx as [<-|Hx]; [|auto].
        assert (fst r <> fst a) by (intros Heq; apply Hr; now left).
        unfold Nat.lt. lia.
Qed.

Lemma sort_rows_perm l : Permutation (fold_right insert_row [] l) l.
Proof.
  induction l as [|r l IH]; cbn [fold_right]; [reflexivity|].
  rewrite insert_row_perm. now constructor.
Qed.

Lemma sort_rows_ascending l :
  NoDup (map fst l) -> ascending (map fst (fold_right insert_row [] l)).
Proof.
  induction l as [|r l IH]; intros Hnd; cbn [fold_right]; [constructor|].
  cbn [map] in Hnd. inversion Hnd as [|? ? Hr Hnd']; subst.
  apply insert_row_ascending; [auto|].
  intros H. apply Hr.
  apply (Permutation_in _ (Permutation_map fst (sort_rows_perm l))) in H.
  exact H.
Qed.

(** Sorting by label undoes any shuffle of a frame whose index
    ascends. *)
Lemma sort_rows_of_perm rows l :
  ascending (map fst rows) -> Permutation l rows ->
  fold_right insert_row [] l = rows.
Proof.
  intros Hasc Hperm.
  pose proof (ascending_NoDup _ Hasc) as Hnd.
  assert (Permutation (fold_right insert_row [] l) rows) as Hp
    by (now rewrite sort_rows_perm).
  apply (rows_eq_by_labels rows); auto.
  - intros r. apply (Permutation_in _ Hp).
  - intros r Hr. exact Hr.
  - apply ascending_ext; auto.
    + apply sort_rows_ascending.
      apply (Permutation_NoDup (Permutation_map fst (Permutation_sym Hperm))).
      exact Hnd.
    + intros x. split; apply Permutation_in;
        [| apply Permutation_sym]; now apply Permutation_map.
Qed.

End SortIndex.

(* ================================================================== *)
(** * Rows wide enough to hold a column *)

Section Wide.
Import Pandas Pandera.
Variable E : Engine.

Lemma length_set_nth k v cells :
  (k < List.length (set_nth k v cells))%nat
  /\ (List.length cells <= List.length (set_nth k v cells))%nat.
Proof.
  revert cells. induction k as [|k IH]; intros [|c cells];
    cbn [set_nth List.length]; try lia.
  - specialize (IH []). cbn [List.length] in IH. lia.
  - specialize (IH cells). lia.
Qed.

Lemma set_nth_same k cells :
  (k < List.length cells)%nat -> set_nth k (nth k cells NaN) cells = cells.
Proof.
  revert cells. induction k as [|k IH]; intros [|c cells] H;
    cbn [List.length] in H; try lia; cbn [set_nth nth]; [reflexivity|].
  f_equal. apply IH. lia.
Qed.

Lemma wide_set_column k values df :
  List.length values = List.length (df_rows df) ->
  wide k (set_column k values df).
Proof.
  unfold wide, set_column. cbn [df_rows].
  generalize (df_rows df). clear df.
  induction values as [|v values IH]; intros [|[l cs] rows] Hlen;
    try discriminate; cbn [set_cells]; constructor.
  - cbn [snd]. apply length_set_nth.
  - apply IH. now injection Hlen.
Qed.

Lemma wide_set_column_other k k' values df :
  wide k df -> wide k (set_column k' values df).
Proof.
  unfold wide, set_column. cbn [df_rows].
  generalize (df_rows df). clear df.
  induction values as [|v values IH]; intros [|[l cs] rows] H;
    cbn [set_cells]; try assumption.
  inversion H as [|? ? Hr H']; subst. constructor; [|auto].
  cbn [snd] in *. pose proof (length_set_nth k' v cs). lia.
Qed.

Lemma set_column_same k df :
  wide k df -> set_column k (column df k) df = df.
Proof.
  destruct df as [cols rows]. unfold wide, set_column, column.
  cbn [df_rows df_columns]. intros H. f_equal.
  induction rows as [|[l cs] rows IH]; [reflexivity|].
  inversion H as [|? ? Hr H']; subst. cbn [map set_cells].
  rewrite IH by assumption. unfold cell. cbn [snd] in *.
  now rewrite set_nth_same.
Qed.

Lemma coerce_one_wide acc c k :
  wide k (fst acc) -> wide k (fst (coerce_one E true acc c)).
Proof.
  destruct acc as [df errors]. unfold coerce_one. cbn [orb fst].
  destruct (position (fst c) (df_columns df)); [|auto].
  destruct (coerce_column E (dtype (snd c)) (column df n)); cbn [fst];
    [|auto].
  apply wide_set_column_other.
Qed.

Lemma fold_coerce_wide cs :
  forall acc k, wide k (fst acc) ->
  wide k (fst (fold_left (coerce_one E true) cs acc)).
Proof.
  induction cs as [|c cs IH]; intros acc k H; cbn [fold_left]; [exact H|].
  apply IH. now apply coerce_one_wide.
Qed.

(** A column that was converted is as long as the frame is high. *)
Lemma fold_coerce_widens cs :
  forall acc c k, NoDup (map fst cs) -> In c cs ->
  position (fst c) (df_columns (fst acc)) = Some k ->
  coerce_column E (dtype (snd c)) (column (fst acc) k) <> None ->
  wide k (fst (fold_left (coerce_one E true) cs acc)).
Proof.
  induction cs as [|c0 cs IH]; intros acc c k Hnd Hc Hk Hsome;
    [destruct Hc|].
  cbn [map] in Hnd. inversion Hnd as [|? ? Hc0 Hnd']; subst.
  cbn [fold_left]. destruct Hc as [->|Hc].
  - apply fold_coerce_wide.
    destruct acc as [df errors]. cbn [fst] in *.
    unfold coerce_one. cbn [orb]. rewrite Hk.
    destruct (coerce_column E (dtype (snd c)) (column df k)) as [values|]
      eqn:Hcc; [|congruence].
    cbn [fst]. apply wide_set_column.
    now rewrite (coerce_column_length _ _ _ _ Hcc), length_column.
  - destruct (coerce_one_shape E true acc c0) as [Hcols _].
    apply (IH _ c); auto.
    + now rewrite Hcols.
    + rewrite coerce_one_column_other; [assumption|].
      intros Hk0. apply Hc0.
      rewrite (position_inj _ _ _ _ Hk0 Hk). now apply in_map.
Qed.

(** A column that has the dtype already converts to itself. *)
Lemma coerce_column_id t values :
  forallb (has_dtype t) values = true ->
  coerce_column E t values = Some values.
Proof.
  intros H. rewrite forallb_forall in H. unfold coerce_column.
  assert (forall (f : value -> option value),
            (forall v, In v values -> f v = Some v) ->
            all_some (map f values) = Some values) as Hid.
  { intros f. clear H. induction values as [|v values IH]; intros Hf;
      [reflexivity|].
    cbn [map all_some]. rewrite (Hf v (or_introl eq_refl)).
    rewrite IH; [reflexivity|]. intros x Hx. apply Hf. now right. }
  destruct t.
  - apply Hid. intros v Hv. specialize (H v Hv). cbn [coerce_cell].
    f_equal. destruct v as [s|i|[]|b|[]]; try discriminate; reflexivity.
  - replace (forallb is_time values) with true; [reflexivity|].
    symmetry. apply forallb_forall. intros v Hv. specialize (H v Hv).
    destruct v; try discriminate. reflexivity.
  - apply Hid. intros v Hv. specialize (H v Hv).
    destruct v; try discriminate. reflexivity.
  - apply Hid. intros v Hv. specialize (H v Hv).
    destruct v; try discriminate. reflexivity.
Qed.

End Wide.

Section Rerun.
Import Pandas Pandera Transform.
Variable E : Engine.

Lemma flat_map_nil {A B} (f : A -> list B) l a :
  flat_map f l = [] -> In a l -> f a = [].
Proof.
  induction l as [|b l IH]; intros H Hin; [destruct Hin|].
  cbn [flat_map] in H. apply app_eq_nil in H as [Hb Hl].
  destruct Hin as [->|Hin]; auto.
Qed.

Lemma frame_eta df :
  {| df_columns := df_columns df; df_rows := df_rows df |} = df.
Proof. now destruct df. Qed.

(** A frame that passed validation converts to itself. *)
Lemma coerce_dtype_fixed df :
  failure_cases E df = [] ->
  coerce_dtype E schema (fst (coerce_dtype E schema df))
  = (fst (coerce_dtype E schema df), []).
Proof.
  intros Hnone. unfold failure_cases in Hnone.
  apply app_eq_nil in Hnone as [_ Hnone].
  apply app_eq_nil in Hnone as [_ Hnone].
  apply app_eq_nil in Hnone as [_ Hfailed].
  set (coerced := fst (coerce_dtype E schema df)) in *.
  assert (forall c, In c (Pandera.columns schema) ->
            coerce_one E true (coerced, []) c = (coerced, [])) as Hstep.
  { intros c Hc. unfold coerce_one. cbn [orb].
    destruct (position (fst c) (df_columns coerced)) as [k|] eqn:Hk;
      [|reflexivity].
    pose proof (flat_map_nil _ _ c Hfailed Hc) as Hchecks.
    unfold check_column in Hchecks. rewrite Hk in Hchecks.
    apply app_eq_nil in Hchecks as [_ Hchecks].
    apply app_eq_nil in Hchecks as [_ Hchecks].
    destruct (forallb (has_dtype (dtype (snd c))) (column coerced k))
      eqn:Hdtype; [|discriminate].
    rewrite (coerce_column_id E _ _ Hdtype).
    rewrite set_column_same; [reflexivity|].
    destruct (coerce_dtype_shape E schema df) as [Hcols _].
    fold coerced in Hcols. rewrite Hcols in Hk.
    apply (fold_coerce_widens E (Pandera.columns schema) (df, []) c k);
      auto using schema_names_NoDup.
    cbn [fst]. intros Hfail.
    pose proof (coerced_schema_column E df c k Hc Hk) as Hcol.
    fold coerced in Hcol. unfold coerced_column in Hcol.
    rewrite Hfail in Hcol. rewrite Hcol in Hdtype.
    rewrite (coerce_column_id E _ _ Hdtype) in Hfail. discriminate. }
  unfold coerce_dtype at 1. change (coerce schema) with true.
  revert Hstep. generalize (Pandera.columns schema).
  intros cs. induction cs as [|c cs IH]; intros Hstep; [reflexivity|].
  cbn [fold_left]. rewrite Hstep by now left.
  apply IH. intros c' Hc'. apply Hstep. now right.
Qed.

Lemma validate_fixed df dfv :
  validate E schema df = Validated dfv ->
  validate E schema dfv = Validated dfv.
Proof.
  intros Hv. apply validate_Validated in Hv as [Hnone ->].
  rewrite validate_failure_cases.
  pose proof (coerce_dtype_fixed df Hnone) as Hfix.
  destruct (coerce_dtype_shape E schema df) as [Hcols _].
  unfold failure_cases in *. rewrite Hfix. cbn [fst snd].
  unfold strict_filter_columns, check_column_presence in *.
  rewrite Hcols.
  apply app_eq_nil in Hnone as [-> Hnone].
  apply app_eq_nil in Hnone as [_ Hnone].
  apply app_eq_nil in Hnone as [-> ->].
  reflexivity.
Qed.

Lemma main_same_separate df1 df2 :
  separate E df2 = separate E df1 -> len df2 = len df1 ->
  main E (Some df2) = main E (Some df1).
Proof. intros Hs Hl. unfold main. now rewrite Hs, Hl. Qed.

(** Claim C5 (idempotence).  For every batch as read on which a run
    returns, a second run on the curated and the quarantine frame of
    the first, concatenated and put back in the order of the batch,
    returns what the first run returned: the same curated frame, the
    same quarantine frame, the same report. *)
Theorem idempotence columns data out :
  main E (Some (frame columns data)) = Py.Ok out ->
  main E (Some (concat_sort_index (df_good out) (df_bad out))) = Py.Ok out.
Proof.
  intros H. rewrite <- H.
  destruct (main_cases E _ _ _ H) as [(Hv & Hg & Hb) | (fs & _ & Hg & Hb)].
  - (* nothing failed: the curated frame is the validated one *)
    destruct (coerce_dtype_shape E schema (frame columns data))
      as [Hcols Hidx].
    assert (concat_sort_index (df_good out) (df_bad out) = df_good out)
      as ->.
    { unfold concat_sort_index. rewrite Hb. cbn [no_rows df_rows].
      rewrite app_nil_r, (sort_rows_of_perm (df_rows (df_good out)));
        [apply frame_eta | | reflexivity].
      fold (index (df_good out)). rewrite Hg, Hidx.
      apply ascending_frame. }
    apply main_same_separate.
    + rewrite (separate_Validated E _ _ Hv).
      rewrite (separate_Validated E _ _ (validate_fixed _ _ Hv)).
      now rewrite Hg, Hcols.
    + now rewrite !len_index, Hg, Hidx.
  - (* some rows failed: both frames hold rows of the batch as read *)
    f_equal. f_equal.
    unfold concat_sort_index. rewrite Hg, Hb. cbn [df_columns df_rows].
    unfold frame at 3. f_equal.
    apply sort_rows_of_perm.
    + apply (ascending_frame columns data).
    + apply filter_partition_perm.
Qed.

(** ** No division by zero *)

Lemma insert_raises x l e : Py.insert x l = Py.Raise e -> e = Py.TypeError.
Proof.
  induction l as [|a l IH]; cbn [Py.insert]; [discriminate|].
  destruct x as [x|], a as [a|]; cbn [Py.lt Py.bind];
    try (intros H; now injection H).
  destruct (x <? a)%nat; [discriminate|].
  destruct (Py.insert (Some x) l); cbn [Py.bind]; [discriminate|].
  intros H. injection H as <-. now apply IH.
Qed.

Lemma sorted_raises l e : Py.sorted l = Py.Raise e -> e = Py.TypeError.
Proof.
  induction l as [|a l IH]; cbn [Py.sorted]; [discriminate|].
  destruct (Py.sorted l) as [s|e']; cbn [Py.bind].
  - apply insert_raises.
  - intros H. injection H as <-. now apply IH.
Qed.

Lemma rows_at_raises df l e :
  Py.mapM (rows_at df) l = Py.Raise e -> e = Py.KeyError.
Proof.
  induction l as [|a l IH]; cbn [Py.mapM]; [discriminate|].
  destruct (rows_at df a) as [rs|e'] eqn:Ha; cbn [Py.bind].
  - destruct (Py.mapM (rows_at df) l); cbn [Py.bind]; [discriminate|].
    intros H. injection H as <-. now apply IH.
  - intros H. injection H as <-.
    destruct a as [n|]; cbn [rows_at] in Ha; [|now injection Ha].
    destruct (filter (has_label n) (df_rows df)); [now injection Ha|].
    discriminate.
Qed.

Lemma separate_raises df e :
  separate E df = Py.Raise e -> e = Py.TypeError \/ e = Py.KeyError.
Proof.
  unfold separate. destruct (validate E schema df); [discriminate|].
  destruct (Py.sorted _) as [s|e'] eqn:Hs; cbn [Py.bind].
  - unfold loc, drop.
    destruct (Py.mapM (rows_at df) s) as [rss|e'] eqn:Hm; cbn [Py.bind].
    + discriminate.
    + intros H. injection H as <-. right.
      now apply (rows_at_raises df s).
  - intros H. injection H as <-. left. now apply (sorted_raises _ _ Hs).
Qed.

(** Claim C8, as amended.  On the batch with the nine columns and no
    row the run returns two frames without rows and a report with a
    total of 0 in which the two lines that carry the counts and the
    percentages are left out: the guard of line 100 skips them, no
    ratio is computed.  The summary returns for every three counts,
    and no run, on any input, ends in a [ZeroDivisionError]. *)
Theorem empty_batch :
  main E (Some (frame Generate.cols []))
  = Py.Ok {| df_good := no_rows Generate.cols;
             df_bad := no_rows Generate.cols;
             curated_file := no_rows Generate.cols;
             quarantine_file := None;
             stdout := [Total_records_processed 0;
                        No_invalid_records;
                        Transformed_data_saved] |}
  /\ (forall total good bad,
        exists report, summary total good bad = Py.Ok report)
  /\ (forall input, main E input <> Py.Raise Py.ZeroDivisionError).
Proof.
  split; [reflexivity|]. split; [apply summary_returns|].
  intros [df|]; [|discriminate]. unfold main.
  destruct (separate E df) as [[[good bad] printed]|e] eqn:Hs;
    cbn [Py.bind].
  - destruct (summary_returns (len df) (len good) (len bad)) as [r ->].
    discriminate.
  - intros H. injection H as ->.
    destruct (separate_raises _ _ Hs); discriminate.
Qed.

End Rerun.

Create HintDb clock.

(* ================================================================== *)
(** * The generator *)

Section Generator.
Import Pandas Generate.
Variable L : Lib.

Lemma clock_free_ret {A} (a : A) : clock_free (@ret L A a).
Proof. intros w w' H. now split. Qed.

Lemma clock_free_bind {A B} (m : action L A) (k : A -> action L B) :
  clock_free m -> (forall a, clock_free (k a)) -> clock_free (bind m k).
Proof.
  intros Hm Hk w w' H. unfold bind.
  destruct (Hm w w' H) as [Hfst Hsnd].
  destruct (m w) as [a w1], (m w') as [a' w1']. cbn [fst snd] in *.
  subst a'. now apply Hk.
Qed.

Lemma clock_free_draw {A} (f : rng L -> A * rng L) : clock_free (draw f).
Proof.
  intros w w' [Hr Hf]. unfold draw. rewrite Hr.
  destruct (f (random_state w')) as [a s]. now repeat split.
Qed.

Lemma clock_free_ask_fake {A} (f : faker L -> A * faker L) :
  clock_free (ask_fake f).
Proof.
  intros w w' [Hr Hf]. unfold ask_fake. rewrite Hf.
  destruct (f (fake w')) as [a s]. now repeat split.
Qed.

#[local] Hint Resolve clock_free_ret clock_free_draw clock_free_ask_fake : clock.

Ltac clock_free :=
  repeat first [ apply clock_free_bind; [|intros ?]
               | solve [auto with clock] ].

Lemma clock_free_transaction today_obj i :
  clock_free (@transaction L today_obj i).
Proof.
  unfold transaction, generate_timestamp, choose_user_id, generate_amount,
    generate_currency, generate_payment_method, generate_country,
    generate_device, generate_is_chargeback, uniform, choice.
  clock_free.
Qed.

Lemma clock_free_transactions today_obj count :
  forall first, clock_free (@transactions L today_obj first count).
Proof.
  induction count as [|count IH]; intros first; cbn [transactions].
  - apply clock_free_ret.
  - apply clock_free_bind; [apply clock_free_transaction|]. intros t.
    apply clock_free_bind; [apply IH|]. intros ts. apply clock_free_ret.
Qed.

(** The loop for a settled day, started with the generators just
    seeded: its rows do not depend on the world the run began in. *)
Lemma seeded_transactions (w1 w2 : world L) seed_value today_obj count :
  fst (transactions today_obj 1 count
         {| random_state := seed L seed_value;
            fake := seed_instance L seed_value; today := today w1 |})
  = fst (transactions today_obj 1 count
           {| random_state := seed L seed_value;
              fake := seed_instance L seed_value; today := today w2 |}).
Proof. apply clock_free_transactions. now split. Qed.

(** Claim C9, as amended.  Two runs of the script with the same
    count, seed and date produce the same batch, whatever state the
    generators were in and whatever the clock showed when each run
    began, as long as a date is given: the text is not empty.  With
    an empty text line 101 takes the day of the clock, and then the
    runs agree when they begin on the same day. *)
Theorem generate_deterministic (w1 w2 : world L) count seed_value date :
  date <> "" \/ today w1 = today w2 ->
  generate w1 count seed_value date = generate w2 count seed_value date.
Proof.
  intros Hdate.
  assert (Hday : match date with
                 | EmptyString => Some (today w1)
                 | String _ _ => fromisoformat L date
                 end
                 = match date with
                   | EmptyString => Some (today w2)
                   | String _ _ => fromisoformat L date
                   end).
  { destruct date as [|c date']; [|reflexivity].
    destruct Hdate as [Hne | ->]; [now contradiction Hne | reflexivity]. }
  unfold generate, script, bind, seeding, main. cbn [today].
  destruct (count <=? 0); [reflexivity|].
  rewrite Hday.
  destruct (match date with
            | EmptyString => Some (today w2)
            | String _ _ => fromisoformat L date
            end) as [today_obj|]; [|reflexivity].
  pose proof (seeded_transactions w1 w2 seed_value today_obj
                (Z.to_nat count)) as Hrows.
  destruct (transactions today_obj 1 (Z.to_nat count) _) as [rows1 w1'].
  destruct (transactions today_obj 1 (Z.to_nat count) _) as [rows2 w2'].
  cbn [fst] in *. now subst.
Qed.

(** The first cell of a generated row is the id of its index. *)
Lemma transaction_id_cell today_obj i w :
  nth 0 (fst (@transaction L today_obj i w)) NaN
  = VStr (generate_transaction_id i "txn" 6).
Proof.
  unfold transaction, generate_timestamp, choose_user_id, generate_amount,
    generate_currency, generate_payment_method, generate_country,
    generate_device, generate_is_chargeback, uniform, choice,
    bind, ret, draw, ask_fake.
  repeat match goal with
         | |- context [let (_, _) := ?x in _] => destruct x
         end.
  reflexivity.
Qed.

Lemma transactions_ids today_obj count :
  forall first w,
  map (fun cells => nth 0 cells NaN)
      (fst (@transactions L today_obj first count w))
  = map (fun k => VStr (generate_transaction_id (first + Z.of_nat k) "txn" 6))
        (seq 0 count).
Proof.
  induction count as [|count IH]; intros first w; [reflexivity|].
  cbn [transactions]. unfold bind at 1.
  pose proof (transaction_id_cell today_obj first w) as Hid.
  destruct (transaction today_obj first w) as [t w1]. cbn [fst] in Hid.
  unfold bind at 1. specialize (IH (first + 1) w1).
  destruct (transactions today_obj (first + 1) count w1) as [ts w2].
  cbn [fst ret map seq] in *. rewrite Hid, Z.add_0_r. f_equal.
  rewrite IH, <- seq_shift, map_map. apply map_ext. intros k.
  do 2 f_equal. lia.
Qed.

End Generator.

Section TransactionIdClaim.
Import Pandas Generate.

(** Claim C10, as amended.  [generate_transaction_id(i)] passes the
    check of the schema on transaction_id, the pattern ^txn_\d{6}$,
    if and only if [0 <= i <= 999999].  The id of the k-th row of a
    generated batch is that of index [first + k], so that a batch of
    a million rows or more (the loop starts at 1) holds ids that fail
    the check. *)
Theorem transaction_id_pattern :
  (forall i,
     Pandera.check_value (Pandera.str_matches "^txn_\d{6}$")
       (VStr (generate_transaction_id i "txn" 6)) = true
     <-> 0 <= i <= 999999)
  /\ In ("transaction_id",
         {| Pandera.dtype := Pandera.String_;
            Pandera.checks := [Pandera.str_matches "^txn_\d{6}$"];
            Pandera.unique := true; Pandera.column_coerce := false |})
        (Pandera.columns Transform.schema)
  /\ (forall (L : Lib) today_obj count first (w : world L),
        map (fun cells => nth 0 cells NaN)
            (fst (transactions today_obj first count w))
        = map (fun k => VStr (generate_transaction_id
                                (first + Z.of_nat k) "txn" 6))
              (seq 0 count)).
Proof.
  split; [|split].
  - intros i. cbn [Pandera.check_value]. apply transaction_id_matches.
  - in_list.
  - intros. apply transactions_ids.
Qed.

(** Claim C10 as stated fails at [i = 0]: the id is txn_000000, which
    the pattern matches. *)
Lemma transaction_id_zero :
  ~ (Pandera.check_value (Pandera.str_matches "^txn_\d{6}$")
       (VStr (generate_transaction_id 0 "txn" 6)) = true
     <-> 1 <= 0 <= 999999).
Proof.
  intros [H _]. assert (1 <= 0 <= 999999) by (apply H; reflexivity). lia.
Qed.

End TransactionIdClaim.

(* ================================================================== *)
(** * When the run returns *)

Section Returns.
Import Pandas Pandera Transform.
Variable E : Engine.

Lemma row_failures_placed df name check fails values fc :
  In fc (row_failures name check fails (combine (index df) values)) ->
  placed df fc.
Proof.
  unfold row_failures. intros H.
  apply in_map_iff in H as ([l v] & <- & H).
  apply filter_In in H as [H _]. apply in_combine_l in H.
  right. now exists l.
Qed.

Lemma run_checks_placed df name cs values :
  forall n fc,
  In fc (run_checks name n cs (combine (index df) values)) ->
  placed df fc.
Proof.
  induction cs as [|c cs IH]; intros n fc H; [destruct H|].
  cbn [run_checks] in H. apply in_app_or in H as [H|H].
  - now apply row_failures_placed in H.
  - now apply IH in H.
Qed.

Lemma check_column_placed df c fc :
  In fc (check_column c df) -> placed df fc.
Proof.
  unfold check_column.
  destruct (position (fst c) (df_columns df)) as [k|]; [|intros []].
  intros H. apply in_app_or in H as [H|H];
    [now apply row_failures_placed in H|].
  apply in_app_or in H as [H|H].
  - destruct (unique (snd c)); [|destruct H].
    now apply row_failures_placed in H.
  - destruct (forallb _ _).
    + now apply run_checks_placed in H.
    + destruct H as [<-|[]]. now left.
Qed.

Lemma coerce_failures_placed df name t values fc :
  In fc (coerce_failures E name t (combine (index df) values)) ->
  placed df fc.
Proof.
  unfold coerce_failures. intros H.
  destruct t; try destruct H;
    apply in_flat_map in H as ([l v] & Hin & H); cbn [fst snd] in H;
    apply in_combine_l in Hin;
    (destruct (coerce_cell E _ v); [destruct H|]);
    destruct H as [<-|[]]; right; now exists l.
Qed.

Lemma fold_coerce_placed df cs :
  forall acc, index (fst acc) = index df ->
  (forall fc, In fc (snd acc) -> placed df fc) ->
  forall fc, In fc (snd (fold_left (coerce_one E true) cs acc)) ->
  placed df fc.
Proof.
  induction cs as [|c cs IH]; intros acc Hidx Hacc fc H; [auto|].
  cbn [fold_left] in H. apply IH in H; auto.
  - destruct (coerce_one_shape E true acc c) as [_ ->]. exact Hidx.
  - clear H fc. intros fc H. destruct acc as [df' errors].
    cbn [fst snd] in *. unfold coerce_one in H. cbn [orb] in H.
    destruct (position (fst c) (df_columns df')) as [k|]; [|auto].
    destruct (coerce_column E (dtype (snd c)) (column df' k));
      cbn [snd] in H; [auto|].
    apply in_app_or in H as [H|H]; [auto|].
    rewrite Hidx in H. now apply coerce_failures_placed in H.
Qed.

Lemma failure_cases_placed df fc :
  In fc (failure_cases E df) -> placed df fc.
Proof.
  unfold failure_cases. intros H.
  apply in_app_or in H as [H|H].
  { unfold strict_filter_columns in H. destruct (strict schema);
      [|destruct H].
    destruct (filter _ (df_columns df)); [destruct H|].
    destruct H as [<-|[]]. now left. }
  apply in_app_or in H as [H|H].
  { apply (fold_coerce_placed df (Pandera.columns schema) (df, []));
      auto. intros ? []. }
  apply in_app_or in H as [H|H].
  { unfold check_column_presence in H.
    apply in_flat_map in H as (c & _ & H).
    destruct (position (fst c) (df_columns df)); [destruct H|].
    destruct H as [<-|[]]. now left. }
  unfold run_schema_component_checks in H.
  apply in_flat_map in H as (c & _ & H).
  apply check_column_placed in H.
  destruct (coerce_dtype_shape E schema df) as [_ Hidx].
  unfold placed in *. now rewrite Hidx in H.
Qed.

(** The run returns exactly when every failure case names a row. *)
Lemma main_returns_iff df :
  (exists out, main E (Some df) = Py.Ok out)
  <-> forall fc, In fc (failure_cases E df) -> fc_index fc <> None.
Proof.
  split.
  - intros [out Hout] fc Hfc HNone.
    destruct (scalar_failure_aborts E df fc Hfc HNone) as [e He].
    congruence.
  - intros Hrows.
    assert (exists good bad printed,
              separate E df = Py.Ok (good, bad, printed))
      as (good & bad & printed & Hsep).
    { unfold separate. rewrite validate_failure_cases.
      destruct (failure_cases E df) as [|fc fcs] eqn:Hfcs;
        [now repeat eexists|].
      rewrite <- Hfcs in *. clear Hfcs fc fcs.
      assert (forall x, In x (map fc_index (failure_cases E df)) ->
                exists l, x = Some l /\ In l (index df)) as Hall.
      { intros x Hx. apply in_map_iff in Hx as (fc & <- & Hfc).
        destruct (failure_cases_placed df fc Hfc) as [HNone | H];
          [now apply Hrows in HNone | exact H]. }
      destruct (sorted_set_total (map fc_index (failure_cases E df)))
        as [s Hs].
      { intros x Hx. destruct (Hall x Hx) as (l & -> & _). now exists l. }
      rewrite Hs. cbn [Py.bind].
      destruct (sorted_spec _ _ Hs) as [Hin _].
      destruct (mapM_total (rows_at df) s) as [rss Hrss].
      { intros x Hx. apply Hin, set_of_In, Hall in Hx as (l & -> & Hl).
        now apply rows_at_total. }
      unfold loc, drop. rewrite Hrss. cbn [Py.bind]. now repeat eexists. }
    destruct (main_returns E df good bad printed Hsep) as (out & Hout & _).
    now exists out.
Qed.

End Returns.

(* ================================================================== *)
(** * Worked runs *)

Section Worked.
Import Pandas Pandera Transform Examples.

(** The mixed batch: four of its five rows are quarantined, each
    once, the broken one too. *)
Example run_mixed :
  main Reference.engine (Some (frame Generate.cols mixed_data))
  = Py.Ok mixed_out.
Proof. vm_compute. reflexivity. Qed.

(** Claim C1 as stated fails on a batch of one record that pays in
    crypto and is fine otherwise: [validate] accepts the batch, the
    record is curated and nothing is quarantined. *)
Lemma crypto_is_curated :
  validate Reference.engine schema crypto_batch
  = Validated {| df_columns := Generate.cols;
                 df_rows := [(0%nat, validated_row "txn_000001" "crypto")] |}
  /\ exists out,
       main Reference.engine (Some crypto_batch) = Py.Ok out
       /\ df_rows (df_good out)
          = [(0%nat, validated_row "txn_000001" "crypto")]
       /\ df_rows (df_bad out) = []
       /\ quarantine_file out = None.
Proof.
  split; [vm_compute; reflexivity|].
  eexists. split; [vm_compute; reflexivity|]. now repeat split.
Qed.

(** On the mixed batch: row 1 pays in cash. *)
Lemma payment_method_membership_witness :
  position "payment_method" Generate.cols = Some 5%nat
  /\ nth_error mixed_data 1 = Some (Examples.row "txn_000002" "cash")
  /\ main Reference.engine (Some (frame Generate.cols mixed_data))
     = Py.Ok mixed_out
  /\ In (1%nat, Examples.row "txn_000002" "cash") (df_rows (df_bad mixed_out))
  /\ ~ In 1%nat (index (df_good mixed_out)).
Proof.
  split; [reflexivity|]. split; [reflexivity|].
  split; [vm_compute; reflexivity|].
  apply (proj2 (proj2 (payment_method_membership Reference.engine))
           Generate.cols mixed_data 5%nat 1%nat
           (Examples.row "txn_000002" "cash") "cash").
  - reflexivity.
  - reflexivity.
  - reflexivity.
  - cbn. intuition discriminate.
  - vm_compute. reflexivity.
Defined.

(** On the mixed batch, whose rows 0 and 3 share an id and whose run
    returns; and on the two records that share an id, next to a
    third with the amount abc, whose run does not return. *)
Lemma uniqueness_propagation_witness :
  (nth_error mixed_data 0 = Some (Examples.row "txn_000001" "paypal")
   /\ nth_error mixed_data 3 = Some (Examples.row "txn_000001" "credit_card")
   /\ In (0%nat, Examples.row "txn_000001" "paypal")
         (df_rows (df_bad mixed_out))
   /\ ~ In 0%nat (index (df_good mixed_out)))
  /\ nth_error duplicate_unreadable_data 0
     = Some (Examples.row "txn_000001" "paypal")
  /\ nth_error duplicate_unreadable_data 1
     = Some (Examples.row "txn_000001" "credit_card")
  /\ exists fcs,
       validate Reference.engine schema
         (frame Generate.cols duplicate_unreadable_data)
       = SchemaErrors fcs
       /\ In (Some 0%nat) (map fc_index fcs)
       /\ (In None (map fc_index fcs) ->
           exists e, main Reference.engine
                       (Some (frame Generate.cols duplicate_unreadable_data))
                     = Py.Raise e).
Proof.
  split.
  { split; [reflexivity|]. split; [reflexivity|].
    apply (proj2 (uniqueness_propagation Reference.engine
                    Generate.cols mixed_data 0%nat 0%nat 3%nat
                    (Examples.row "txn_000001" "paypal")
                    (Examples.row "txn_000001" "credit_card")
                    eq_refl eq_refl eq_refl
                    ltac:(discriminate) eq_refl)).
    vm_compute. reflexivity. }
  split; [reflexivity|]. split; [reflexivity|].
  apply (proj1 (uniqueness_propagation Reference.engine
                  Generate.cols duplicate_unreadable_data 0%nat 0%nat 1%nat
                  (Examples.row "txn_000001" "paypal")
                  (Examples.row "txn_000001" "credit_card")
                  eq_refl eq_refl eq_refl
                  ltac:(discriminate) eq_refl)).
Defined.

(** The two records that share an id, next to a third with the
    amount abc: rows 0 and 1 are reported as duplicates, a failure
    case names no row, and [sorted] is handed [None] with the labels.
    Neither of the two records is quarantined. *)
Example run_duplicate_unreadable :
  (exists fcs,
     validate Reference.engine schema
       (frame Generate.cols duplicate_unreadable_data)
     = SchemaErrors fcs
     /\ In (Some 0%nat) (map fc_index fcs)
     /\ In (Some 1%nat) (map fc_index fcs)
     /\ In None (map fc_index fcs))
  /\ main Reference.engine
       (Some (frame Generate.cols duplicate_unreadable_data))
     = Py.Raise Py.TypeError.
Proof.
  split; [|vm_compute; reflexivity].
  eexists. split; [vm_compute; reflexivity|].
  cbn [map fc_index]. repeat split; in_list.
Qed.


(** Claim C4 as stated fails on a batch whose rows are not labelled
    by position.  The two records of [labelled_batch] carry the
    labels 2 and 1, in this order; both are quarantined, and the
    quarantine frame has them in the order of [sorted(set(...))], 1
    before 2: the second record comes first. *)
Lemma quarantine_in_label_order :
  exists out,
    main Reference.engine (Some labelled_batch) = Py.Ok out
    /\ df_rows labelled_batch
       = [ (2%nat, Examples.row "txn_000001" "cash");
           (1%nat, Examples.row "txn_000002" "cash") ]
    /\ df_rows (df_bad out)
       = [ (1%nat, Examples.row "txn_000002" "cash");
           (2%nat, Examples.row "txn_000001" "cash") ]
    /\ ~ subseq (df_rows (df_bad out)) (df_rows labelled_batch).
Proof.
  eexists. split; [vm_compute; reflexivity|].
  split; [reflexivity|]. split; [reflexivity|].
  cbn [df_bad df_rows labelled_batch]. intros H.
  repeat match goal with
         | H : subseq _ _ |- _ => inversion H; clear H; subst
         end.
Qed.


(** On the mixed batch. *)
Lemma order_preservation_witness :
  main Reference.engine (Some (frame Generate.cols mixed_data))
  = Py.Ok mixed_out
  /\ subseq (index (df_good mixed_out))
            (index (frame Generate.cols mixed_data))
  /\ subseq (index (df_bad mixed_out))
            (index (frame Generate.cols mixed_data))
  /\ subseq (df_rows (df_bad mixed_out))
            (df_rows (frame Generate.cols mixed_data)).
Proof.
  split; [vm_compute; reflexivity|].
  assert (main Reference.engine (Some (frame Generate.cols mixed_data))
          = Py.Ok mixed_out) as H by (vm_compute; reflexivity).
  destruct (order_preservation Reference.engine _ _ H)
    as (Hgood & _ & Hbad).
  split; [exact Hgood|]. apply Hbad, ascending_frame.
Defined.

(** On the mixed batch. *)
Lemma idempotence_witness :
  main Reference.engine (Some (frame Generate.cols mixed_data))
  = Py.Ok mixed_out
  /\ main Reference.engine
       (Some (concat_sort_index (df_good mixed_out) (df_bad mixed_out)))
     = Py.Ok mixed_out.
Proof.
  split; [vm_compute; reflexivity|].
  apply (idempotence Reference.engine Generate.cols mixed_data).
  vm_compute. reflexivity.
Defined.

(** On a batch with a tenth column. *)
Lemma strict_violation_aborts_witness :
  off_schema extra_column_columns "note"
  /\ exists e,
       main Reference.engine
         (Some (frame extra_column_columns extra_column_data))
       = Py.Raise e.
Proof.
  assert (off_schema extra_column_columns "note") as H.
  { left. split; [in_list | cbn; intuition discriminate]. }
  split; [exact H|].
  apply (strict_violation_aborts Reference.engine
           extra_column_columns extra_column_data "note" H).
Defined.

(** Claim C8 as stated fails on the empty batch: its report has no
    percentage field, neither for the valid nor for the invalid
    records, where the claim has two fields with a sentinel in
    them. *)
Lemma empty_batch_no_percentage :
  exists out,
    main Reference.engine (Some (frame Generate.cols [])) = Py.Ok out
    /\ In (Total_records_processed 0) (stdout out)
    /\ forall n ratio,
         ~ In (Valid_records n ratio) (stdout out)
         /\ ~ In (Invalid_records n ratio) (stdout out).
Proof.
  eexists. split; [vm_compute; reflexivity|].
  split; [now left|].
  intros n ratio. cbn. split; intuition discriminate.
Qed.

(** A batch in which every record fails a check, each failure naming
    its row: the run returns, nothing is curated. *)
Example run_all_invalid :
  exists out,
    main Reference.engine (Some (frame Generate.cols all_invalid_data))
    = Py.Ok out
    /\ df_rows (df_good out) = []
    /\ df_rows (df_bad out)
       = [ (0%nat, Examples.row "txn_000001" "cash");
           (1%nat, broken_row) ].
Proof. eexists. split; [vm_compute; reflexivity|]. now split. Qed.

(** The batch with a tenth column: [.loc] is handed [None]. *)
Example run_extra_column :
  main Reference.engine (Some (frame extra_column_columns extra_column_data))
  = Py.Raise Py.KeyError.
Proof. vm_compute. reflexivity. Qed.

(** On a batch whose one record has the amount abc. *)
Lemma unreadable_amount_aborts_witness :
  float_of_str Reference.engine "abc" = None
  /\ exists e,
       main Reference.engine
         (Some (frame Generate.cols unreadable_amount_data))
       = Py.Raise e.
Proof.
  split; [reflexivity|].
  apply (unreadable_amount_aborts Reference.engine Generate.cols
           unreadable_amount_data 3%nat 0%nat unreadable_amount_row "abc");
    reflexivity.
Defined.

(** The batch with the amount abc: [sorted] is handed [None] and 0. *)
Example run_unreadable_amount :
  main Reference.engine (Some (frame Generate.cols unreadable_amount_data))
  = Py.Raise Py.TypeError.
Proof. vm_compute. reflexivity. Qed.

(** Three records for the seed of the script and the date
    2024-05-01, in a run begun on that day and in a run begun the
    day after. *)
Lemma generate_deterministic_witness :
  (run_date <> "" \/ Generate.today fresh_world
                     = Generate.today next_day_world)
  /\ Generate.generate fresh_world 3 Generate.SEED run_date
     = Generate.generate next_day_world 3 Generate.SEED run_date.
Proof.
  assert (run_date <> "" \/ Generate.today fresh_world
                            = Generate.today next_day_world) as H
    by (left; discriminate).
  split; [exact H|].
  exact (generate_deterministic Reference.lib fresh_world next_day_world
           3 Generate.SEED run_date H).
Defined.

(** Claim C9 as stated fails when the date is the empty text: two
    runs with the same count, the same seed and this same date,
    begun on 2024-05-01 and on the day after, take the day of the
    clock (line 101) and differ in the timestamp of their record. *)
Lemma generate_empty_date_follows_clock :
  Generate.generate fresh_world 1 Generate.SEED ""
  <> Generate.generate next_day_world 1 Generate.SEED ""
  /\ (exists df, Generate.generate fresh_world 1 Generate.SEED ""
                 = Py.Ok df
                 /\ column df 2 = [VStr "2023-06-12T23:59:59"])
  /\ (exists df, Generate.generate next_day_world 1 Generate.SEED ""
                 = Py.Ok df
                 /\ column df 2 = [VStr "2023-06-13T23:59:59"]).
Proof.
  split; [vm_compute; discriminate|].
  split; eexists; (split; [vm_compute; reflexivity | reflexivity]).
Qed.

End Worked.

(* ================================================================== *)
(** * What a run that returns has checked *)

Section Conformance.
Import Pandas Pandera Transform.
Variable E : Engine.

(** A column that does not convert is not of the declared dtype. *)
Lemma coerce_column_None t values :
  coerce_column E t values = None -> forallb (has_dtype t) values = false.
Proof.
  intros H. apply not_true_iff_false. intros Hall.
  rewrite (coerce_column_id E t values Hall) in H. discriminate.
Qed.

Lemma run_checks_In name cs labelled ch l v :
  In ch cs -> In (l, v) labelled ->
  isna v = false -> check_value ch v = false ->
  forall n, exists fc,
    In fc (run_checks name n cs labelled) /\ fc_index fc = Some l.
Proof.
  intros Hch Hin Hna Hv.
  induction cs as [|c cs IH]; [destruct Hch|]. intros n.
  cbn [run_checks]. destruct Hch as [-> | Hch].
  - eexists. split;
      [apply in_or_app; left; apply row_failures_In;
         [exact Hin | now rewrite Hna, Hv]
      | reflexivity].
  - destruct (IH Hch (S n)) as (fc & Hfc & Hl).
    exists fc. split; [|assumption]. apply in_or_app. now right.
Qed.

(** The failure cases of a run that returns name rows, and none of
    them names a curated row. *)
Lemma returns_named columns data out :
  main E (Some (frame columns data)) = Py.Ok out ->
  (forall fc, In fc (failure_cases E (frame columns data)) ->
     fc_index fc <> None)
  /\ forall l, In l (index (df_good out)) ->
       (l < List.length data)%nat
       /\ forall fc, In fc (failure_cases E (frame columns data)) ->
            fc_index fc <> Some l.
Proof.
  intros Hmain. split.
  - apply main_returns_iff. now exists out.
  - intros l Hl.
    destruct (main_cases E _ _ _ Hmain)
      as [(Hv & Hg & _) | (fs & Hv & Hg & _)].
    + apply validate_Validated in Hv as [Hnil _]. split.
      * rewrite Hg in Hl.
        destruct (coerce_dtype_shape E schema (frame columns data))
          as [_ Hidx].
        rewrite Hidx, index_frame in Hl. apply in_seq in Hl. lia.
      * rewrite Hnil. intros fc [].
    + rewrite validate_failure_cases in Hv.
      destruct (failure_cases E (frame columns data)) as [|fc0 fcs] eqn:Hfcs;
        [discriminate|].
      injection Hv as <-.
      unfold index in Hl. rewrite Hg in Hl. cbn [df_rows] in Hl.
      apply in_map_iff in Hl as (r & <- & Hr).
      apply filter_In in Hr as [Hr Hnamed]. split.
      * apply (in_map fst) in Hr. fold (index (frame columns data)) in Hr.
        rewrite index_frame in Hr. apply in_seq in Hr. lia.
      * intros fc Hfc Hi. apply negb_true_iff in Hnamed.
        unfold named in Hnamed.
        apply not_true_iff_false in Hnamed. apply Hnamed, mem_In.
        rewrite <- Hi. now apply in_map.
Qed.

Lemma In_combine_seq_nth (values : list value) l :
  (l < List.length values)%nat ->
  In (l, nth l values NaN) (combine (seq 0 (List.length values)) values).
Proof.
  intros Hl.
  destruct (nth_error values l) as [v|] eqn:Hv.
  - pose proof (In_combine_seq (fun v : value => v) values l v Hv 0%nat) as H.
    rewrite map_id in H. cbn [Nat.add] in H.
    now rewrite (nth_error_nth _ _ NaN Hv).
  - apply nth_error_None in Hv. lia.
Qed.

(** What a run that returns has found of a column of the schema:
    the column is in the batch, it converts, the converted cells have
    the dtype, and whatever the checks of the column report of a row
    is among the failure cases of the run. *)
Lemma returns_column columns data out name c :
  main E (Some (frame columns data)) = Py.Ok out ->
  In (name, c) (Pandera.columns schema) ->
  exists k values,
    position name columns = Some k
    /\ coerce_column E (dtype c) (column (frame columns data) k)
       = Some values
    /\ List.length values = List.length data
    /\ forallb (has_dtype (dtype c)) values = true
    /\ forall fc,
         In fc (row_failures name not_nullable isna
                  (combine (seq 0 (List.length data)) values)
                ++ (if unique c
                    then row_failures name field_uniqueness
                           (fun v => negb (isna v) && duplicated values v)
                           (combine (seq 0 (List.length data)) values)
                    else [])
                ++ run_checks name 0 (checks c)
                     (combine (seq 0 (List.length data)) values)) ->
         In fc (failure_cases E (frame columns data)).
Proof.
  intros Hmain Hc.
  destruct (returns_named _ _ _ Hmain) as [Hrows _].
  (* the column is there *)
  destruct (position name columns) as [k|] eqn:Hk.
  2:{ exfalso.
      apply (Hrows (scalar_failure_case None column_in_dataframe name));
        [|reflexivity].
      unfold failure_cases.
      apply in_or_app. right. apply in_or_app. right.
      apply in_or_app. left.
      unfold check_column_presence. apply in_flat_map.
      exists (name, c). split; [assumption|].
      cbn [frame df_columns fst]. rewrite Hk. now left. }
  destruct (labelled_coerced E columns data (name, c) k Hc Hk)
    as (Hpos & Hcol & Hidx).
  cbn [fst snd] in *.
  (* what the checks of the column report is reported by the run *)
  assert (forall fc,
            In fc (check_column (name, c)
                     (fst (coerce_dtype E schema (frame columns data)))) ->
            In fc (failure_cases E (frame columns data))) as Hreport.
  { intros fc. now apply check_column_failure. }
  unfold check_column in Hreport. cbn [fst snd] in Hreport.
  rewrite Hpos, Hcol, Hidx in Hreport.
  unfold coerced_column in Hreport. cbn [snd] in Hreport.
  (* the column converts *)
  destruct (coerce_column E (dtype c) (column (frame columns data) k))
    as [values|] eqn:Hco.
  2:{ exfalso. rewrite (coerce_column_None _ _ Hco) in Hreport.
      apply (Hrows (scalar_failure_case (Some name) (dtype_id (dtype c))
                      (dtype_name (dtype c)))); [|reflexivity].
      apply Hreport. apply in_or_app. right. apply in_or_app. right.
      now left. }
  exists k, values. split; [reflexivity|]. split; [exact Hco|].
  split.
  { rewrite (coerce_column_length E _ _ _ Hco), length_column.
    cbn [frame df_rows]. unfold row.
    rewrite length_combine, length_seq. lia. }
  (* the column has the dtype *)
  destruct (forallb (has_dtype (dtype c)) values) eqn:Hdt.
  2:{ exfalso.
      apply (Hrows (scalar_failure_case (Some name) (dtype_id (dtype c))
                      (dtype_name (dtype c)))); [|reflexivity].
      apply Hreport. apply in_or_app. right. apply in_or_app. right.
      now left. }
  split; [reflexivity|]. exact Hreport.
Qed.

(** Property X1.  Every record of the curated frame satisfies the schema, on
    a batch labelled by position whose schema columns all convert to
    their dtypes: in a run that returns, each column of the schema is
    in the batch, and the converted cell of every curated record is
    not missing, has the dtype, passes every check of the column
    and, in a column declared unique, occurs once.  (What a run
    makes of a column that does not convert is left out.  [l] is the
    label of the record, which is its position.) *)
Theorem curated_rows_conform columns data out :
  converts E (frame columns data) ->
  main E (Some (frame columns data)) = Py.Ok out ->
  forall name c, In (name, c) (Pandera.columns schema) ->
  exists k values,
    position name columns = Some k
    /\ coerce_column E (dtype c) (column (frame columns data) k)
       = Some values
    /\ forall l, In l (index (df_good out)) ->
         isna (nth l values NaN) = false
         /\ has_dtype (dtype c) (nth l values NaN) = true
         /\ (forall ch, In ch (checks c) ->
               check_value ch (nth l values NaN) = true)
         /\ (unique c = true -> duplicated values (nth l values NaN) = false).
Proof.
  intros Hconv Hmain name c Hc.
  destruct (returns_named _ _ _ Hmain) as [_ Hgood].
  destruct (returns_column _ _ _ _ _ Hmain Hc)
    as (k & values & Hk & Hco & Hlen & Hdt & Hreport).
  exists k, values. split; [assumption|]. split; [assumption|].
  intros l Hl. destruct (Hgood l Hl) as [Hlt Hno].
  assert (In (l, nth l values NaN)
             (combine (seq 0 (List.length data)) values)) as Hin.
  { rewrite <- Hlen. apply In_combine_seq_nth. lia. }
  assert (isna (nth l values NaN) = false) as Hna.
  { apply not_true_iff_false. intros Hna.
    apply (Hno {| fc_column := Some name; fc_check := not_nullable;
                  fc_failure_case := nth l values NaN;
                  fc_index := Some l |}); [|reflexivity].
    apply Hreport. apply in_or_app. left.
    now apply row_failures_In. }
  repeat split.
  - exact Hna.
  - rewrite forallb_forall in Hdt. apply Hdt, nth_In. lia.
  - intros ch Hch. apply not_false_iff_true. intros Hv.
    destruct (run_checks_In name (checks c) _ ch l _ Hch Hin Hna Hv 0%nat)
      as (fc & Hfc & Hi).
    apply (Hno fc); [|assumption].
    apply Hreport. apply in_or_app. right. apply in_or_app. now right.
  - intros Hu. apply not_true_iff_false. intros Hdup.
    apply (Hno {| fc_column := Some name; fc_check := field_uniqueness;
                  fc_failure_case := nth l values NaN;
                  fc_index := Some l |}); [|reflexivity].
    apply Hreport. apply in_or_app. right. apply in_or_app. left.
    rewrite Hu. apply row_failures_In; [assumption|].
    now rewrite Hna, Hdup.
Qed.

End Conformance.

Section Converse.
Import Pandas Pandera Transform.
Variable E : Engine.

(** An error of the coercion comes from a column that does not
    convert. *)
Lemma fold_coerce_errors cs :
  forall acc fc, NoDup (map fst cs) ->
  In fc (snd (fold_left (coerce_one E true) cs acc)) ->
  In fc (snd acc)
  \/ exists c k,
       In c cs
       /\ position (fst c) (df_columns (fst acc)) = Some k
       /\ coerce_column E (dtype (snd c)) (column (fst acc) k) = None.
Proof.
  induction cs as [|c0 cs IH]; intros acc fc Hnd Hfc; [now left|].
  cbn [map] in Hnd. inversion Hnd as [|? ? Hc0 Hnd']; subst.
  cbn [fold_left] in Hfc.
  destruct (IH _ _ Hnd' Hfc) as [Hin | (c & k & Hc & Hk & Hco)].
  - destruct acc as [df errors]. unfold coerce_one in Hin.
    cbn [orb fst snd] in *.
    destruct (position (fst c0) (df_columns df)) as [k|] eqn:Hk;
      [|now left].
    destruct (coerce_column E (dtype (snd c0)) (column df k)) eqn:Hco;
      cbn [snd] in Hin; [now left|].
    apply in_app_or in Hin as [Hin | Hin]; [now left|].
    right. exists c0, k. repeat split; auto. now left.
  - destruct (coerce_one_shape E true acc c0) as [Hcols _].
    rewrite Hcols in Hk. right. exists c, k.
    split; [now right|]. split; [assumption|].
    rewrite <- Hco. f_equal. symmetry.
    apply coerce_one_column_other. intros Hk0. apply Hc0.
    rewrite (position_inj _ _ _ _ Hk0 Hk). now apply in_map.
Qed.

Lemma row_failures_inv name check fails labelled fc :
  In fc (row_failures name check fails labelled) ->
  exists l v, In (l, v) labelled /\ fails v = true
              /\ fc_index fc = Some l.
Proof.
  unfold row_failures. intros H.
  apply in_map_iff in H as ([l v] & <- & H).
  apply filter_In in H as [Hin Hf]. now exists l, v.
Qed.

Lemma run_checks_inv name cs labelled fc :
  forall n, In fc (run_checks name n cs labelled) ->
  exists ch l v, In ch cs /\ In (l, v) labelled
                 /\ isna v = false /\ check_value ch v = false
                 /\ fc_index fc = Some l.
Proof.
  induction cs as [|c cs IH]; intros n H; [destruct H|].
  cbn [run_checks] in H. apply in_app_or in H as [H | H].
  - apply row_failures_inv in H as (l & v & Hin & Hf & Hi).
    apply andb_true_iff in Hf as [Hna Hv].
    apply negb_true_iff in Hna, Hv.
    exists c, l, v. repeat split; auto. now left.
  - destruct (IH _ H) as (ch & l & v & Hch & Hrest).
    exists ch, l, v. split; [now right | assumption].
Qed.

Lemma In_combine_seq_inv {A} (values : list A) d :
  forall s l v, In (l, v) (combine (seq s (List.length values)) values) ->
  v = nth (l - s) values d /\ (s <= l)%nat.
Proof.
  induction values as [|a values IH]; intros s l v H; [destruct H|].
  cbn [List.length seq combine] in H. destruct H as [H | H].
  - injection H as <- <-. rewrite Nat.sub_diag. split; [reflexivity | lia].
  - apply IH in H as [-> Hle]. split; [|lia].
    replace (l - s)%nat with (S (l - S s)) by lia. reflexivity.
Qed.

(** Property X2.  A record that satisfies the schema is curated, on a
    batch labelled by position whose schema columns all convert to
    their dtypes.  In a run that returns, a record of the batch
    whose converted cell is, in every column of the schema, not
    missing, accepted by every check of the column and, in a column
    declared unique, without a double, is in the curated frame.
    (What a run makes of a column that does not convert, and of rows
    that share a label, is left out.  [l] is the position of the
    record in the batch, which is its label.) *)
Theorem conforming_rows_curated columns data out l :
  converts E (frame columns data) ->
  main E (Some (frame columns data)) = Py.Ok out ->
  (l < List.length data)%nat ->
  (forall name c k values,
     In (name, c) (Pandera.columns schema) ->
     position name columns = Some k ->
     coerce_column E (dtype c) (column (frame columns data) k)
     = Some values ->
     isna (nth l values NaN) = false
     /\ (forall ch, In ch (checks c) ->
           check_value ch (nth l values NaN) = true)
     /\ (unique c = true ->
           duplicated values (nth l values NaN) = false)) ->
  In l (index (df_good out)).
Proof.
  intros Hconv Hmain Hl Hrow.
  assert (forall fc, In fc (failure_cases E (frame columns data)) ->
            fc_index fc <> Some l) as Hno.
  { intros fc Hfc Hi. unfold failure_cases in Hfc.
    apply in_app_or in Hfc as [Hfc | Hfc].
    { (* an unknown column *)
      unfold strict_filter_columns in Hfc.
      destruct (strict schema); [|destruct Hfc].
      destruct (filter _ _); [destruct Hfc|].
      destruct Hfc as [<- | []]. discriminate. }
    apply in_app_or in Hfc as [Hfc | Hfc].
    { (* a column that does not convert *)
      apply fold_coerce_errors in Hfc as [[] | (c & k & Hc & Hk & Hco)];
        [|apply schema_names_NoDup].
      destruct c as [name c].
      destruct (returns_column E _ _ _ _ _ Hmain Hc)
        as (k' & values & Hk' & Hco' & _).
      cbn [fst snd frame df_columns] in *. congruence. }
    apply in_app_or in Hfc as [Hfc | Hfc].
    { (* a missing column *)
      unfold check_column_presence in Hfc.
      apply in_flat_map in Hfc as (c & _ & Hfc).
      destruct (position _ _); [destruct Hfc|].
      destruct Hfc as [<- | []]. discriminate. }
    (* a check of a column *)
    unfold run_schema_component_checks in Hfc.
    apply in_flat_map in Hfc as ([name c] & Hc & Hfc).
    destruct (returns_column E _ _ _ _ _ Hmain Hc)
      as (k & values & Hk & Hco & Hlen & Hdt & _).
    destruct (labelled_coerced E columns data (name, c) k Hc Hk)
      as (Hpos & Hcol & Hidx).
    unfold check_column in Hfc. cbn [fst snd] in *.
    rewrite Hpos, Hcol, Hidx in Hfc.
    unfold coerced_column in Hfc. cbn [snd] in Hfc.
    rewrite Hco, Hdt, <- Hlen in Hfc.
    destruct (Hrow name c k values Hc Hk Hco) as (Hna & Hch & Hu).
    assert (forall l' v,
              In (l', v) (combine (seq 0 (List.length values)) values) ->
              Some l' = Some l -> v = nth l values NaN) as Hcell.
    { intros l' v Hin Heq. injection Heq as ->.
      apply (In_combine_seq_inv values NaN) in Hin as [-> _].
      now rewrite Nat.sub_0_r. }
    apply in_app_or in Hfc as [Hfc | Hfc].
    { apply row_failures_inv in Hfc as (l' & v & Hin & Hf & Hi').
      rewrite (Hcell l' v Hin) in Hf by congruence. congruence. }
    apply in_app_or in Hfc as [Hfc | Hfc].
    { destruct (unique c); [|destruct Hfc].
      apply row_failures_inv in Hfc as (l' & v & Hin & Hf & Hi').
      rewrite (Hcell l' v Hin) in Hf by congruence.
      rewrite Hna, Hu in Hf by reflexivity. discriminate. }
    apply run_checks_inv in Hfc as (ch & l' & v & Hin' & Hin & _ & Hv & Hi').
    rewrite (Hcell l' v Hin) in Hv by congruence.
    rewrite (Hch ch Hin') in Hv. discriminate. }
  (* no failure case names the record *)
  destruct (main_cases E _ _ _ Hmain)
    as [(_ & Hg & _) | (fs & Hv & Hg & _)].
  - rewrite Hg.
    destruct (coerce_dtype_shape E schema (frame columns data)) as [_ ->].
    rewrite index_frame. apply in_seq. lia.
  - rewrite validate_failure_cases in Hv.
    destruct (failure_cases E (frame columns data)) as [|fc0 fcs] eqn:Hfcs;
      [discriminate|].
    injection Hv as <-.
    assert (In l (index (frame columns data))) as Hin.
    { rewrite index_frame. apply in_seq. lia. }
    apply in_map_iff in Hin as (r & Hr & Hin).
    unfold index. rewrite Hg. cbn [df_rows]. apply in_map_iff.
    exists r. split; [assumption|]. apply filter_In. split; [assumption|].
    apply negb_true_iff, not_true_iff_false. intros Hn.
    unfold named in Hn. apply mem_In in Hn.
    apply in_map_iff in Hn as (fc & Hi & Hfc).
    apply (Hno fc Hfc). congruence.
Qed.

End Converse.

Section Quarantine.
Import Pandas Pandera Transform.
Variable E : Engine.

(** Property X3.  The quarantine holds exactly the records that a failure
    case names: in a run that returns, a row label is in the
    quarantine frame if and only if some failure case of the
    validation carries it, and in the curated frame if and only if
    it is a label of the batch that no failure case carries. *)
Theorem quarantine_exact columns data out :
  main E (Some (frame columns data)) = Py.Ok out ->
  forall l,
    (In l (index (df_bad out))
     <-> exists fc, In fc (failure_cases E (frame columns data))
                    /\ fc_index fc = Some l)
    /\ (In l (index (df_good out))
        <-> (l < List.length data)%nat
            /\ forall fc, In fc (failure_cases E (frame columns data)) ->
                 fc_index fc <> Some l).
Proof.
  intros Hmain l.
  assert (forall p : row -> bool,
            In l (map fst (filter p (df_rows (frame columns data))))
            <-> (l < List.length data)%nat
                /\ forall r, In r (df_rows (frame columns data)) ->
                     fst r = l -> p r = true) as Hfilter.
  { intros p. rewrite in_map_iff. split.
    - intros (r & <- & Hr). apply filter_In in Hr as [Hr Hp]. split.
      + apply (in_map fst) in Hr. fold (index (frame columns data)) in Hr.
        rewrite index_frame in Hr. apply in_seq in Hr. lia.
      + intros r' Hr' Heq.
        assert (r' = r) as ->; [|assumption].
        apply (same_label_same_row (df_rows (frame columns data)));
          try assumption.
        apply ascending_NoDup, ascending_frame.
    - intros [Hlt Hp].
      assert (In l (index (frame columns data))) as Hl.
      { rewrite index_frame. apply in_seq. lia. }
      apply in_map_iff in Hl as (r & Hr & Hin).
      exists r. split; [assumption|]. apply filter_In. split; auto. }
  assert (forall fs (r : row), fst r = l ->
            (named fs r = true
             <-> exists fc, In fc fs /\ fc_index fc = Some l)) as Hnamed.
  { intros fs r <-. unfold named. rewrite mem_In, in_map_iff.
    split; intros (fc & H1 & H2); exists fc; now split. }
  assert (In l (index (frame columns data)) -> (l < List.length data)%nat)
    as Hlt.
  { rewrite index_frame. intros H. apply in_seq in H. lia. }
  destruct (main_cases E _ _ _ Hmain)
    as [(Hv & Hg & Hb) | (fs & Hv & Hg & Hb)].
  - apply validate_Validated in Hv as [Hnil _]. rewrite Hnil, Hb, Hg.
    destruct (coerce_dtype_shape E schema (frame columns data)) as [_ ->].
    rewrite index_frame, in_seq. cbn [index no_rows df_rows map In].
    split; split.
    + intros [].
    + intros (fc & [] & _).
    + intros H. split; [lia | intros fc []].
    + intros [H _]. lia.
  - rewrite validate_failure_cases in Hv.
    destruct (failure_cases E (frame columns data)) as [|fc0 fcs] eqn:Hfcs;
      [discriminate|].
    injection Hv as <-. rewrite <- Hfcs in *. clear fc0 fcs Hfcs.
    unfold index at 1 2. rewrite Hb, Hg. cbn [df_rows].
    rewrite !Hfilter. split; split.
    + intros [Hl Hp].
      assert (In l (index (frame columns data))) as Hin.
      { rewrite index_frame. apply in_seq. lia. }
      apply in_map_iff in Hin as (r & Hr & Hin).
      apply (Hnamed _ r Hr). now apply Hp.
    + intros (fc & Hfc & Hi). split.
      * destruct (failure_cases_placed E _ fc Hfc)
          as [HNone | (l' & Hl' & Hin)]; [congruence|].
        apply Hlt. congruence.
      * intros r _ Hr. apply (Hnamed _ r Hr). now exists fc.
    + intros [Hl Hp]. split; [assumption|]. intros fc Hfc Hi.
      assert (In l (index (frame columns data))) as Hin.
      { rewrite index_frame. apply in_seq. lia. }
      apply in_map_iff in Hin as (r & Hr & Hin).
      specialize (Hp r Hin Hr). apply negb_true_iff in Hp.
      apply not_true_iff_false in Hp. apply Hp.
      apply (Hnamed _ r Hr). now exists fc.
    + intros [Hl Hno]. split; [assumption|]. intros r _ Hr.
      apply negb_true_iff, not_true_iff_false. intros Hn.
      apply (Hnamed _ r Hr) in Hn as (fc & Hfc & Hi). now apply (Hno fc).
Qed.

End Quarantine.

(* ================================================================== *)
(** * How the [except] branch ends *)

Section Ending.
Import Pandas Pandera Transform.
Variable E : Engine.

(** [set(xs)] of a column of [None]s. *)
Lemma set_of_all_None l :
  l <> [] -> (forall x, In x l -> x = None) -> Py.set_of l = [None].
Proof.
  induction l as [|x l IH]; [congruence|]. intros _ Hall.
  assert (x = None) as -> by (apply Hall; now left).
  cbn [Py.set_of]. destruct l as [|y l].
  - reflexivity.
  - replace (Py.mem None (y :: l)) with true.
    + apply IH; [discriminate|]. intros z Hz. apply Hall. now right.
    + symmetry. apply mem_In. left. apply Hall. right. now left.
Qed.

Lemma two_elements {A} (l : list A) a b :
  In a l -> In b l -> a <> b -> (2 <= List.length l)%nat.
Proof.
  destruct l as [|x [|y l]]; cbn [In List.length]; try lia.
  intros [-> | []] [-> | []]. congruence.
Qed.

(** [sorted] of two or more elements one of which is [None] raises:
    [None] is compared with another element. *)
Lemma sorted_None l :
  In None l -> (2 <= List.length l)%nat ->
  Py.sorted l = Py.Raise Py.TypeError.
Proof.
  assert (forall l, In None l -> (2 <= List.length l)%nat ->
            exists e, Py.sorted l = Py.Raise e) as H.
  { clear l. induction l as [|x l IH]; [intros []|].
    intros Hin Hlen. cbn [Py.sorted].
    destruct (Py.sorted l) as [s|e] eqn:Hs; cbn [Py.bind];
      [|now exists e].
    destruct (sorted_spec _ _ Hs) as [Hel _].
    destruct s as [|y s].
    { destruct l as [|z l]; [cbn in Hlen; lia|].
      destruct (proj2 (Hel z)). now left. }
    cbn [Py.insert].
    destruct x as [x|]; [|destruct y; cbn; now eexists].
    destruct y as [y|]; [|cbn; now eexists].
    destruct Hin as [Hin | Hin]; [discriminate|].
    destruct l as [|z [|z' l]].
    - destruct Hin.
    - destruct Hin as [-> | []]. cbn in Hs. discriminate.
    - destruct (IH Hin) as [e He]; [cbn; lia|]. congruence. }
  intros Hin Hlen. destruct (H l Hin Hlen) as [e He].
  rewrite He. f_equal. now apply (sorted_raises l).
Qed.

(** The failure cases all name a row, or none does, or some do and
    some do not. *)
Lemma indices_cases (fcs : list failure_case) :
  (forall fc, In fc fcs -> fc_index fc <> None)
  \/ (fcs <> [] /\ forall fc, In fc fcs -> fc_index fc = None)
  \/ ((exists fc, In fc fcs /\ fc_index fc = None)
      /\ exists fc, In fc fcs /\ fc_index fc <> None).
Proof.
  induction fcs as [|fc fcs IH]; [left; intros fc []|].
  destruct (fc_index fc) as [l|] eqn:Hfc.
  - destruct IH as [H | [[Hne H] | [(a & Ha & Ha') H]]].
    + left. intros fc' [<- | Hin]; [congruence | now apply H].
    + right. right. destruct fcs as [|fc' fcs]; [congruence|]. split.
      * exists fc'. split; [right; now left | apply H; now left].
      * exists fc. split; [now left | congruence].
    + right. right. split.
      * exists a. split; [now right | assumption].
      * exists fc. split; [now left | congruence].
  - destruct IH as [H | [[Hne H] | [H (b & Hb & Hb')]]].
    + destruct fcs as [|fc' fcs].
      * right. left. split; [discriminate|].
        intros fc' [<- | []]. assumption.
      * right. right. split.
        -- exists fc. split; [now left | assumption].
        -- exists fc'. split; [right; now left | apply H; now left].
    + right. left. split; [discriminate|].
      intros fc' [<- | Hin]; [assumption | now apply H].
    + right. right. split.
      * exists fc. split; [now left | assumption].
      * exists b. split; [now right | assumption].
Qed.

(** [separate] hands the failure cases of [validate] to the steps of
    [quarantine], after the line it prints. *)
Lemma separate_quarantine df failures :
  validate E schema df = SchemaErrors failures ->
  separate E df
  = Py.bind (quarantine df failures) (fun '(df_good, df_bad) =>
    Py.Ok (df_good, df_bad, [Data_validation_errors_found])).
Proof.
  intros Hv. unfold separate, quarantine. rewrite Hv.
  destruct (Py.sorted _) as [s|e]; cbn [Py.bind]; [|reflexivity].
  destruct (loc df s) as [bad|e]; cbn [Py.bind]; [|reflexivity].
  now destruct (drop df s) as [good|e].
Qed.

(** A label that [rows_at] finds is a label of the frame. *)
Lemma rows_at_label df x rs :
  rows_at df x = Py.Ok rs -> exists l, x = Some l /\ In l (index df).
Proof.
  destruct x as [l|]; cbn [rows_at]; [|discriminate].
  destruct (filter (has_label l) (df_rows df)) as [|r rs'] eqn:Hf;
    [discriminate|].
  intros _. exists l. split; [reflexivity|].
  assert (In r (filter (has_label l) (df_rows df))) as Hr
    by (rewrite Hf; now left).
  apply filter_In in Hr as [Hr Hl]. unfold has_label in Hl.
  apply Nat.eqb_eq in Hl. subst l. now apply in_map.
Qed.

(** A label that the frame lacks makes [.loc] raise. *)
Lemma rows_at_missing df l :
  ~ In l (index df) -> rows_at df (Some l) = Py.Raise Py.KeyError.
Proof.
  intros Hl. cbn [rows_at].
  destruct (filter (has_label l) (df_rows df)) as [|r rs] eqn:Hf;
    [reflexivity|].
  exfalso. apply Hl.
  destruct (rows_at_label df (Some l) (r :: rs)) as (l' & Heq & Hin).
  - cbn [rows_at]. now rewrite Hf.
  - now injection Heq as ->.
Qed.

(** The three outcomes of lines 83-86, by what the failure cases
    name. *)
Lemma quarantine_cases df failures :
  ((forall fc, In fc failures ->
      exists l, fc_index fc = Some l /\ In l (index df))
   /\ exists good bad, quarantine df failures = Py.Ok (good, bad))
  \/ (((failures <> [] /\ forall fc, In fc failures -> fc_index fc = None)
       \/ ((forall fc, In fc failures -> fc_index fc <> None)
           /\ exists fc l, In fc failures /\ fc_index fc = Some l
                           /\ ~ In l (index df)))
      /\ quarantine df failures = Py.Raise Py.KeyError)
  \/ (((exists fc, In fc failures /\ fc_index fc = None)
       /\ exists fc, In fc failures /\ fc_index fc <> None)
      /\ quarantine df failures = Py.Raise Py.TypeError).
Proof.
  unfold quarantine.
  destruct (indices_cases failures)
    as [Hall | [[Hne Hnone] | [(a & Ha & Ha') (b & Hb & Hb')]]].
  - (* every failure case names a row *)
    destruct (sorted_set_total (map fc_index failures)) as [s Hs].
    { intros x Hx. apply in_map_iff in Hx as (fc & <- & Hfc).
      destruct (fc_index fc) as [l|] eqn:Hl; [now exists l|].
      now apply Hall in Hfc. }
    rewrite Hs. cbn [Py.bind].
    destruct (sorted_spec _ _ Hs) as [Hin _].
    unfold loc, drop.
    destruct (Py.mapM (rows_at df) s) as [rss|e] eqn:Hm; cbn [Py.bind].
    + left. split; [|now repeat eexists].
      intros fc Hfc. apply mapM_Ok in Hm.
      destruct (Forall2_In_l _ _ _ (fc_index fc) Hm) as [rs Hrs].
      { apply Hin, set_of_In. now apply in_map. }
      now apply rows_at_label in Hrs.
    + right. left. rewrite (rows_at_raises df s e Hm). split; [|reflexivity].
      right. split; [assumption|].
      (* some label is missing, or [mapM] would return *)
      assert (~ forall fc, In fc failures ->
                exists l, fc_index fc = Some l /\ In l (index df)) as Hnot.
      { intros Hlabels.
        destruct (mapM_total (rows_at df) s) as [rss Hrss]; [|congruence].
        intros x Hx. apply Hin, set_of_In, in_map_iff in Hx
          as (fc & <- & Hfc).
        destruct (Hlabels fc Hfc) as (l & -> & Hl).
        now apply rows_at_total. }
      clear Hm Hin Hs. induction failures as [|fc fcs IH].
      * exfalso. apply Hnot. intros fc [].
      * destruct (fc_index fc) as [l|] eqn:Hl.
        2:{ exfalso. apply (Hall fc); [now left | assumption]. }
        destruct (in_dec Nat.eq_dec l (index df)) as [Hidx | Hidx].
        -- destruct IH as (fc' & l' & Hfc' & Hl' & Hidx').
           ++ intros fc' Hfc'. apply Hall. now right.
           ++ intros Hlabels. apply Hnot. intros fc' [<- | Hfc'].
              ** now exists l.
              ** now apply Hlabels.
           ++ exists fc', l'. repeat split; auto. now right.
        -- exists fc, l. repeat split; auto. now left.
  - (* none names a row *)
    right. left. split; [left; now split|].
    destruct failures as [|fc fcs]; [congruence|].
    rewrite set_of_all_None.
    + reflexivity.
    + discriminate.
    + intros x Hx. apply in_map_iff in Hx as (fc' & <- & Hin).
      now apply Hnone.
  - (* some do, some do not *)
    right. right. split; [split; [now exists a | now exists b]|].
    rewrite sorted_None; [reflexivity| |].
    + apply set_of_In. rewrite <- Ha'. now apply in_map.
    + apply (two_elements _ (fc_index a) (fc_index b)).
      * apply set_of_In. now apply in_map.
      * apply set_of_In. now apply in_map.
      * congruence.
Qed.

(** Property X4.  Lines 83-86, for whatever failure cases the validation
    has reported: the three steps return exactly when every failure
    case names a row of the batch (in particular when there is none).
    When they do not return they stop with a [TypeError] or a
    [KeyError], and with no other exception. *)
Theorem quarantine_returns_iff df failures :
  ((exists good bad, quarantine df failures = Py.Ok (good, bad))
   <-> forall fc, In fc failures ->
         exists l, fc_index fc = Some l /\ In l (index df))
  /\ forall e, quarantine df failures = Py.Raise e ->
       e = Py.TypeError \/ e = Py.KeyError.
Proof.
  destruct (quarantine_cases df failures)
    as [[Hall (good & bad & H)] | [[Hwhy H] | [[(a & Ha & Ha') _] H]]];
    rewrite H.
  - split; [|discriminate]. split; [now intros _ | now exists good, bad].
  - split; [|intros e He; right; congruence].
    split; [intros (good & bad & Hok); discriminate|].
    intros Hall. exfalso.
    destruct Hwhy as [[Hne Hnone] | [_ (fc & l & Hfc & Hl & Hidx)]].
    + destruct failures as [|fc fcs]; [congruence|].
      destruct (Hall fc (or_introl eq_refl)) as (l & Hl & _).
      rewrite Hnone in Hl by now left. discriminate.
    + destruct (Hall fc Hfc) as (l' & Hl' & Hidx'). congruence.
  - split; [|intros e He; left; congruence].
    split; [intros (good & bad & Hok); discriminate|].
    intros Hall. exfalso.
    destruct (Hall a Ha) as (l & Hl & _). congruence.
Qed.

(** Property X5.  Which exception stops lines 83-86.  It is the
    [TypeError] of [sorted] exactly when some failure cases name a
    row and some do not: [None] is compared with a label.  It is the
    [KeyError] of [df_raw.loc] exactly when there are failure cases
    and none names a row ([bad_indices] is the list that holds
    [None], which is no label), or when all name a row and one of the
    labels is not in the batch. *)
Theorem quarantine_abort_kinds df failures :
  (quarantine df failures = Py.Raise Py.TypeError
   <-> (exists fc, In fc failures /\ fc_index fc = None)
       /\ exists fc, In fc failures /\ fc_index fc <> None)
  /\ (quarantine df failures = Py.Raise Py.KeyError
      <-> (failures <> []
           /\ forall fc, In fc failures -> fc_index fc = None)
          \/ ((forall fc, In fc failures -> fc_index fc <> None)
              /\ exists fc l, In fc failures /\ fc_index fc = Some l
                              /\ ~ In l (index df))).
Proof.
  destruct (quarantine_cases df failures)
    as [[Hall (good & bad & H)] | [[Hwhy H] | [[Hmixed Hmixed'] H]]];
    rewrite H.
  - split; (split; [discriminate|]); intros Hwhy; exfalso.
    + destruct Hwhy as [(a & Ha & Ha') _].
      destruct (Hall a Ha) as (l & Hl & _). congruence.
    + destruct Hwhy as [[Hne Hnone] | [_ (fc & l & Hfc & Hl & Hidx)]].
      * destruct failures as [|fc fcs]; [congruence|].
        destruct (Hall fc (or_introl eq_refl)) as (l & Hl & _).
        rewrite Hnone in Hl by now left. discriminate.
      * destruct (Hall fc Hfc) as (l' & Hl' & Hidx'). congruence.
  - split; [split; [discriminate|] | split; [now intros _ | reflexivity]].
    intros [(a & Ha & Ha') (b & Hb & Hb')]. exfalso.
    destruct Hwhy as [[_ Hnone] | [Hsome _]].
    + now apply Hb', Hnone.
    + now apply (Hsome a).
  - split; [split; [now intros _ | reflexivity] | split; [discriminate|]].
    destruct Hmixed as (a & Ha & Ha'), Hmixed' as (b & Hb & Hb').
    intros [[_ Hnone] | [Hsome _]]; exfalso.
    + now apply Hb', Hnone.
    + now apply (Hsome a).
Qed.

End Ending.

(* ================================================================== *)
(** * What a run prints and writes *)

Section Report.
Import Pandas Pandera Transform.
Variable E : Engine.

(** A run that returns found every column of the schema. *)
Lemma returns_has_column columns data out name c :
  main E (Some (frame columns data)) = Py.Ok out ->
  In (name, c) (Pandera.columns schema) ->
  exists k, position name columns = Some k.
Proof.
  intros Hmain Hc.
  destruct (position name columns) as [k|] eqn:Hk; [now exists k|].
  exfalso.
  destruct (returns_named E _ _ _ Hmain) as [Hrows _].
  apply (Hrows (scalar_failure_case None column_in_dataframe name));
    [|reflexivity].
  unfold failure_cases.
  apply in_or_app. right. apply in_or_app. right. apply in_or_app. left.
  unfold check_column_presence. apply in_flat_map.
  exists (name, c). split; [assumption|].
  cbn [frame df_columns fst]. rewrite Hk. now left.
Qed.

Lemma summary_lines total good bad :
  summary total good bad
  = Py.Ok ([Total_records_processed total]
           ++ (if 0 <? total
               then [Valid_records good (Qmake good 1 / Qmake total 1);
                     Invalid_records bad (Qmake bad 1 / Qmake total 1)]
               else [])
           ++ [if 0 <? bad then Invalid_records_moved_to_quarantine
               else No_invalid_records]
           ++ [Transformed_data_saved]).
Proof.
  unfold summary, Py.truediv.
  destruct (0 <? total) eqn:H; [|reflexivity].
  apply Z.ltb_lt in H.
  destruct (total =? 0) eqn:H0; [apply Z.eqb_eq in H0; lia|].
  reflexivity.
Qed.

(** The two ways in which the frame is split: nothing was found
    and nothing is quarantined, or something was found and the
    quarantine frame is not empty. *)
Lemma separate_cases columns data out :
  main E (Some (frame columns data)) = Py.Ok out ->
  (failure_cases E (frame columns data) = []
   /\ separate E (frame columns data)
      = Py.Ok (df_good out, df_bad out, [])
   /\ len (df_good out) = Z.of_nat (List.length data)
   /\ len (df_bad out) = 0
   /\ empty (df_bad out) = true)
  \/ (failure_cases E (frame columns data) <> []
      /\ separate E (frame columns data)
         = Py.Ok (df_good out, df_bad out, [Data_validation_errors_found])
      /\ len (df_good out) + len (df_bad out) = Z.of_nat (List.length data)
      /\ 0 < len (df_bad out)
      /\ empty (df_bad out) = false).
Proof.
  intros Hmain. destruct (main_Ok E _ _ Hmain) as [printed Hsep].
  destruct (validate E schema (frame columns data)) as [dfv|failures] eqn:Hv.
  - (* nothing found *)
    pose proof Hsep as Hsep'.
    rewrite (separate_Validated _ _ _ Hv) in Hsep'.
    injection Hsep' as Hg Hb <-.
    apply validate_Validated in Hv as [Hnil ->].
    left. split; [assumption|]. split; [assumption|].
    rewrite <- Hg, <- Hb. repeat split.
    rewrite len_index.
    destruct (coerce_dtype_shape E schema (frame columns data)) as [_ ->].
    now rewrite index_frame, length_seq.
  - (* something found *)
    destruct (separate_SchemaErrors E _ _ _ _ _
                (ascending_frame columns data) Hv Hsep)
      as (Hnamed & Hg & Hb & ->).
    rewrite validate_failure_cases in Hv.
    destruct (failure_cases E (frame columns data)) as [|fc fcs] eqn:Hfcs;
      [discriminate|].
    injection Hv as <-.
    right. split; [discriminate|]. split; [assumption|].
    assert (0 < len (df_bad out)) as Hbad.
    { destruct (Hnamed fc) as (l & Hl & Hin); [now left|].
      apply in_map_iff in Hin as (r & Hr & Hin).
      assert (1 <= List.length (filter (named (fc :: fcs))
                                       (df_rows (frame columns data))))%nat.
      { apply (filter_one _ _ r Hin). unfold named. apply mem_In.
        rewrite Hr, <- Hl. apply in_map. now left. }
      unfold len. rewrite Hb. cbn [df_rows]. lia. }
    split; [|split; [assumption|]].
    + unfold len. rewrite Hg, Hb. cbn [df_rows].
      pose proof (filter_length (named (fc :: fcs))
                    (df_rows (frame columns data))) as H.
      cbn [frame df_rows] in *. unfold row in *.
      rewrite length_combine, length_seq, Nat.min_id in H. lia.
    + (* the frame is not empty: it has rows and columns *)
      assert (exists k, position "transaction_id" columns = Some k)
        as [k Hk].
      { eapply returns_has_column; [exact Hmain | left; reflexivity]. }
      unfold len in Hbad. rewrite Hb in *. unfold empty.
      cbn [df_rows df_columns frame] in *.
      destruct (filter _ _); [cbn in Hbad; lia|].
      destruct columns; [discriminate|]. reflexivity.
Qed.

(** Property X6.  What a run that returns prints and writes.  There are two
    cases.  Either the validation found nothing: no record is
    quarantined, no quarantine file is written, and the report gives
    the total, all records as valid when there are any, and the line
    that no record is invalid.  Or it found something: at least one
    record is quarantined, the quarantine file is written and holds
    the quarantine frame, and the report opens with the line about
    validation errors and announces the quarantine file; the counts
    of valid and invalid records add up to the total, which is not
    0.  The curated file is written in both cases and holds the
    curated frame. *)
Theorem report columns data out :
  main E (Some (frame columns data)) = Py.Ok out ->
  let total := Z.of_nat (List.length data) in
  let good := len (df_good out) in
  let bad := len (df_bad out) in
  curated_file out = df_good out
  /\ good + bad = total
  /\ ((failure_cases E (frame columns data) = []
       /\ bad = 0
       /\ quarantine_file out = None
       /\ stdout out
          = [Total_records_processed total]
            ++ (if 0 <? total
                then [Valid_records total (Qmake total 1 / Qmake total 1);
                      Invalid_records 0 (Qmake 0 1 / Qmake total 1)]
                else [])
            ++ [No_invalid_records; Transformed_data_saved])
      \/ (failure_cases E (frame columns data) <> []
          /\ 0 < bad
          /\ quarantine_file out = Some (df_bad out)
          /\ stdout out
             = [Data_validation_errors_found;
                Total_records_processed total;
                Valid_records good (Qmake good 1 / Qmake total 1);
                Invalid_records bad (Qmake bad 1 / Qmake total 1);
                Invalid_records_moved_to_quarantine;
                Transformed_data_saved])).
Proof.
  intros Hmain total good bad.
  assert (len (frame columns data) = total) as Htotal.
  { rewrite len_index, index_frame, length_seq. reflexivity. }
  (* the fields of the outputs, as [main] fills them *)
  assert (curated_file out = df_good out
          /\ quarantine_file out
             = (if negb (empty (df_bad out)) then Some (df_bad out)
                else None)
          /\ forall printed,
               separate E (frame columns data)
               = Py.Ok (df_good out, df_bad out, printed) ->
               stdout out
               = printed
                 ++ [Total_records_processed total]
                 ++ (if 0 <? total
                     then [Valid_records good (Qmake good 1 / Qmake total 1);
                           Invalid_records bad (Qmake bad 1 / Qmake total 1)]
                     else [])
                 ++ [if 0 <? bad then Invalid_records_moved_to_quarantine
                     else No_invalid_records]
                 ++ [Transformed_data_saved]) as (Hcur & Hqua & Hout).
  { pose proof Hmain as H. unfold main in H.
    destruct (separate E (frame columns data)) as [[[g b] printed]|e];
      cbn [Py.bind] in H; [|discriminate].
    rewrite summary_lines, Htotal in H. cbn [Py.bind] in H.
    injection H as <-.
    cbn [curated_file df_good df_bad quarantine_file stdout].
    repeat split. intros printed' H. now injection H as <-. }
  split; [assumption|].
  destruct (separate_cases columns data out Hmain)
    as [(Hnil & Hsep & Hg & Hb & Hempty) | (Hne & Hsep & Hsum & Hb & Hempty)];
    rewrite Hqua, Hempty, (Hout _ Hsep); subst total good bad.
  - split; [lia|]. left. rewrite Hg, Hb. now repeat split.
  - split; [assumption|]. right.
    assert (0 < Z.of_nat (List.length data)) as Hpos
      by (unfold len in *; lia).
    apply Z.ltb_lt in Hpos. pose proof Hb as Hb'.
    apply Z.ltb_lt in Hb'. rewrite Hpos, Hb'. now repeat split.
Qed.

End Report.

(* ================================================================== *)
(** * Missing values and amounts that are not positive *)

Section Cells.
Import Pandas Pandera Transform.
Variable E : Engine.

Lemma all_some_nth_error {A} (l : list (option A)) :
  forall l' i a, all_some l = Some l' -> nth_error l i = Some a ->
  exists b, a = Some b /\ nth_error l' i = Some b.
Proof.
  induction l as [|[x|] l IH]; intros l' i a H Hi; cbn [all_some] in H;
    try discriminate.
  - destruct i; discriminate.
  - destruct (all_some l) as [l0|] eqn:Hl; [|discriminate].
    injection H as <-. destruct i as [|i]; cbn [nth_error] in *.
    + injection Hi as <-. now exists x.
    + now apply IH.
Qed.

(** The cell of row [i] in a column of floats, once the column is
    converted or has been left as it was. *)
Lemma coerced_float_cell columns data c k i cells v :
  dtype (snd c) = Float ->
  nth_error data i = Some cells ->
  astype_float E (nth k cells NaN) = Some v ->
  In (i, match coerce_column E Float (column (frame columns data) k) with
         | Some _ => v
         | None => nth k cells NaN
         end)
     (combine (seq 0 (List.length data))
              (coerced_column E (frame columns data) c k)).
Proof.
  intros Hc Hi Hv. unfold coerced_column. rewrite Hc.
  destruct (coerce_column E Float (column (frame columns data) k))
    as [values|] eqn:Hco.
  - pose proof (coerce_column_length E _ _ _ Hco) as Hlen.
    rewrite length_column in Hlen. cbn [frame df_rows] in Hlen.
    unfold row in Hlen.
    rewrite length_combine, length_seq, Nat.min_id in Hlen.
    cbn [coerce_column] in Hco. rewrite column_frame, map_map in Hco.
    destruct (all_some_nth_error _ values i
                (coerce_cell E Float (nth k cells NaN)) Hco)
      as (b & Hb & Hnth).
    { now apply (map_nth_error
                   (fun cs => coerce_cell E Float (nth k cs NaN))). }
    cbn [coerce_cell] in Hb. rewrite Hv in Hb. injection Hb as <-.
    pose proof (In_combine_seq (fun x : value => x) values i v Hnth 0%nat)
      as H.
    now rewrite map_id, Hlen in H.
  - rewrite column_frame.
    apply (In_combine_seq (fun cs => nth k cs NaN) data i cells Hi 0%nat).
Qed.

(** Property X7.  A record with a missing value is sent to quarantine.  When
    the cell of a record in one of the six text columns or in
    [amount] is missing (the field was empty), the validation reports
    the record with the check [not_nullable] of that column, and a run
    that returns has the record in quarantine and not in the curated
    frame. *)
Theorem missing_value_quarantined columns data name k i cells :
  In name ["transaction_id"; "user_id"; "amount"; "currency";
           "payment_method"; "country"; "device"] ->
  position name columns = Some k ->
  nth_error data i = Some cells ->
  nth k cells NaN = NaN ->
  (exists fc,
     In fc (failure_cases E (frame columns data))
     /\ fc_column fc = Some name /\ fc_check fc = not_nullable
     /\ fc_index fc = Some i)
  /\ forall out,
       main E (Some (frame columns data)) = Py.Ok out ->
       In (i, cells) (df_rows (df_bad out))
       /\ ~ In i (index (df_good out)).
Proof.
  intros Hname Hk Hi Hcell.
  assert (exists c, In (name, c) (Pandera.columns schema)
                    /\ (dtype c = String_ \/ dtype c = Float))
    as (c & Hc & Hdt).
  { cbn [In] in Hname.
    repeat (destruct Hname as [<- | Hname];
            [eexists; split; [in_list | cbn; tauto]|]).
    destruct Hname. }
  destruct (labelled_coerced E columns data (name, c) k Hc Hk)
    as (Hpos & Hcol & Hidx). cbn [fst] in *.
  assert (In (i, NaN)
             (combine (seq 0 (List.length data))
                      (coerced_column E (frame columns data) (name, c) k)))
    as Hin.
  { destruct Hdt as [Hdt | Hdt].
    - unfold coerced_column. cbn [snd]. rewrite Hdt.
      rewrite coerce_column_str, column_frame, map_map.
      pose proof (In_combine_seq
                    (fun cs => astype_str E (nth k cs NaN)) data i cells
                    Hi 0%nat) as H.
      cbn beta in H. rewrite Hcell in H. exact H.
    - pose proof (coerced_float_cell columns data (name, c) k i cells NaN
                    Hdt Hi) as H.
      rewrite Hcell in H. specialize (H eq_refl).
      now destruct (coerce_column E Float _). }
  assert (In {| fc_column := Some name; fc_check := not_nullable;
                fc_failure_case := NaN; fc_index := Some i |}
             (failure_cases E (frame columns data))) as Hfc.
  { apply (check_column_failure E _ (name, c)); [assumption|].
    unfold check_column. cbn [fst snd]. rewrite Hpos, Hcol, Hidx.
    apply in_or_app. left. now apply row_failures_In. }
  split.
  - eexists. split; [exact Hfc|]. now repeat split.
  - intros out Hout.
    now apply (row_failure_quarantined E columns data _ i cells out Hfc).
Qed.

(** Property X8.  An amount that is not above 0 sends the record to
    quarantine.  When the amount of a record reads as a float [x]
    for which [0 < x] is false (0 itself, a negative amount, a value
    that is no number), a run that returns has the record in
    quarantine and not in the curated frame. *)
Theorem amount_not_positive_quarantined columns data k i cells x out :
  position "amount" columns = Some k ->
  nth_error data i = Some cells ->
  astype_float E (nth k cells NaN) = Some (VFloat x) ->
  SFltb (float_of_int 0) x = false ->
  main E (Some (frame columns data)) = Py.Ok out ->
  In (i, cells) (df_rows (df_bad out))
  /\ ~ In i (index (df_good out)).
Proof.
  intros Hk Hi Hx Hle Hmain.
  set (c := {| dtype := Float; checks := [gt 0];
               unique := false; column_coerce := false |}).
  assert (In ("amount", c) (Pandera.columns schema)) as Hc by in_list.
  destruct (returns_column E _ _ _ _ _ Hmain Hc)
    as (k' & values & Hk' & Hco & Hlen & Hdt & Hreport).
  rewrite Hk in Hk'. injection Hk' as <-. cbn [c dtype unique checks] in *.
  pose proof (coerced_float_cell columns data ("amount", c) k i cells
                (VFloat x) eq_refl Hi Hx) as Hin.
  unfold coerced_column in Hin. cbn [snd c dtype] in Hin.
  rewrite Hco in Hin.
  assert (exists fc, In fc (failure_cases E (frame columns data))
                     /\ fc_index fc = Some i) as (fc & Hfc & Hfci).
  { destruct (isna (VFloat x)) eqn:Hna.
    - eexists. split;
        [apply Hreport, in_or_app; left;
         apply row_failures_In; [exact Hin | exact Hna]
        | reflexivity].
    - destruct (run_checks_In "amount" [gt 0] _ (gt 0) i (VFloat x)
                  (or_introl eq_refl) Hin Hna Hle 0%nat)
        as (fc & Hfc & Hfci).
      exists fc. split; [|assumption].
      apply Hreport. apply in_or_app. right. exact Hfc. }
  now apply (row_failure_quarantined E columns data fc i cells out).
Qed.

End Cells.

(* ================================================================== *)
(** * What the text checks accept *)

Section Patterns.
Import Pandas Pandera Transform.

Lemma match_repeat_Lit c s rest :
  Re.match_repeat (Re.Lit c) 1 s = Some rest <-> s = String c rest.
Proof.
  destruct s as [|c' s]; cbn [Re.match_repeat Re.atom_matches].
  - split; discriminate.
  - destruct (Ascii.eqb c c') eqn:Hc.
    + apply Ascii.eqb_eq in Hc as ->. split; congruence.
    + apply Ascii.eqb_neq in Hc. split; [discriminate | congruence].
Qed.

Lemma match_repeat_Digit n :
  forall s rest,
  Re.match_repeat Re.Digit n s = Some rest
  <-> exists d, s = (d ++ rest)%string /\ String.length d = n
                /\ all_digits d = true.
Proof.
  induction n as [|n IH]; intros s rest; cbn [Re.match_repeat].
  - split.
    + intros H. injection H as ->. now exists "".
    + intros ([|c d] & -> & Hlen & _); [reflexivity | discriminate].
  - destruct s as [|c s].
    + split; [discriminate|].
      intros ([|c d] & H & Hlen & _); discriminate.
    + cbn [Re.atom_matches]. destruct (Re.is_digit c) eqn:Hc.
      * rewrite IH. split.
        -- intros (d & -> & Hlen & Hd). exists (String c d).
           cbn [append String.length all_digits]. rewrite Hc, Hd, Hlen.
           now repeat split.
        -- intros ([|c' d] & H & Hlen & Hd); [discriminate|].
           cbn [append String.length all_digits] in *.
           injection H as <- ->. exists d.
           apply andb_true_iff in Hd as [_ Hd]. repeat split; auto.
      * split; [discriminate|].
        intros ([|c' d] & H & Hlen & Hd); [discriminate|].
        cbn [append all_digits] in *. injection H as <- ->.
        rewrite Hc in Hd. discriminate.
Qed.

Lemma match_repeat_Upper2 s rest :
  Re.match_repeat Re.Upper 2 s = Some rest
  <-> exists a b, s = String a (String b rest)
                  /\ Re.is_upper a = true /\ Re.is_upper b = true.
Proof.
  destruct s as [|a [|b s]]; cbn [Re.match_repeat Re.atom_matches].
  - split; [discriminate | intros (a & b & H & _); discriminate].
  - destruct (Re.is_upper a);
      (split; [discriminate | intros (a' & b' & H & _); discriminate]).
  - destruct (Re.is_upper a) eqn:Ha, (Re.is_upper b) eqn:Hb; split;
      try discriminate;
      try (intros (a' & b' & H & Ha' & Hb'); injection H as <- <- <-;
           congruence).
    intros H. injection H as ->. now exists a, b.
Qed.

Lemma at_end_cases s :
  Re.at_end s = true <-> s = "" \/ s = String (ascii_of_nat 10) "".
Proof.
  destruct s as [|c [|c' s]]; cbn [Re.at_end].
  - split; auto.
  - rewrite Ascii.eqb_eq. split.
    + intros ->. now right.
    + intros [H | H]; [discriminate | now injection H].
  - split; [discriminate | intros [H | H]; discriminate].
Qed.

(** A prefix, [width] digits, the end of the text. *)
Lemma prefixed_digits_accept (pattern prefix : string) width s :
  (forall t, Re.matches pattern (prefix ++ t)
             = Re.match_pieces [(Re.Digit, width)] t) ->
  (forall t, Re.matches pattern t = true ->
             exists t', t = (prefix ++ t')%string) ->
  Re.matches pattern s = true
  <-> exists d, String.length d = width /\ all_digits d = true
                /\ (s = (prefix ++ d)%string
                    \/ s = (prefix ++ d
                            ++ String (ascii_of_nat 10) "")%string).
Proof.
  intros Hpre Hinv. split.
  - intros H. destruct (Hinv s H) as [t ->]. rewrite Hpre in H.
    cbn [Re.match_pieces] in H.
    destruct (Re.match_repeat Re.Digit width t) as [rest|] eqn:Hm;
      [|discriminate].
    apply match_repeat_Digit in Hm as (d & -> & Hlen & Hd).
    exists d. repeat split; try assumption.
    apply at_end_cases in H as [-> | ->]; [left | now right].
    f_equal. clear. induction d; cbn; congruence.
  - intros (d & Hlen & Hd & [-> | ->]); rewrite Hpre; cbn [Re.match_pieces].
    + replace (Re.match_repeat Re.Digit width d) with (Some "").
      * reflexivity.
      * symmetry. apply match_repeat_Digit. exists d. repeat split; auto.
        clear. induction d; cbn; congruence.
    + replace (Re.match_repeat Re.Digit width
                 (d ++ String (ascii_of_nat 10) ""))
        with (Some (String (ascii_of_nat 10) "")).
      * reflexivity.
      * symmetry. apply match_repeat_Digit. exists d. now repeat split.
Qed.

(** Property X9.  What the patterns of the two id columns accept (of texts of
    code points below 256, the ones a [string] stands for): the
    prefix, then exactly six, respectively four, decimal digits, and
    nothing else but, possibly, one final newline, before which [$]
    matches as well. *)
Theorem id_patterns_accept idc uc s :
  In ("transaction_id", idc) (Pandera.columns schema) ->
  In ("user_id", uc) (Pandera.columns schema) ->
  ((forall ch, In ch (checks idc) -> check_value ch (VStr s) = true)
   <-> exists d, String.length d = 6%nat /\ all_digits d = true
                 /\ (s = ("txn_" ++ d)%string
                     \/ s = ("txn_" ++ d
                             ++ String (ascii_of_nat 10) "")%string))
  /\ ((forall ch, In ch (checks uc) -> check_value ch (VStr s) = true)
      <-> exists d, String.length d = 4%nat /\ all_digits d = true
                    /\ (s = ("u_" ++ d)%string
                        \/ s = ("u_" ++ d
                                ++ String (ascii_of_nat 10) "")%string)).
Proof.
  intros Hid Hu.
  assert (idc = {| dtype := String_; checks := [str_matches "^txn_\d{6}$"];
                   unique := true; column_coerce := false |}) as ->.
  { cbn in Hid. repeat (destruct Hid as [Hid | Hid]; [congruence|]).
    destruct Hid. }
  assert (uc = {| dtype := String_; checks := [str_matches "^u_\d{4}$"];
                  unique := false; column_coerce := false |}) as ->.
  { cbn in Hu. repeat (destruct Hu as [Hu | Hu]; [congruence|]).
    destruct Hu. }
  cbn [checks]. split.
  - rewrite <- (prefixed_digits_accept "^txn_\d{6}$" "txn_" 6 s).
    + split.
      * intros H. apply (H (str_matches _)). now left.
      * intros H ch [<- | []]. exact H.
    + reflexivity.
    + intros t H. unfold Re.matches in H.
      change (Re.compile "^txn_\d{6}$")
        with (Some [(Re.Lit "t", 1%nat); (Re.Lit "x", 1%nat);
                    (Re.Lit "n", 1%nat); (Re.Lit "_", 1%nat);
                    (Re.Digit, 6%nat)]) in H.
      cbn [Re.match_pieces] in H.
      repeat match type of H with
             | match Re.match_repeat (Re.Lit ?c) 1 ?t with _ => _ end = _ =>
                 let Hm := fresh "Hm" in
                 destruct (Re.match_repeat (Re.Lit c) 1 t) eqn:Hm;
                 [apply match_repeat_Lit in Hm; subst t | discriminate]
             end.
      now eexists.
  - rewrite <- (prefixed_digits_accept "^u_\d{4}$" "u_" 4 s).
    + split.
      * intros H. apply (H (str_matches _)). now left.
      * intros H ch [<- | []]. exact H.
    + reflexivity.
    + intros t H. unfold Re.matches in H.
      change (Re.compile "^u_\d{4}$")
        with (Some [(Re.Lit "u", 1%nat); (Re.Lit "_", 1%nat);
                    (Re.Digit, 4%nat)]) in H.
      cbn [Re.match_pieces] in H.
      repeat match type of H with
             | match Re.match_repeat (Re.Lit ?c) 1 ?t with _ => _ end = _ =>
                 let Hm := fresh "Hm" in
                 destruct (Re.match_repeat (Re.Lit c) 1 t) eqn:Hm;
                 [apply match_repeat_Lit in Hm; subst t | discriminate]
             end.
      now eexists.
Qed.

(** Property X10.  What the two checks of [country] accept together: exactly
    the texts of two capital letters [A] to [Z].  (The pattern alone
    would also accept two capitals and a final newline; the length
    check turns that down.) *)
Theorem country_checks_accept c s :
  In ("country", c) (Pandera.columns schema) ->
  (forall ch, In ch (checks c) -> check_value ch (VStr s) = true)
  <-> exists a b, s = String a (String b "")
                  /\ Re.is_upper a = true /\ Re.is_upper b = true.
Proof.
  intros Hc.
  assert (c = {| dtype := String_;
                 checks := [str_length 2 2; str_matches "^[A-Z]{2}$"];
                 unique := false; column_coerce := false |}) as ->.
  { cbn in Hc. repeat (destruct Hc as [Hc | Hc]; [congruence|]).
    destruct Hc. }
  cbn [checks].
  assert (forall t, Re.matches "^[A-Z]{2}$" t
                    = Re.match_pieces [(Re.Upper, 2%nat)] t) as Hm
    by reflexivity.
  split.
  - intros H.
    pose proof (H (str_length 2 2) (or_introl eq_refl)) as Hlen.
    pose proof (H (str_matches "^[A-Z]{2}$") (or_intror (or_introl eq_refl)))
      as Hre.
    cbn [check_value] in Hlen, Hre. rewrite Hm in Hre.
    cbn [Re.match_pieces] in Hre.
    destruct (Re.match_repeat Re.Upper 2 s) as [rest|] eqn:Hr;
      [|discriminate].
    apply match_repeat_Upper2 in Hr as (a & b & -> & Ha & Hb).
    exists a, b. repeat split; try assumption.
    destruct rest; [reflexivity|]. cbn in Hlen. discriminate.
  - intros (a & b & -> & Ha & Hb) ch [<- | [<- | []]].
    + reflexivity.
    + cbn [check_value]. rewrite Hm.
      cbn [Re.match_pieces Re.match_repeat Re.atom_matches].
      now rewrite Ha, Hb.
Qed.

End Patterns.

(* ================================================================== *)
(** * Reading a formatted number back *)

Section Decimal.

Lemma number_from_app s :
  forall t a,
  Reference.number_from a (s ++ t)
  = match Reference.number_from a s with
    | Some b => Reference.number_from b t
    | None => None
    end.
Proof.
  induction s as [|c s IH]; intros t a; cbn [append Reference.number_from];
    [reflexivity|].
  destruct (Re.is_digit c); [apply IH | reflexivity].
Qed.

Lemma digit_char_value d :
  0 <= d < 10 -> Z.of_nat (nat_of_ascii (Py.digit_char d)) - 48 = d.
Proof.
  intros H.
  assert (d = 0 \/ d = 1 \/ d = 2 \/ d = 3 \/ d = 4 \/ d = 5 \/ d = 6
          \/ d = 7 \/ d = 8 \/ d = 9) as Hd by lia.
  repeat destruct Hd as [-> | Hd]; try reflexivity.
  subst d; reflexivity.
Qed.

Lemma number_from_digit a d :
  0 <= d < 10 ->
  Reference.number_from a (String (Py.digit_char d) "") = Some (10 * a + d).
Proof.
  intros H. cbn [Reference.number_from].
  now rewrite digit_char_is_digit, digit_char_value.
Qed.

(** The digits that the loop of [digits] writes read back as [n]. *)
Lemma digits_aux_value fuel :
  forall n acc, 0 <= n < 2 ^ Z.of_nat (S fuel) ->
  exists d,
    Py.digits_aux (S fuel) n acc = (d ++ acc)%string
    /\ Reference.number_from 0 d = Some n.
Proof.
  induction fuel as [|fuel IH]; intros n acc Hn.
  - change (2 ^ Z.of_nat 1) with 2 in Hn.
    assert (n / 10 = 0) as Hq by (apply Z.div_small; lia).
    exists (String (Py.digit_char (n mod 10)) "").
    cbn [Py.digits_aux]. rewrite Hq. cbn [Z.eqb append].
    split; [reflexivity|].
    rewrite number_from_digit by (apply Z.mod_pos_bound; lia).
    f_equal. rewrite Z.mod_small; lia.
  - cbn [Py.digits_aux].
    destruct (n / 10 =? 0) eqn:Hq.
    + apply Z.eqb_eq in Hq. apply div10_small in Hq; [|lia].
      exists (String (Py.digit_char (n mod 10)) "").
      split; [reflexivity|].
      rewrite number_from_digit by (apply Z.mod_pos_bound; lia).
      f_equal. rewrite Z.mod_small; lia.
    + assert (0 <= n / 10) as Hq0 by (apply Z.div_pos; lia).
      assert (n / 10 < 2 ^ Z.of_nat (S fuel)) as Hq1.
      { apply div10_lt; [lia|]. rewrite (pow2_succ (S fuel)) in Hn. lia. }
      destruct (IH (n / 10) (String (Py.digit_char (n mod 10)) acc))
        as (d & Hd & Hv); [lia|].
      exists (d ++ String (Py.digit_char (n mod 10)) "")%string.
      split.
      { cbn [Py.digits_aux] in Hd. rewrite Hd. apply append_assoc_1. }
      rewrite number_from_app, Hv.
      rewrite number_from_digit by (apply Z.mod_pos_bound; lia).
      f_equal. pose proof (Z.div_mod n 10 ltac:(lia)). lia.
Qed.

Lemma digits_value n :
  0 <= n -> Reference.number_from 0 (Py.digits n) = Some n.
Proof.
  intros Hn. unfold Py.digits.
  destruct (digits_aux_value (Z.to_nat (Z.log2 n)) n "") as (d & Hd & H).
  - split; [assumption|].
    destruct (Z.eq_dec n 0) as [->|Hne]; [reflexivity|].
    rewrite Nat2Z.inj_succ, Z2Nat.id by apply Z.log2_nonneg.
    apply Z.log2_spec. lia.
  - rewrite Hd.
    replace (d ++ "")%string with d
      by (clear; induction d; simpl; congruence).
    exact H.
Qed.

Lemma zfill_value width n :
  0 <= n ->
  Reference.number (Py.zfill width (Py.digits n)) = Some n.
Proof.
  intros Hn. unfold Py.zfill.
  assert (forall k, Reference.number_from 0 (Py.zeros k ++ Py.digits n)
                    = Some n) as H.
  { induction k as [|k IH]; cbn [Py.zeros append].
    - now apply digits_value.
    - cbn [Reference.number_from]. exact IH. }
  destruct (digits_spec n Hn) as (_ & Hlen & _).
  unfold Reference.number.
  destruct (Py.zeros _ ++ Py.digits n)%string eqn:Hs.
  - apply (f_equal String.length) in Hs.
    rewrite string_length_app in Hs.
    change (String.length "") with 0%nat in Hs. lia.
  - rewrite <- Hs. apply H.
Qed.

(** [int(f"{i:0{width}d}")] is [i]. *)
Lemma format_0d_value i width :
  Reference.int_of_str (Py.format_0d i width) = Some i.
Proof.
  unfold Py.format_0d, Reference.int_of_str.
  destruct (i <? 0) eqn:Hi.
  - apply Z.ltb_lt in Hi. cbn [Reference.signed].
    rewrite zfill_value by lia. cbn [option_map]. f_equal. lia.
  - apply Z.ltb_ge in Hi.
    pose proof (zfill_value width i Hi) as Hv.
    pose proof (format_0d_digits i width Hi) as [Hd _].
    unfold Py.format_0d in Hd.
    replace (i <? 0) with false in Hd by (symmetry; now apply Z.ltb_ge).
    destruct (Py.zfill width (Py.digits i)) as [|c s] eqn:Hs;
      [discriminate|].
    cbn [all_digits] in Hd. apply andb_true_iff in Hd as [Hc _].
    unfold Reference.signed.
    destruct c as [[] [] [] [] [] [] [] []]; try discriminate Hc;
      exact Hv.
Qed.

Lemma append_inv_head (p a b : string) :
  (p ++ a)%string = (p ++ b)%string -> a = b.
Proof.
  induction p as [|c p IH]; cbn [append]; [auto|].
  intros H. injection H as H. now apply IH.
Qed.

Lemma generate_transaction_id_inj i j prefix width :
  Generate.generate_transaction_id i prefix width
  = Generate.generate_transaction_id j prefix width -> i = j.
Proof.
  unfold Generate.generate_transaction_id. intros H.
  apply append_inv_head in H. cbn [append] in H. injection H as H.
  pose proof (format_0d_value i width) as Hi.
  rewrite H, format_0d_value in Hi. now injection Hi.
Qed.

End Decimal.

(* ================================================================== *)
(** * The rows the generator makes *)

Section Batches.
Import Pandas Generate.
Variable L : Lib.

Lemma NoDup_map_inj {A B} (f : A -> B) l :
  (forall a b, f a = f b -> a = b) -> NoDup l -> NoDup (map f l).
Proof.
  intros Hf. induction 1 as [|a l Ha Hl IH]; cbn [map]; constructor;
    [|assumption].
  intros Hin. apply in_map_iff in Hin as (b & Hb & Hin).
  apply Hf in Hb. now subst.
Qed.

(** Property X11.  The transaction ids of a generated batch are pairwise
    distinct, whatever the number of records: the counter can be read
    back from the id (also beyond 999999, where the id outgrows its
    six digits).  [transactions today_obj first count] is the loop of
    lines 116-130, the column at position 0 the ids. *)
Theorem transaction_ids_distinct today_obj first count (w : world L) :
  NoDup (map (fun cells => nth 0 cells NaN)
             (fst (transactions today_obj first count w))).
Proof.
  rewrite transactions_ids.
  apply NoDup_map_inj; [|apply seq_NoDup].
  intros a b H.
  assert (first + Z.of_nat a = first + Z.of_nat b) as Heq; [|lia].
  apply (generate_transaction_id_inj _ _ "txn" 6). congruence.
Qed.

(** [random.choice] picks an element, given the contract of
    [_randbelow]. *)
Lemma choice_In (seq : list string) (w : world L) :
  randbelow_in_range L -> seq <> [] -> In (fst (choice seq w)) seq.
Proof.
  intros Hr Hne. unfold choice, bind, draw, ret.
  destruct (randbelow L (List.length seq) (random_state w)) as [i s] eqn:Hi.
  cbn [fst]. apply nth_In.
  change i with (fst (i, s)). rewrite <- Hi. apply Hr.
  destruct seq; [congruence | cbn; lia].
Qed.

Lemma is_chargeback_cases (w : world L) :
  fst (generate_is_chargeback w) = 0 \/ fst (generate_is_chargeback w) = 1.
Proof.
  unfold generate_is_chargeback, bind, draw, ret.
  destruct (random L (random_state w)) as [x s]. cbn [fst].
  destruct (SFltb x CHARGEBACK_RATE); auto.
Qed.

(** One pass of the loop: the shape of the record and where its
    drawn fields come from. *)
Lemma transaction_cells today_obj i (w : world L) :
  exists user_id ts amount currency payment_method country device
         is_chargeback,
    fst (transaction today_obj i w)
    = [ VStr (generate_transaction_id i "txn" 6); VStr user_id; VStr ts;
        VFloat amount; VStr currency; VStr payment_method; VStr country;
        VStr device; VInt is_chargeback ]
    /\ (is_chargeback = 0 \/ is_chargeback = 1)
    /\ (randbelow_in_range L ->
        In user_id user_pool /\ In currency CURRENCIES
        /\ In payment_method PAYMENT_METHODS /\ In device DEVICES).
Proof.
  unfold transaction, bind, ret.
  destruct (generate_timestamp today_obj w) as [ts w1].
  pose proof (fun H => choice_In user_pool w1 H) as Hu.
  unfold choose_user_id.
  destruct (choice user_pool w1) as [uid w2].
  destruct (generate_amount AMOUNT_MIN AMOUNT_MAX w2) as [amt w3].
  pose proof (fun H => choice_In CURRENCIES w3 H) as Hcur.
  unfold generate_currency.
  destruct (choice CURRENCIES w3) as [cur w4].
  pose proof (fun H => choice_In PAYMENT_METHODS w4 H) as Hpm.
  unfold generate_payment_method.
  destruct (choice PAYMENT_METHODS w4) as [pm w5].
  destruct (generate_country w5) as [co w6].
  pose proof (fun H => choice_In DEVICES w6 H) as Hdev.
  unfold generate_device.
  destruct (choice DEVICES w6) as [dev w7].
  pose proof (is_chargeback_cases w7) as Hcb.
  destruct (generate_is_chargeback w7) as [cb w8].
  cbn [fst] in *.
  exists uid, ts, amt, cur, pm, co, dev, cb.
  split; [reflexivity|]. split; [assumption|].
  intros Hr. repeat split;
    [apply Hu | apply Hcur | apply Hpm | apply Hdev];
    try assumption; discriminate.
Qed.

(** The records of the loop are its passes. *)
Lemma transactions_In today_obj count :
  forall first (w : world L) cells,
  In cells (fst (transactions today_obj first count w)) ->
  exists i (w' : world L), first <= i < first + Z.of_nat count
               /\ cells = fst (transaction today_obj i w').
Proof.
  induction count as [|count IH]; intros first w cells; [intros []|].
  cbn [transactions]. unfold bind at 1, bind at 1, ret.
  destruct (transaction today_obj first w) as [t w1] eqn:Ht.
  destruct (transactions today_obj (first + 1) count w1) as [ts w2] eqn:Hts.
  cbn [fst]. intros [<- | Hin].
  - exists first, w. rewrite Ht. split; [lia | reflexivity].
  - destruct (IH (first + 1) w1 cells) as (i & w' & Hi & Hc).
    + now rewrite Hts.
    + exists i, w'. split; [lia | assumption].
Qed.

Lemma user_pool_matches u :
  In u user_pool -> Re.matches "^u_\d{4}$" u = true.
Proof.
  assert (forallb (Re.matches "^u_\d{4}$") user_pool = true) as H
    by (vm_compute; reflexivity).
  rewrite forallb_forall in H. apply H.
Qed.

(** Property X12.  What the generator decides itself always satisfies the
    schema of the transform.  Of every record of the loop, the cells
    of [transaction_id] (for up to 999999 records), [user_id],
    [currency], [payment_method], [device] and [is_chargeback] are
    present, have the dtype that the schema declares for the column
    and pass every check of the column, given that [_randbelow(n)]
    is below [n].  (The cells are taken as the generator makes them;
    the other three columns hold what Faker, the clock and the float
    arithmetic give.) *)
Theorem generated_cells_pass today_obj count (w : world L) cells name c k :
  randbelow_in_range L ->
  Z.of_nat count <= 999999 ->
  In cells (fst (transactions today_obj 1 count w)) ->
  In name ["transaction_id"; "user_id"; "currency"; "payment_method";
           "device"; "is_chargeback"] ->
  In (name, c) (Pandera.columns Transform.schema) ->
  position name cols = Some k ->
  isna (nth k cells NaN) = false
  /\ Pandera.has_dtype (Pandera.dtype c) (nth k cells NaN) = true
  /\ forall ch, In ch (Pandera.checks c) ->
       Pandera.check_value ch (nth k cells NaN) = true.
Proof.
  intros Hr Hcount Hcells Hname Hc Hk.
  apply transactions_In in Hcells as (i & w' & Hi & ->).
  destruct (transaction_cells today_obj i w')
    as (uid & ts & amt & cur & pm & co & dev & cb & -> & Hcb & Hin).
  destruct (Hin Hr) as (Huid & Hcur & Hpm & Hdev). clear Hin.
  cbn [In] in Hname.
  repeat destruct Hname as [<- | Hname]; try contradiction;
    cbn in Hk; injection Hk as <-;
    cbn in Hc;
    repeat (destruct Hc as [Hc | Hc]; [try discriminate Hc|]);
    try contradiction;
    injection Hc as <-;
    cbn [nth isna Pandera.has_dtype Pandera.dtype Pandera.checks];
    (split; [reflexivity|]); (split; [reflexivity|]);
    intros ch [<- | []]; cbn [Pandera.check_value].
  - apply transaction_id_matches. lia.
  - now apply user_pool_matches.
  - cbn in Hcur. repeat destruct Hcur as [<- | Hcur]; try reflexivity.
    destruct Hcur.
  - cbn in Hpm. repeat destruct Hpm as [<- | Hpm]; try reflexivity.
    destruct Hpm.
  - cbn in Hdev. repeat destruct Hdev as [<- | Hdev]; try reflexivity.
    destruct Hdev.
  - destruct Hcb as [-> | ->]; reflexivity.
Qed.

Lemma transactions_length today_obj count :
  forall first (w : world L),
  List.length (fst (transactions today_obj first count w)) = count.
Proof.
  induction count as [|count IH]; intros first w; [reflexivity|].
  cbn [transactions]. unfold bind at 1, bind at 1, ret.
  destruct (transaction today_obj first w) as [t w1].
  specialize (IH (first + 1) w1).
  destruct (transactions today_obj (first + 1) count w1) as [ts w2].
  cbn [fst List.length] in *. now rewrite IH.
Qed.

(** The loop over [a + b] records is the loop over [a] records
    followed by the loop over [b] more. *)
Lemma transactions_app today_obj a b :
  forall first (w : world L),
  transactions today_obj first (a + b) w
  = let (xs, w1) := transactions today_obj first a w in
    let (ys, w2) := transactions today_obj (first + Z.of_nat a) b w1 in
    (xs ++ ys, w2).
Proof.
  induction a as [|a IH]; intros first w.
  - cbn [Nat.add transactions ret]. rewrite Z.add_0_r.
    now destruct (transactions today_obj first b w).
  - cbn [Nat.add transactions]. unfold bind at 1 2 3 4, ret.
    destruct (transaction today_obj first w) as [t w1].
    rewrite IH.
    destruct (transactions today_obj (first + 1) a w1) as [xs w2].
    replace (first + 1 + Z.of_nat a) with (first + Z.of_nat (S a)) by lia.
    now destruct (transactions today_obj (first + Z.of_nat (S a)) b w2).
Qed.

Lemma firstn_combine_seq {A} (xs ys : list A) :
  forall s,
  firstn (List.length xs)
         (combine (seq s (List.length (xs ++ ys))) (xs ++ ys))
  = combine (seq s (List.length xs)) xs.
Proof.
  induction xs as [|x xs IH]; intros s; [reflexivity|].
  cbn [app List.length seq combine firstn]. f_equal. apply IH.
Qed.

(** Property X13.  A run for fewer records makes the first records of a run
    for more: with the same seed and the same run date, the batch of
    [k] records is the batch of [n >= k] records cut after its first
    [k] rows. *)
Theorem fewer_records_prefix (w : world L) k n seed_value date dfk dfn :
  k <= n ->
  generate w k seed_value date = Py.Ok dfk ->
  generate w n seed_value date = Py.Ok dfn ->
  df_columns dfk = df_columns dfn
  /\ df_rows dfk = firstn (Z.to_nat k) (df_rows dfn).
Proof.
  unfold generate, script, seeding, main, bind. cbn [fst today].
  intros Hkn Hk Hn.
  destruct (k <=? 0) eqn:Hk0; [discriminate|].
  destruct (n <=? 0) eqn:Hn0; [discriminate|].
  apply Z.leb_gt in Hk0, Hn0.
  destruct (match date with
            | EmptyString => Some (today w)
            | String _ _ => fromisoformat L date
            end) as [d|]; [|discriminate].
  set (w0 := {| random_state := seed L seed_value;
                fake := seed_instance L seed_value;
                today := today w |}) in *.
  replace (Z.to_nat n) with (Z.to_nat k + (Z.to_nat n - Z.to_nat k))%nat
    in Hn by lia.
  rewrite transactions_app in Hn.
  pose proof (transactions_length d (Z.to_nat k) 1 w0) as Hlen.
  destruct (transactions d 1 (Z.to_nat k) w0) as [xs w1].
  destruct (transactions d (1 + Z.of_nat (Z.to_nat k)) _ w1) as [ys w2].
  cbn [fst] in *. injection Hk as <-. injection Hn as <-.
  cbn [frame df_columns df_rows]. split; [reflexivity|]. symmetry.
  rewrite <- Hlen. apply firstn_combine_seq.
Qed.

End Batches.

(* ================================================================== *)
(** * The files of a run *)

Section Files.
Import Pandas Pandera Transform.
Variable C : Csv.
Variable D : Py.Dates.
Variable E : Engine.

(** The three paths of a run date are three files. *)
Lemma paths_distinct today_str :
  input_file today_str <> curated_path today_str
  /\ input_file today_str <> quarantine_path today_str
  /\ curated_path today_str <> quarantine_path today_str.
Proof. repeat split; intros H; discriminate H. Qed.

Lemma write_same (path : string) (f : file C) (fs : disk C) :
  write path f fs path = Some f.
Proof. unfold write. now rewrite String.eqb_refl. Qed.

Lemma write_other (path p : string) (f : file C) (fs : disk C) :
  p <> path -> write path f fs p = fs p.
Proof. intros H. unfold write. apply String.eqb_neq in H. now rewrite H. Qed.

(** A run that returns, step by step. *)
Lemma run_Ok run_date today fs out fs' :
  run C D E run_date today fs = Py.Ok (out, fs') ->
  exists today_obj f,
    Py.today_obj D run_date today = Py.Ok today_obj
    /\ fs (input_file (Py.date_isoformat D today_obj)) = Some f
    /\ main E (Some (frame (fst (read_csv C f)) (snd (read_csv C f))))
       = Py.Ok out
    /\ fs' = let fs1 := write (curated_path (Py.date_isoformat D today_obj))
                              (to_csv C (curated_file out)) fs in
             match quarantine_file out with
             | Some bad =>
                 write (quarantine_path (Py.date_isoformat D today_obj))
                       (to_csv C bad) fs1
             | None => fs1
             end.
Proof.
  unfold run. intros H.
  destruct (Py.today_obj D run_date today) as [d|e]; cbn [Py.bind] in H;
    [|discriminate].
  destruct (fs (input_file (Py.date_isoformat D d))) as [f|] eqn:Hf;
    [|discriminate].
  destruct (read_csv C f) as [columns data] eqn:Hread.
  destruct (main E (Some (frame columns data))) as [out'|e] eqn:Hmain;
    cbn [Py.bind] in H; [|discriminate].
  injection H as <- <-. exists d, f. rewrite Hread. cbn [fst snd].
  repeat split; assumption || reflexivity.
Qed.

(** Property X14.  What a run that returns does to the files.  It reads the
    raw file of its run date and leaves it as it is; it writes the
    curated file, which holds the curated frame; it writes the
    quarantine file when records are quarantined and otherwise leaves
    that path alone, so that a quarantine file of an earlier run for
    the same date stays in place; it touches no other file. *)
Theorem run_on_disk run_date today fs out fs' :
  run C D E run_date today fs = Py.Ok (out, fs') ->
  exists today_obj f,
    Py.today_obj D run_date today = Py.Ok today_obj
    /\ let today_str := Py.date_isoformat D today_obj in
       fs (input_file today_str) = Some f
       /\ main E (Some (frame (fst (read_csv C f)) (snd (read_csv C f))))
          = Py.Ok out
       /\ fs' (input_file today_str) = Some f
       /\ fs' (curated_path today_str) = Some (to_csv C (df_good out))
       /\ fs' (quarantine_path today_str)
          = (if 0 <? len (df_bad out) then Some (to_csv C (df_bad out))
             else fs (quarantine_path today_str))
       /\ forall p, p <> curated_path today_str ->
                    p <> quarantine_path today_str -> fs' p = fs p.
Proof.
  intros H. destruct (run_Ok _ _ _ _ _ H) as (d & f & Hd & Hf & Hmain & ->).
  exists d, f. split; [assumption|]. cbn zeta.
  destruct (paths_distinct (Py.date_isoformat D d)) as (H1 & H2 & H3).
  assert (curated_file out = df_good out
          /\ quarantine_file out
             = (if negb (empty (df_bad out)) then Some (df_bad out)
                else None)) as [Hcur Hqua].
  { pose proof Hmain as H'. unfold main in H'.
    destruct (separate E _) as [[[g b] printed]|e];
      cbn [Py.bind] in H'; [|discriminate].
    destruct (summary _ _ _); cbn [Py.bind] in H'; [|discriminate].
    injection H' as <-. now split. }
  rewrite Hcur, Hqua.
  destruct (separate_cases E _ _ _ Hmain)
    as [(_ & _ & _ & Hbad & ->) | (_ & _ & _ & Hbad & ->)];
    cbn [negb].
  - rewrite Hbad. repeat split; try assumption.
    + apply write_same.
    + intros p Hp _. now rewrite write_other.
  - apply Z.ltb_lt in Hbad. rewrite Hbad.
    repeat split; try assumption.
    + rewrite write_other by assumption. apply write_same.
    + apply write_same.
    + intros p Hp Hq. now rewrite !write_other.
Qed.

(** Property X15.  Running the transform again for the same date changes
    nothing: a second run on the disk that the first one left returns
    the same frames and the same report, and leaves every file as the
    first run left it. *)
Theorem rerun_same_disk run_date today fs out fs' :
  run C D E run_date today fs = Py.Ok (out, fs') ->
  exists fs'',
    run C D E run_date today fs' = Py.Ok (out, fs'')
    /\ forall p, fs'' p = fs' p.
Proof.
  intros H. destruct (run_Ok _ _ _ _ _ H) as (d & f & Hd & Hf & Hmain & ->).
  destruct (paths_distinct (Py.date_isoformat D d)) as (H1 & H2 & H3).
  set (cur := curated_path (Py.date_isoformat D d)) in *.
  set (qua := quarantine_path (Py.date_isoformat D d)) in *.
  set (fs1 := write cur (to_csv C (curated_file out)) fs).
  set (fs2 := match quarantine_file out with
              | Some bad => write qua (to_csv C bad) fs1
              | None => fs1
              end).
  assert (fs2 (input_file (Py.date_isoformat D d)) = Some f) as Hin.
  { subst fs2 fs1. destruct (quarantine_file out);
      now rewrite !write_other. }
  eexists. split.
  - unfold run. rewrite Hd. cbn [Py.bind]. fold cur qua. rewrite Hin.
    destruct (read_csv C f) as [columns data]. cbn [fst snd] in Hmain.
    rewrite Hmain. cbn [Py.bind]. reflexivity.
  - intros p. subst fs2 fs1. unfold write.
    destruct (quarantine_file out);
      destruct (String.eqb p qua), (String.eqb p cur); reflexivity.
Qed.

(** Property X16.  The transform finds what the generator saved.  When the
    two scripts settle on the same day (the same run date is passed
    to both, or none on the same day), the transform reads the file
    that the generator wrote for its frame [df], and the run goes as
    [main] goes on the frame that this file reads as: it returns its
    outputs, or stops with its exception, and never with the exit
    for a missing input. *)
Theorem transform_reads_generated run_date today d df fs :
  Py.today_obj D run_date today = Py.Ok d ->
  let B := frame (fst (read_csv C (to_csv C df)))
                 (snd (read_csv C (to_csv C df))) in
  (forall out, main E (Some B) = Py.Ok out ->
     exists fs', run C D E run_date today (Generate.save C D d df fs)
                 = Py.Ok (out, fs'))
  /\ (forall e, main E (Some B) = Py.Raise e ->
        run C D E run_date today (Generate.save C D d df fs) = Py.Raise e).
Proof.
  intros Hd B. subst B.
  assert (Generate.save C D d df fs (input_file (Py.date_isoformat D d))
          = Some (to_csv C df)) as Hin.
  { unfold Generate.save.
    change (Generate.output_file (Py.date_isoformat D d))
      with (input_file (Py.date_isoformat D d)).
    apply write_same. }
  unfold run. rewrite Hd. cbn [Py.bind]. rewrite Hin.
  destruct (read_csv C (to_csv C df)) as [columns data]. cbn [fst snd].
  split.
  - intros out ->. cbn [Py.bind]. now eexists.
  - intros e ->. reflexivity.
Qed.

(** Property X17.  When a run exits on its own, once its arguments are
    parsed.  After [parse_args()] has returned, lines 38-107 end in
    a [SystemExit] in two cases only, each with its message: the run
    date is a text that is not empty and that [date.fromisoformat]
    rejects; or the date is settled and there is no raw file for it,
    and then the message names the path that was looked up.  (An
    empty run date counts as none, and the day of the clock is used.
    The exits that argparse takes at line 36, on [-h] and on an
    argument it does not know, come before and are not part of
    [run].) *)
Theorem run_exits run_date today fs msg :
  run C D E run_date today fs = Py.Raise (Py.SystemExit msg)
  <-> (exists s, run_date = Some s /\ s <> ""
                 /\ Py.date_fromisoformat D s = None
                 /\ msg = "Error: run_date must be in 'YYYY-MM-DD' format.")
      \/ (exists d, Py.today_obj D run_date today = Py.Ok d
                    /\ fs (input_file (Py.date_isoformat D d)) = None
                    /\ msg = ("Error: Input file "
                              ++ input_file (Py.date_isoformat D d)
                              ++ " not found.")%string).
Proof.
  unfold run. split.
  - destruct (Py.today_obj D run_date today) as [d|e] eqn:Hd;
      cbn [Py.bind].
    + intros H. right. exists d. split; [reflexivity|].
      destruct (fs (input_file (Py.date_isoformat D d))) as [f|].
      * exfalso. destruct (read_csv C f) as [columns data].
        destruct (main E (Some (frame columns data))) as [out|e] eqn:Hmain;
          cbn [Py.bind] in H; [discriminate|].
        injection H as ->. unfold main in Hmain.
        destruct (separate E (frame columns data)) as [[[g b] pr]|e']
          eqn:Hsep; cbn [Py.bind] in Hmain.
        -- destruct (summary_returns (len (frame columns data))
                       (len g) (len b)) as [r Hr].
           rewrite Hr in Hmain. discriminate.
        -- injection Hmain as ->.
           destruct (separate_raises E _ _ Hsep); discriminate.
      * injection H as <-. now split.
    + intros H. injection H as ->. left.
      unfold Py.today_obj in Hd.
      destruct run_date as [[|c s]|]; try discriminate.
      destruct (Py.date_fromisoformat D (String c s)) eqn:Hs;
        [discriminate|].
      injection Hd as <-. exists (String c s). now repeat split.
  - intros [(s & -> & Hne & Hs & ->) | (d & Hd & Hf & ->)].
    + unfold Py.today_obj. destruct s as [|c s]; [congruence|].
      now rewrite Hs.
    + rewrite Hd. cbn [Py.bind]. now rewrite Hf.
Qed.

End Files.

(* ================================================================== *)
(** * The properties on worked batches *)

Section WorkedProperties.
Import Pandas Pandera Transform Examples.

(** The columns of the mixed batch convert, each to its dtype. *)
Lemma mixed_converts :
  converts Reference.engine (frame Generate.cols mixed_data).
Proof.
  intros name c k Hc Hk. cbn in Hc.
  repeat (destruct Hc as [Hc | Hc];
          [injection Hc as <- <-; vm_compute in Hk; injection Hk as <-;
           vm_compute; discriminate|]).
  destruct Hc.
Defined.

(** On the mixed batch and its [amount] column. *)
Lemma curated_rows_conform_witness :
  converts Reference.engine (frame Generate.cols mixed_data)
  /\ main Reference.engine (Some (frame Generate.cols mixed_data))
     = Py.Ok mixed_out
  /\ In ("amount", amount_column) (Pandera.columns schema)
  /\ exists k values,
       position "amount" Generate.cols = Some k
       /\ coerce_column Reference.engine (dtype amount_column)
            (column (frame Generate.cols mixed_data) k)
          = Some values
       /\ forall l, In l (index (df_good mixed_out)) ->
            isna (nth l values NaN) = false
            /\ has_dtype (dtype amount_column) (nth l values NaN) = true
            /\ (forall ch, In ch (checks amount_column) ->
                  check_value ch (nth l values NaN) = true)
            /\ (unique amount_column = true ->
                  duplicated values (nth l values NaN) = false).
Proof.
  split; [exact mixed_converts|].
  split; [vm_compute; reflexivity|]. split; [in_list|].
  apply (curated_rows_conform Reference.engine Generate.cols mixed_data
           mixed_out).
  - exact mixed_converts.
  - vm_compute. reflexivity.
  - in_list.
Defined.

(** On the mixed batch: the record at row 2 is fine. *)
Lemma conforming_rows_curated_witness :
  converts Reference.engine (frame Generate.cols mixed_data)
  /\ main Reference.engine (Some (frame Generate.cols mixed_data))
     = Py.Ok mixed_out
  /\ (2 < List.length mixed_data)%nat
  /\ In 2%nat (index (df_good mixed_out)).
Proof.
  split; [exact mixed_converts|].
  split; [vm_compute; reflexivity|]. split; [cbn; lia|].
  apply (conforming_rows_curated Reference.engine Generate.cols mixed_data
           mixed_out 2).
  - exact mixed_converts.
  - vm_compute. reflexivity.
  - cbn. lia.
  - intros name c k values Hc Hk Hco. cbn in Hc.
    repeat (destruct Hc as [Hc | Hc];
            [injection Hc as <- <-; vm_compute in Hk; injection Hk as <-;
             vm_compute in Hco; injection Hco as <-;
             split; [vm_compute; reflexivity|];
             split;
               [|intros Hu;
                 first [discriminate Hu | vm_compute; reflexivity]];
             intros ch Hch; cbn in Hch;
             repeat (destruct Hch as [<- | Hch];
                     [vm_compute; reflexivity|]);
             destruct Hch|]).
    destruct Hc.
Defined.

(** On the mixed batch. *)
Lemma quarantine_exact_witness :
  main Reference.engine (Some (frame Generate.cols mixed_data))
  = Py.Ok mixed_out
  /\ forall l,
       (In l (index (df_bad mixed_out))
        <-> exists fc,
              In fc (failure_cases Reference.engine
                       (frame Generate.cols mixed_data))
              /\ fc_index fc = Some l)
       /\ (In l (index (df_good mixed_out))
           <-> (l < List.length mixed_data)%nat
               /\ forall fc,
                    In fc (failure_cases Reference.engine
                             (frame Generate.cols mixed_data)) ->
                    fc_index fc <> Some l).
Proof.
  split; [vm_compute; reflexivity|].
  apply (quarantine_exact Reference.engine Generate.cols mixed_data
           mixed_out).
  vm_compute. reflexivity.
Defined.

(** On the mixed batch: one record of five is valid. *)
Lemma report_witness :
  main Reference.engine (Some (frame Generate.cols mixed_data))
  = Py.Ok mixed_out
  /\ curated_file mixed_out = df_good mixed_out
  /\ len (df_good mixed_out) + len (df_bad mixed_out)
     = Z.of_nat (List.length mixed_data)
  /\ ((failure_cases Reference.engine (frame Generate.cols mixed_data) = []
       /\ len (df_bad mixed_out) = 0
       /\ quarantine_file mixed_out = None
       /\ stdout mixed_out
          = [Total_records_processed 5]
            ++ [Valid_records 5 (Qmake 5 1 / Qmake 5 1);
                Invalid_records 0 (Qmake 0 1 / Qmake 5 1)]
            ++ [No_invalid_records; Transformed_data_saved])
      \/ (failure_cases Reference.engine (frame Generate.cols mixed_data)
          <> []
          /\ 0 < len (df_bad mixed_out)
          /\ quarantine_file mixed_out = Some (df_bad mixed_out)
          /\ stdout mixed_out
             = [Data_validation_errors_found;
                Total_records_processed 5;
                Valid_records 1 (Qmake 1 1 / Qmake 5 1);
                Invalid_records 4 (Qmake 4 1 / Qmake 5 1);
                Invalid_records_moved_to_quarantine;
                Transformed_data_saved])).
Proof.
  split; [vm_compute; reflexivity|].
  apply (report Reference.engine Generate.cols mixed_data mixed_out).
  vm_compute. reflexivity.
Defined.

(** On a batch whose second record has no currency. *)
Lemma missing_value_quarantined_witness :
  position "currency" Generate.cols = Some 4%nat
  /\ nth_error missing_currency_data 1 = Some missing_currency_row
  /\ nth 4 missing_currency_row NaN = NaN
  /\ exists fc,
       In fc (failure_cases Reference.engine
                (frame Generate.cols missing_currency_data))
       /\ fc_column fc = Some "currency" /\ fc_check fc = not_nullable
       /\ fc_index fc = Some 1%nat.
Proof.
  split; [reflexivity|]. split; [reflexivity|]. split; [reflexivity|].
  apply (missing_value_quarantined Reference.engine Generate.cols
           missing_currency_data "currency" 4 1 missing_currency_row).
  - in_list.
  - reflexivity.
  - reflexivity.
  - reflexivity.
Defined.

(** On the mixed batch: the amount of the broken record is -5. *)
Lemma amount_not_positive_quarantined_witness :
  position "amount" Generate.cols = Some 3%nat
  /\ nth_error mixed_data 4 = Some broken_row
  /\ SFltb (float_of_int 0) (float_of_int (-5)) = false
  /\ main Reference.engine (Some (frame Generate.cols mixed_data))
     = Py.Ok mixed_out
  /\ In (4%nat, broken_row) (df_rows (df_bad mixed_out))
  /\ ~ In 4%nat (index (df_good mixed_out)).
Proof.
  split; [reflexivity|]. split; [reflexivity|]. split; [reflexivity|].
  split; [vm_compute; reflexivity|].
  apply (amount_not_positive_quarantined Reference.engine Generate.cols
           mixed_data 3 4 broken_row (float_of_int (-5)) mixed_out).
  - reflexivity.
  - reflexivity.
  - reflexivity.
  - reflexivity.
  - vm_compute. reflexivity.
Defined.

(** On the id of the first record. *)
Lemma id_patterns_accept_witness :
  In ("transaction_id", transaction_id_column) (Pandera.columns schema)
  /\ In ("user_id", user_id_column) (Pandera.columns schema)
  /\ ((forall ch, In ch (checks transaction_id_column) ->
         check_value ch (VStr "txn_000001") = true)
      <-> exists d, String.length d = 6%nat /\ all_digits d = true
                    /\ ("txn_000001" = ("txn_" ++ d)%string
                        \/ "txn_000001"
                           = ("txn_" ++ d
                              ++ String (ascii_of_nat 10) "")%string)).
Proof.
  split; [in_list|]. split; [in_list|].
  apply (id_patterns_accept transaction_id_column user_id_column
           "txn_000001"); in_list.
Defined.

(** On the country code US. *)
Lemma country_checks_accept_witness :
  In ("country", country_column) (Pandera.columns schema)
  /\ ((forall ch, In ch (checks country_column) ->
         check_value ch (VStr "US") = true)
      <-> exists a b, "US" = String a (String b "")
                      /\ Re.is_upper a = true /\ Re.is_upper b = true).
Proof.
  split; [in_list|].
  apply (country_checks_accept country_column "US"). in_list.
Defined.

(** The counting generator keeps the contract of [_randbelow]. *)
Lemma reference_randbelow_in_range : randbelow_in_range Reference.lib.
Proof.
  intros n s Hn. cbn [Reference.lib Generate.randbelow fst].
  apply Nat.mod_upper_bound. lia.
Qed.

(** On the first record of a batch of three, and its user id. *)
Lemma generated_cells_pass_witness :
  randbelow_in_range Reference.lib
  /\ Z.of_nat 3 <= 999999
  /\ In (nth 0 (fst (Generate.transactions 739007 1 3 fresh_world)) [])
        (fst (Generate.transactions 739007 1 3 fresh_world))
  /\ In ("user_id", user_id_column) (Pandera.columns schema)
  /\ position "user_id" Generate.cols = Some 1%nat
  /\ forall ch, In ch (checks user_id_column) ->
       check_value ch
         (nth 1 (nth 0 (fst (Generate.transactions 739007 1 3 fresh_world))
                     []) NaN) = true.
Proof.
  split; [exact reference_randbelow_in_range|].
  split; [cbn; lia|]. split; [vm_compute; left; reflexivity|].
  split; [in_list|]. split; [reflexivity|].
  apply (generated_cells_pass Reference.lib 739007 3 fresh_world
           (nth 0 (fst (Generate.transactions 739007 1 3 fresh_world)) [])
           "user_id" user_id_column 1).
  - exact reference_randbelow_in_range.
  - cbn. lia.
  - vm_compute. left. reflexivity.
  - in_list.
  - in_list.
  - reflexivity.
Defined.

(** On the batches of two and of three records. *)
Lemma fewer_records_prefix_witness :
  2 <= 3
  /\ Generate.generate fresh_world 2 Generate.SEED run_date
     = Py.Ok (generated 2)
  /\ Generate.generate fresh_world 3 Generate.SEED run_date
     = Py.Ok (generated 3)
  /\ df_columns (generated 2) = df_columns (generated 3)
  /\ df_rows (generated 2) = firstn (Z.to_nat 2) (df_rows (generated 3)).
Proof.
  split; [lia|]. split; [vm_compute; reflexivity|].
  split; [vm_compute; reflexivity|].
  apply (fewer_records_prefix Reference.lib fresh_world 2 3 Generate.SEED
           run_date).
  - lia.
  - vm_compute. reflexivity.
  - vm_compute. reflexivity.
Defined.

(** The transform on the disk that holds the mixed batch. *)
Example run_mixed_disk :
  run Reference.csv Reference.dates Reference.engine (Some run_date) 0
      raw_disk
  = Py.Ok (mixed_out, transformed_disk).
Proof. vm_compute. reflexivity. Qed.

(** On that disk. *)
Lemma run_on_disk_witness :
  run Reference.csv Reference.dates Reference.engine (Some run_date) 0
      raw_disk
  = Py.Ok (mixed_out, transformed_disk)
  /\ exists today_obj f,
       Py.today_obj Reference.dates (Some run_date) 0 = Py.Ok today_obj
       /\ let today_str := Py.date_isoformat Reference.dates today_obj in
          raw_disk (input_file today_str) = Some f
          /\ main Reference.engine
               (Some (frame (fst (read_csv Reference.csv f))
                            (snd (read_csv Reference.csv f))))
             = Py.Ok mixed_out
          /\ transformed_disk (input_file today_str) = Some f
          /\ transformed_disk (curated_path today_str)
             = Some (to_csv Reference.csv (df_good mixed_out))
          /\ transformed_disk (quarantine_path today_str)
             = (if 0 <? len (df_bad mixed_out)
                then Some (to_csv Reference.csv (df_bad mixed_out))
                else raw_disk (quarantine_path today_str))
          /\ forall p, p <> curated_path today_str ->
                       p <> quarantine_path today_str ->
                       transformed_disk p = raw_disk p.
Proof.
  split; [vm_compute; reflexivity|].
  apply (run_on_disk Reference.csv Reference.dates Reference.engine
           (Some run_date) 0 raw_disk mixed_out transformed_disk).
  vm_compute. reflexivity.
Defined.

(** On that disk, the transform is run twice. *)
Lemma rerun_same_disk_witness :
  run Reference.csv Reference.dates Reference.engine (Some run_date) 0
      raw_disk
  = Py.Ok (mixed_out, transformed_disk)
  /\ exists fs'',
       run Reference.csv Reference.dates Reference.engine (Some run_date) 0
           transformed_disk
       = Py.Ok (mixed_out, fs'')
       /\ forall p, fs'' p = transformed_disk p.
Proof.
  split; [vm_compute; reflexivity|].
  apply (rerun_same_disk Reference.csv Reference.dates Reference.engine
           (Some run_date) 0 raw_disk mixed_out transformed_disk).
  vm_compute. reflexivity.
Defined.

(** The generator saves the mixed batch for 2024-05-01, the
    transform is run for that date. *)
Lemma transform_reads_generated_witness :
  Py.today_obj Reference.dates (Some run_date) 0 = Py.Ok 739007
  /\ exists fs',
       run Reference.csv Reference.dates Reference.engine (Some run_date) 0
           (Generate.save Reference.csv Reference.dates 739007
              (frame Generate.cols mixed_data) (fun _ => None))
       = Py.Ok (mixed_out, fs').
Proof.
  split; [vm_compute; reflexivity|].
  apply (transform_reads_generated Reference.csv Reference.dates
           Reference.engine (Some run_date) 0 739007
           (frame Generate.cols mixed_data) (fun _ => None)).
  - vm_compute. reflexivity.
  - vm_compute. reflexivity.
Defined.

End WorkedProperties.
